(** * SuggestPilot: the context-to-suggestion pipeline

    A shallow embedding of the extension's JavaScript sources:

    - [src/utils/rate-limiter.js]         -> [RateLimiter]
    - [src/services/form-detector.js]     -> [FormDetector]
    - [src/content/content-script.js]     -> [ContentScript], [SuggestionFlow]
    - [src/services/context-collector.js] -> [ContextCollector]
    - the configuration manager           -> [ConfigManager]
    - [src/services/groq-service.js]      -> [GroqService]
    - the background service worker (the file at
      [src/services/session-tracker.js])  -> [ServiceWorker]

    The session tracker itself ([getIntentContext], [recordQuery]) is not
    among the sources; what it answers is part of the environment of a
    request.

    Conventions.  JavaScript strings are modelled by [string]; the
    embedding covers 7-bit ASCII text (case folding, white space and word
    characters are the ASCII ones).  Timestamps are integers ([Z],
    milliseconds).  Code that may throw returns an [Outcome]; code that
    talks to the browser or to the network threads a [World] that records
    what was done.  Definitions come first, the properties follow. *)

From Stdlib Require Import Bool Ascii String List ZArith QArith Lia.
From Stdlib Require Import DecimalString.
Import ListNotations.

Set Warnings "-register-all".

Local Open Scope string_scope.
Local Open Scope list_scope.
Local Open Scope Z_scope.

(* ================================================================== *)
(** ** JavaScript string primitives *)
(* ================================================================== *)

Module Js.

Definition code (c : ascii) : nat := nat_of_ascii c.

Definition between (lo hi : nat) (c : ascii) : bool :=
  (Nat.leb lo (code c) && Nat.leb (code c) hi)%bool.

Definition is_upper : ascii -> bool := between 65 90.
Definition is_lower : ascii -> bool := between 97 122.
Definition is_digit : ascii -> bool := between 48 57.

(** [\s]: tab, line feed, vertical tab, form feed, carriage return, space. *)
Definition is_space (c : ascii) : bool :=
  (between 9 13 c || Nat.eqb (code c) 32)%bool.

(** [\w]: letters, digits and the underscore. *)
Definition is_word (c : ascii) : bool :=
  (is_upper c || is_lower c || is_digit c || Nat.eqb (code c) 95)%bool.

Definition lower_char (c : ascii) : ascii :=
  if is_upper c then ascii_of_nat (code c + 32) else c.

(** [s.toLowerCase()] *)
Fixpoint toLowerCase (s : string) : string :=
  match s with
  | EmptyString => EmptyString
  | String c s' => String (lower_char c) (toLowerCase s')
  end.

(** [s.startsWith(p)] *)
Fixpoint startsWith (s p : string) : bool :=
  match p, s with
  | EmptyString, _ => true
  | String _ _, EmptyString => false
  | String a p', String b s' => (Ascii.eqb a b && startsWith s' p')%bool
  end.

(** [s.includes(p)] *)
Fixpoint includes (s p : string) : bool :=
  (startsWith s p ||
   match s with
   | EmptyString => false
   | String _ s' => includes s' p
   end)%bool.

Fixpoint trimStart (s : string) : string :=
  match s with
  | String c s' => if is_space c then trimStart s' else s
  | EmptyString => EmptyString
  end.

(** Drops the white space at the end of [s]; the result is empty when
    nothing but white space is left. *)
Fixpoint trimEnd (s : string) : string :=
  match s with
  | EmptyString => EmptyString
  | String c s' =>
      match trimEnd s' with
      | EmptyString => if is_space c then EmptyString else String c EmptyString
      | t => String c t
      end
  end.

(** [s.trim()] *)
Definition trim (s : string) : string := trimEnd (trimStart s).

(** [s.slice(0, n)] for a non-negative [n]. *)
Fixpoint slice0 (n : nat) (s : string) : string :=
  match n, s with
  | S n', String c s' => String c (slice0 n' s')
  | _, _ => EmptyString
  end.

(** [l.join(sep)] *)
Fixpoint join (sep : string) (l : list string) : string :=
  match l with
  | [] => EmptyString
  | [x] => x
  | x :: rest => x ++ sep ++ join sep rest
  end.

(** [s.replace(/c/g, by)] for a character class [c]. *)
Fixpoint replace_class (cls : ascii -> bool) (by_ : ascii) (s : string) : string :=
  match s with
  | EmptyString => EmptyString
  | String c s' => String (if cls c then by_ else c) (replace_class cls by_ s')
  end.

(** [s.split(sep)[0]] for a one-character separator. *)
Fixpoint before_char (sep : ascii) (s : string) : string :=
  match s with
  | EmptyString => EmptyString
  | String c s' => if Ascii.eqb c sep then EmptyString else String c (before_char sep s')
  end.

Fixpoint all_chars (cls : ascii -> bool) (s : string) : bool :=
  match s with
  | EmptyString => true
  | String c s' => (cls c && all_chars cls s')%bool
  end.

(** [|| ''] and friends on a possibly missing string: [undefined], [null]
    and the empty string are the falsy ones. *)
Definition or_else (o : option string) (d : string) : string :=
  match o with
  | Some EmptyString | None => d
  | Some s => s
  end.

(** How [Array.prototype.join] and template literals print a missing
    attribute value. *)
Definition join_text (o : option string) : string :=
  match o with Some s => s | None => EmptyString end.

Definition template_text (o : option string) : string :=
  match o with Some s => s | None => "undefined" end.

(** The result of code that may throw: [Throw msg] carries the message
    of the error. *)
Inductive Outcome (A : Type) : Type :=
| Ret (a : A)
| Throw (msg : string).
Arguments Ret {A} a.
Arguments Throw {A} msg.

(** The double quote and the line feed. *)
Definition dq : string := String "034"%char EmptyString.
Definition nl : string := String "010"%char EmptyString.

Definition quoted (s : string) : string := dq ++ s ++ dq.

(** A number, as far as the sources look at one: whether it is truthy
    (neither zero nor NaN) and how [String(n)] prints it. *)
Record number : Type := { num_truthy : bool; num_text : string }.

(** Values as [JSON.parse] and [response.json()] produce them, and
    [undefined].  An object lists its own properties, each key once. *)
Inductive value : Type :=
| JUndefined
| JNull
| JBool (b : bool)
| JNum (n : number)
| JStr (s : string)
| JArr (l : list value)
| JObj (fields : list (string * value)).

(** [ToBoolean] *)
Definition truthy (v : value) : bool :=
  match v with
  | JUndefined | JNull => false
  | JBool b => b
  | JNum n => num_truthy n
  | JStr s => negb (String.eqb s "")
  | JArr _ | JObj _ => true
  end.

(** [a || b] *)
Definition or_ (a b : value) : value := if truthy a then a else b.

(** [a ?? b] *)
Definition nullish_or (a b : value) : value :=
  match a with
  | JUndefined | JNull => b
  | _ => a
  end.

Fixpoint lookup (fields : list (string * value)) (k : string) : value :=
  match fields with
  | [] => JUndefined
  | (k', v) :: rest => if String.eqb k' k then v else lookup rest k
  end.

(** [v.k] for a named property [k] of a value that is neither
    [undefined] nor [null]; arrays, strings, numbers and booleans have
    none of the names the sources ask for. *)
Definition get (v : value) (k : string) : value :=
  match v with
  | JObj fields => lookup fields k
  | _ => JUndefined
  end.

(** [v?.[0]] *)
Definition first_of (v : value) : value :=
  match v with
  | JArr (x :: _) => x
  | JStr (String c _) => JStr (String c EmptyString)
  | JObj fields => lookup fields "0"
  | _ => JUndefined
  end.

(** [v?.k] *)
Definition get_opt (v : value) (k : string) : value :=
  match v with
  | JUndefined | JNull => JUndefined
  | _ => get v k
  end.

(** [String(v)] *)
Fixpoint to_String (v : value) : string :=
  match v with
  | JUndefined => "undefined"
  | JNull => "null"
  | JBool true => "true"
  | JBool false => "false"
  | JNum n => num_text n
  | JStr s => s
  | JArr l =>
      join ","
        (map (fun x =>
                match x with
                | JUndefined | JNull => EmptyString
                | _ => to_String x
                end) l)
  | JObj _ => "[object Object]"
  end.

(** [Array.prototype.map] with the index. *)
Fixpoint mapi_from {A B : Type} (i : nat) (f : nat -> A -> B) (l : list A) : list B :=
  match l with
  | [] => []
  | x :: rest => f i x :: mapi_from (S i) f rest
  end.

Definition mapi {A B : Type} (f : nat -> A -> B) (l : list A) : list B :=
  mapi_from 0 f l.

(** The defined elements of a list. *)
Fixpoint somes {A : Type} (l : list (option A)) : list A :=
  match l with
  | [] => []
  | Some x :: rest => x :: somes rest
  | None :: rest => somes rest
  end.

End Js.

(* ================================================================== *)
(** ** What travels between the service worker and the page *)
(* ================================================================== *)

Module Message.
Import Js.

Record Suggestion : Type := { text : string; derivation : string }.

(** [{reason, suggestions, isFormFill, error}]; a property that is not
    set reads [JUndefined], [false] and [None]. *)
Record Result : Type :=
  { reason : value;
    suggestions : list Suggestion;
    isFormFill : bool;
    error : option string }.

(** [{success, ...result}] *)
Record Response : Type := { success : bool; result : Result }.

End Message.

(* ================================================================== *)
(** ** Regular expressions, as far as the sources use them *)
(* ================================================================== *)

Module Regex.
Import Js.

(** The patterns that are only ever tested: literals, character
    classes, the two anchors, sequence, alternative and option. *)
Inductive re : Type :=
| Eps
| Cls (p : ascii -> bool)
| Bol                       (* ^ *)
| Eol                       (* $ *)
| Cat (a b : re)
| Alt (a b : re)
| Opt (a : re).             (* a? *)

Definition chr (c : ascii) : re := Cls (Ascii.eqb c).

Fixpoint lit (s : string) : re :=
  match s with
  | EmptyString => Eps
  | String c s' => Cat (chr c) (lit s')
  end.

Fixpoint alts (l : list re) : re :=
  match l with
  | [] => Cls (fun _ => false)
  | [r] => r
  | r :: rest => Alt r (alts rest)
  end.

Fixpoint seq (l : list re) : re :=
  match l with
  | [] => Eps
  | [r] => r
  | r :: rest => Cat r (seq rest)
  end.

(** [accepts r bol s k]: some prefix of [s] matches [r] and the
    continuation [k] accepts what is left.  [bol] says whether the
    position is the start of the subject. *)
Fixpoint accepts (r : re) (bol : bool) (s : string)
         (k : bool -> string -> bool) : bool :=
  match r with
  | Eps => k bol s
  | Cls p =>
      match s with
      | String c s' => (p c && k false s')%bool
      | EmptyString => false
      end
  | Bol => (bol && k bol s)%bool
  | Eol => match s with EmptyString => k bol s | _ => false end
  | Cat a b => accepts a bol s (fun bol' s' => accepts b bol' s' k)
  | Alt a b => (accepts a bol s k || accepts b bol s k)%bool
  | Opt a => (accepts a bol s k || k bol s)%bool
  end.

Definition here (r : re) (bol : bool) (s : string) : bool :=
  accepts r bol s (fun _ _ => true).

Fixpoint search (r : re) (bol : bool) (s : string) : bool :=
  (here r bol s ||
   match s with
   | EmptyString => false
   | String _ s' => search r false s'
   end)%bool.

(** [/r/.test(s)] *)
Definition test (r : re) (s : string) : bool := search r true s.

(** Character classes of the sources. *)
Definition sep_us : ascii -> bool :=    (* [_\s-] *)
  fun c => (Ascii.eqb c "_" || is_space c || Ascii.eqb c "-")%bool.
Definition sep_u : ascii -> bool :=     (* [_\s] *)
  fun c => (Ascii.eqb c "_" || is_space c)%bool.
Definition non_word : ascii -> bool := fun c => negb (is_word c).
Definition dot : ascii -> bool :=       (* . *)
  fun c => negb (Nat.eqb (code c) 10 || Nat.eqb (code c) 13)%bool.

(** [a[_\s-]?b] and [a[_\s]?b] *)
Definition joined (a b : string) : re := seq [lit a; Opt (Cls sep_us); lit b].
Definition joined_u (a b : string) : re := seq [lit a; Opt (Cls sep_u); lit b].

(** The longest run of [cls] at the start of [s]. *)
Fixpoint run_of (cls : ascii -> bool) (s : string) : string :=
  match s with
  | String c s' => if cls c then String c (run_of cls s') else EmptyString
  | EmptyString => EmptyString
  end.

(** [s.slice(n)] *)
Fixpoint drop (n : nat) (s : string) : string :=
  match n, s with
  | S n', String _ s' => drop n' s'
  | _, _ => s
  end.

(** Group 1 of the first match of [prefix([cls]+)] in [s]: the longest
    run of [cls] after the leftmost [prefix] that is followed by one;
    [None] when there is no match. *)
Fixpoint group_after (prefix : string) (cls : ascii -> bool) (s : string)
  : option string :=
  let rest := drop (String.length prefix) s in
  if (startsWith s prefix &&
      match rest with String c _ => cls c | EmptyString => false end)%bool
  then Some (run_of cls rest)
  else match s with
       | EmptyString => None
       | String _ s' => group_after prefix cls s'
       end.

End Regex.

(* ================================================================== *)
(** ** src/utils/rate-limiter.js *)
(* ================================================================== *)

Module RateLimiter.

Record t : Type := mk { requests : list Z; windowMs : Z }.

(** [constructor()] *)
Definition new : t := {| requests := []; windowMs := 60000 |}.

Definition maxRequests : nat := 10.

(** [this.requests.filter(time => now - time < this.windowMs)] *)
Definition live (now : Z) (rl : t) : list Z :=
  filter (fun time => now - time <? windowMs rl) (requests rl).

(** [checkLimit()], with [now] the reading of [Date.now()]. *)
Definition checkLimit (now : Z) (rl : t) : bool * t :=
  let reqs := live now rl in
  if Nat.leb maxRequests (List.length reqs)
  then (false, {| requests := reqs; windowMs := windowMs rl |})
  else (true, {| requests := reqs ++ [now]; windowMs := windowMs rl |}).

(** [getRemainingRequests()] *)
Definition getRemainingRequests (now : Z) (rl : t) : Z * t :=
  let reqs := live now rl in
  (Z.max 0 (Z.of_nat maxRequests - Z.of_nat (List.length reqs)),
   {| requests := reqs; windowMs := windowMs rl |}).

(** [Math.min(...l)] on a non-empty list. *)
Definition min_of (x : Z) (l : list Z) : Z := fold_left Z.min l x.

(** [getTimeUntilReset()] *)
Definition getTimeUntilReset (now : Z) (rl : t) : Z :=
  match requests rl with
  | [] => 0
  | x :: l =>
      let oldestRequest := min_of x l in
      let resetTime := oldestRequest + windowMs rl in
      Z.max 0 (resetTime - now)
  end.

(** [reset()] *)
Definition reset (rl : t) : t := {| requests := []; windowMs := windowMs rl |}.

(** A sequence of admission checks at the given clock readings: the
    verdicts, in order, and the limiter afterwards. *)
Fixpoint checks (times : list Z) (rl : t) : list bool * t :=
  match times with
  | [] => ([], rl)
  | now :: rest =>
      let '(ok, rl1) := checkLimit now rl in
      let '(oks, rl2) := checks rest rl1 in
      (ok :: oks, rl2)
  end.

(** The clock readings that were admitted. *)
Fixpoint admitted (times : list Z) (rl : t) : list Z :=
  match times with
  | [] => []
  | now :: rest =>
      let '(ok, rl1) := checkLimit now rl in
      if ok then now :: admitted rest rl1 else admitted rest rl1
  end.

(** How many of [l] fall in the window [[w, w + d)]. *)
Definition in_window (w d : Z) (l : list Z) : nat :=
  List.length (filter (fun a => (w <=? a) && (a <? w + d))%bool l).

(** How many of [l] are less than [d] before [now]: what a check at
    [now] still counts. *)
Definition still_counted (now d : Z) (l : list Z) : nat :=
  List.length (filter (fun a => now - a <? d) l).

(** The clock never goes back: every reading is at least [c] and they
    do not decrease. *)
Fixpoint ascending (c : Z) (times : list Z) : Prop :=
  match times with
  | [] => True
  | t :: rest => c <= t /\ ascending t rest
  end.

(** The last reading, [c] if there is none. *)
Fixpoint last_time (c : Z) (times : list Z) : Z :=
  match times with
  | [] => c
  | t :: rest => last_time t rest
  end.

(** The admissions so far, in order: each was made when fewer than
    [maxRequests] earlier ones were still counted. *)
Inductive Quota (d : Z) : list Z -> Prop :=
| Quota_nil : Quota d []
| Quota_snoc h a :
    Quota d h -> (still_counted a d h < maxRequests)%nat -> Quota d (h ++ [a]).

(** The limiter holds the admissions [hist] that were still counted at
    the last reading [c]. *)
Record Inv (hist : list Z) (c : Z) (rl : t) : Prop :=
  { inv_window : 0 < windowMs rl;
    inv_requests : requests rl = filter (fun a => c - a <? windowMs rl) hist;
    inv_past : Forall (fun a => a <= c) hist;
    inv_quota : Quota (windowMs rl) hist;
    inv_length : (List.length (requests rl) <= maxRequests)%nat }.

End RateLimiter.

(* ================================================================== *)
(** ** Field categories, shared by the two classifiers *)
(* ================================================================== *)

Module Field.

Inductive FieldType : Type :=
| sensitive
| first_name | last_name | full_name | email
| job_title | company | linkedin_url | github_url | website
| experience_years | skills
| os | browser | version | issue_subject | issue_description
| city | country | zip
| search.

Definition eqb (a b : FieldType) : bool :=
  match a, b with
  | sensitive, sensitive | first_name, first_name | last_name, last_name
  | full_name, full_name | email, email | job_title, job_title
  | company, company | linkedin_url, linkedin_url | github_url, github_url
  | website, website | experience_years, experience_years | skills, skills
  | os, os | browser, browser | version, version
  | issue_subject, issue_subject | issue_description, issue_description
  | city, city | country, country | zip, zip | search, search => true
  | _, _ => false
  end.

(** The string the sources use for the category. *)
Definition name (t : FieldType) : string :=
  match t with
  | sensitive => "sensitive"
  | first_name => "first_name" | last_name => "last_name"
  | full_name => "full_name" | email => "email"
  | job_title => "job_title" | company => "company"
  | linkedin_url => "linkedin_url" | github_url => "github_url"
  | website => "website" | experience_years => "experience_years"
  | skills => "skills" | os => "os" | browser => "browser"
  | version => "version" | issue_subject => "issue_subject"
  | issue_description => "issue_description"
  | city => "city" | country => "country" | zip => "zip"
  | search => "search"
  end.

(** A proposed fill value with its provenance. *)
Module Candidate.
Record t : Type :=
  { value : string; source : string; confidence : Q }.
End Candidate.

(** What the content script sends along with a request. *)
Record FieldMeta : Type :=
  { fieldType : FieldType;
    fieldLabel : string;
    isFormFill : bool;
    candidates : list Candidate.t }.

End Field.

(* ================================================================== *)
(** ** src/services/form-detector.js *)
(* ================================================================== *)

Module FormDetector.
Import Js Regex Field.

(** [{name, id, placeholder, autocomplete, label, type}]; a missing
    attribute is [None]. *)
Record Meta : Type :=
  { name : option string;
    id : option string;
    placeholder : option string;
    autocomplete : option string;
    label : option string;
    type : option string }.

Definition combined_text (meta : Meta) : string :=
  toLowerCase
    (join " " (map join_text
       [name meta; id meta; placeholder meta;
        autocomplete meta; label meta; type meta])).

Definition sensitive_keywords : list string :=
  ["password"; "passwd"; "pwd"; "credit"; "card"; "cvv"; "cvc";
   "ssn"; "social security"; "bank"; "pin"; "otp"; "auth"; "token";
   "verification code"; "secret"].

Definition type_is (meta : Meta) (tag : string) : bool :=
  match type meta with
  | Some t => String.eqb t tag
  | None => false
  end.

(** [(^|\W)( ... )(\W|$)] *)
Definition whole_word (r : re) : re :=
  seq [Alt Bol (Cls non_word); r; Alt (Cls non_word) Eol].

(** The rules after the sensitivity check, in source order. *)
Definition rules : list (re * FieldType) :=
  [ (whole_word (alts [joined "first" "name"; lit "fname"; joined "given" "name"]),
     first_name);
    (whole_word (alts [joined "last" "name"; lit "lname";
                       joined "family" "name"; lit "surname"]),
     last_name);
    (whole_word (alts [joined "full" "name"; joined "your" "name"; lit "name"]),
     full_name);
    (alts [lit "email"; lit "e-mail"; lit "mail"], email);
    (alts [joined "job" "title"; lit "position"; lit "role";
           lit "designation"; lit "occupation"], job_title);
    (alts [lit "company"; lit "employer"; lit "organisation";
           lit "organization"; lit "workplace"; lit "firm"], company);
    (alts [lit "linkedin"; seq [lit "linked"; Cls dot; lit "in"]], linkedin_url);
    (alts [lit "github"; seq [lit "git"; Cls sep_us; lit "hub"]], github_url);
    (alts [lit "website"; lit "portfolio"; joined "personal" "site";
           lit "homepage"; lit "url"; lit "link"], website);
    (alts [seq [lit "years"; Opt (Cls sep_u); lit "of"; Opt (Cls sep_u); lit "exp"];
           joined_u "experience" "years"; lit "yoe"], experience_years);
    (alts [lit "skill"; lit "expertise"; lit "technology";
           joined_u "tech" "stack"; lit "languages"; lit "tools"], skills);
    (alts [lit "os"; joined_u "operating" "system"; lit "platform"], os);
    (alts [lit "browser"; joined_u "user" "agent"], browser);
    (alts [lit "version"; joined_u "app" "version";
           joined_u "software" "version"], version);
    (alts [lit "subject"; joined_u "issue" "title";
           joined_u "ticket" "title"; lit "summary"], issue_subject);
    (alts [lit "description"; lit "details"; lit "body"; lit "message";
           lit "explain"; lit "steps"], issue_description);
    (alts [lit "city"; lit "town"; lit "municipality"], city);
    (lit "country", country);
    (alts [lit "zip"; lit "postal"; lit "postcode"], zip) ].

Fixpoint first_rule (rs : list (re * FieldType)) (combined : string)
  : option FieldType :=
  match rs with
  | [] => None
  | (r, ty) :: rest =>
      if test r combined then Some ty else first_rule rest combined
  end.

(** [_classifyField(meta)]; [None] is the source's [null]. *)
Definition _classifyField (meta : Meta) : option FieldType :=
  let combined := combined_text meta in
  if existsb (fun k => includes combined k) sensitive_keywords
  then Some sensitive
  else if (type_is meta "password" || type_is meta "tel")%bool
  then Some sensitive
  else
    match first_rule rules combined with
    | Some ty => Some ty
    | None =>
        if (type_is meta "search" ||
            test (alts [lit "search"; lit "query"; lit "q"]) combined)%bool
        then Some search
        else None
    end.

End FormDetector.

(* ================================================================== *)
(** ** src/content/content-script.js *)
(* ================================================================== *)

Module ContentScript.
Import Js Regex Field.

(** The attributes of the focused element that the script reads.
    [autocomplete_attr] and [aria_label] are [getAttribute] results,
    [autocomplete] is the DOM property; [nearbyLabel] is what
    [getNearbyLabel] finds in the document around the element; [value]
    is what [getInputValue] reads. *)
Record Element : Type :=
  { name : option string;
    id : option string;
    placeholder : option string;
    autocomplete_attr : option string;
    aria_label : option string;
    type : option string;
    autocomplete : option string;
    nearbyLabel : option string;
    value : string }.

Definition FORM_FIELD_PATTERNS : list (FieldType * list string) :=
  [ (sensitive, ["password"; "passwd"; "pwd"; "credit"; "card"; "cvv"; "cvc";
                 "ssn"; "bank"; "pin"; "otp"; "auth"; "token"; "secret"]);
    (job_title, ["job_title"; "jobtitle"; "position"; "role"; "designation";
                 "occupation"; "title"]);
    (company, ["company"; "employer"; "organisation"; "organization";
               "workplace"; "firm"]);
    (os, ["operating_system"; "operatingsystem"; "platform"; " os "]);
    (browser, ["browser"; "useragent"; "user_agent"]);
    (version, ["version"; "appversion"; "softwareversion"]);
    (skills, ["skill"; "expertise"; "technology"; "techstack"; "languages"; "tools"]);
    (linkedin_url, ["linkedin"]);
    (github_url, ["github"]);
    (issue_subject, ["subject"; "issuetitle"; "tickettitle"; "summary"]);
    (issue_description, ["description"; "details"; "body"; "message";
                         "explain"; "steps"]) ].

(** [.replace(/[-\s]/g, '_')] *)
Definition underscored (s : string) : string :=
  replace_class (fun c => (Ascii.eqb c "-" || is_space c)%bool) "_" s.

Definition combined_text (element : Element) : string :=
  underscored
    (toLowerCase
       (join " " (map join_text
          [name element; id element; placeholder element;
           autocomplete_attr element; aria_label element; type element]))).

Fixpoint first_pattern (pats : list (FieldType * list string))
         (combined : string) : option FieldType :=
  match pats with
  | [] => None
  | (ty, keywords) :: rest =>
      if existsb (fun k => includes combined (underscored k)) keywords
      then (if Field.eqb ty sensitive then None else Some ty)
      else first_pattern rest combined
  end.

(** [classifyField(element)] for an element that is there. *)
Definition classifyField (element : Element) : option FieldType :=
  first_pattern FORM_FIELD_PATTERNS (combined_text element).

Definition digits_us : ascii -> bool :=   (* [\d_] *)
  fun c => (is_digit c || Ascii.eqb c "_")%bool.
Definition digits_dot : ascii -> bool :=  (* [\d.] *)
  fun c => (is_digit c || Ascii.eqb c ".")%bool.

(** [detectOS()], with [ua] the value of [navigator.userAgent]. *)
Definition detectOS (ua : string) : option string :=
  if test (lit "Windows NT 11") ua then Some "Windows 11"
  else if test (lit "Windows NT 10") ua then Some "Windows 10"
  else if test (lit "Mac OS X") ua then
    match group_after "Mac OS X " digits_us ua with
    | Some v => Some ("macOS " ++ replace_class (Ascii.eqb "_") "." v)%string
    | None => Some "macOS"
    end
  else if test (lit "Linux") ua then Some "Linux"
  else if test (lit "Android") ua then
    match group_after "Android " digits_dot ua with
    | Some v => Some ("Android " ++ v)%string
    | None => Some "Android"
    end
  else if test (Alt (lit "iPhone") (lit "iPad")) ua then Some "iOS"
  else None.

(** [`${brand} ${v ? v[1].split('.')[0] : ''}`.trim()] *)
Definition with_major (brand marker ua : string) : string :=
  trim (brand ++ " " ++
        match group_after marker digits_dot ua with
        | Some v => before_char "." v
        | None => ""
        end)%string.

(** [detectBrowser()] *)
Definition detectBrowser (ua : string) : option string :=
  if test (lit "Edg/") ua then Some (with_major "Edge" "Edg/" ua)
  else if test (lit "OPR/") ua then Some (with_major "Opera" "OPR/" ua)
  else if test (lit "Chrome/") ua then Some (with_major "Chrome" "Chrome/" ua)
  else if test (lit "Firefox/") ua then Some (with_major "Firefox" "Firefox/" ua)
  else if test (lit "Safari/") ua then Some "Safari"
  else None.

(** [a || b] on strings that may be missing or empty. *)
Definition first_text (l : list (option string)) (d : string) : string :=
  fold_right or_else d l.

Definition push_if (c : option Candidate.t) (meta : FieldMeta) : FieldMeta :=
  match c with
  | Some c =>
      {| fieldType := fieldType meta;
         fieldLabel := fieldLabel meta;
         isFormFill := true;
         candidates := candidates meta ++ [c] |}
  | None => meta
  end.

Definition device (v : string) (conf : Q) : Candidate.t :=
  {| Candidate.value := v;
     Candidate.source := "Your device";
     Candidate.confidence := conf |}.

(** [buildFieldMeta(element)] *)
Definition buildFieldMeta (ua : string) (element : Element) : option FieldMeta :=
  match classifyField element with
  | None => None
  | Some fieldType =>
      let meta :=
        {| Field.fieldType := fieldType;
           fieldLabel :=
             first_text [nearbyLabel element; placeholder element;
                         name element; id element] (Field.name fieldType);
           isFormFill := false;
           candidates := [] |} in
      let meta :=
        if Field.eqb fieldType os
        then push_if (option_map (fun v => device v 1) (detectOS ua)) meta
        else meta in
      let meta :=
        if Field.eqb fieldType browser
        then push_if (option_map (fun v => device v 1) (detectBrowser ua)) meta
        else meta in
      let meta :=
        if Field.eqb fieldType issue_description
        then
          match detectOS ua, detectBrowser ua with
          | Some o, Some b => push_if (Some (device (o ++ " / " ++ b)%string (9 # 10))) meta
          | _, _ => meta
          end
        else meta in
      Some meta
  end.

(** [isSensitiveField(element)] for an element that is there. *)
Definition isSensitiveField (element : Element) : bool :=
  let ty := option_map toLowerCase (type element) in
  match ty with
  | Some "password" | Some "tel" | Some "number" => true
  | _ =>
      let combinedText :=
        toLowerCase
          (template_text (name element) ++ " " ++ template_text (id element) ++ " " ++
           template_text (autocomplete element) ++ " " ++
           template_text (placeholder element))%string in
      existsb (fun k => includes combinedText k)
        ["password"; "passwd"; "credit"; "card"; "cvv"; "ssn"; "bank"; "pin";
         "token"; "auth"; "login"; "otp"; "verification"]
  end.

(** [getActiveInput()], with [currentInput] the focused element, if
    any: what the page answers when the service worker asks for the
    text. *)
Definition getActiveInput (currentInput : option Element) : string :=
  match currentInput with
  | Some element =>
      if isSensitiveField element then "" else trim (value element)
  | None => ""
  end.





End ContentScript.

(* ================================================================== *)
(** ** src/services/context-collector.js *)
(* ================================================================== *)

Module ContextCollector.
Import Js Regex.

(** A [chrome.tabs.Tab], as far as it is read. *)
Module Tab.
Record t : Type :=
  { id : option Z; url : option string; title : option string }.
End Tab.

(** A [chrome.history.HistoryItem], as far as it is read. *)
Module HistoryItem.
Record t : Type :=
  { url : option string;
    title : option string;
    visitCount : option Z;
    lastVisitTime : option Q }.
End HistoryItem.

(** The argument of [chrome.history.search]. *)
Record HistoryQuery : Type :=
  { text : string; startTime : Z; maxResults : nat }.

(** The browser, as the collector sees it during one request:
    what [chrome.tabs.query({currentWindow: true})] and
    [chrome.tabs.query({active: true, currentWindow: true})] resolve
    to, what [chrome.history.search] resolves to for a query, and what
    the page answers to [getActiveInput]. *)
Record Host : Type :=
  { tabs_window : Outcome (list Tab.t);
    tabs_active : Outcome (list Tab.t);
    history_search : HistoryQuery -> Outcome (list HistoryItem.t);
    page_input : Outcome (option string) }.

(** The entries of the snapshot. *)
Record TabInfo : Type := { title : string; url : string }.

Module Visit.
Record t : Type :=
  { title : string; url : string; visitCount : Z; lastVisitTime : Q }.
End Visit.

Module Top.
Record t : Type := { title : string; url : string; visitCount : Z }.
End Top.

Definition sensitiveDomains : list string :=
  ["bank"; "login"; "signin"; "auth"; "payment";
   "checkout"; "account"; "admin"; "dashboard"].

(** [tab.id === currentTab?.id] *)
Definition same_id (tab : Tab.t) (currentTab : option Tab.t) : bool :=
  match Tab.id tab, match currentTab with Some c => Tab.id c | None => None end with
  | Some a, Some b => Z.eqb a b
  | None, None => true
  | _, _ => false
  end.

Definition lower_or_empty (o : option string) : string :=
  or_else (option_map toLowerCase o) "".

Definition isFiltered (tab : Tab.t) : bool :=
  let url := lower_or_empty (Tab.url tab) in
  existsb (fun domain => includes url domain) sensitiveDomains.

Definition other_tab (currentTab : option Tab.t) (tab : Tab.t) : bool :=
  if same_id tab currentTab then false else negb (isFiltered tab).

Definition tab_info (tab : Tab.t) : TabInfo :=
  {| title := or_else (Tab.title tab) ""; url := or_else (Tab.url tab) "" |}.

(** [getActiveTabsContext()] *)
Definition getActiveTabsContext (host : Host) : list TabInfo :=
  match tabs_window host, tabs_active host with
  | Ret tabs, Ret active =>
      let currentTab := hd_error active in
      map tab_info (firstn 5 (filter (other_tab currentTab) tabs))
  | _, _ => []
  end.

(** [getActiveInputText()] *)
Definition getActiveInputText (host : Host) : string :=
  match tabs_active host, page_input host with
  | Ret (_ :: _), Ret reply => or_else reply ""
  | Ret (_ :: _), Throw _ => ""
  | _, _ => ""
  end.

(** The filter shared by the two history readers. *)
Definition useful (item : HistoryItem.t) : bool :=
  let url := lower_or_empty (HistoryItem.url item) in
  let title := lower_or_empty (HistoryItem.title item) in
  (negb (includes url "chrome://") &&
   negb (includes url "chrome-extension://") &&
   negb (String.eqb title "") &&
   negb (String.eqb title "new tab") &&
   Nat.ltb 3 (String.length title))%bool.

Definition or_zero (o : option Z) : Z :=
  match o with Some n => n | None => 0 end.

Definition visit_info (item : HistoryItem.t) : Visit.t :=
  {| Visit.title := or_else (HistoryItem.title item) "";
     Visit.url := or_else (HistoryItem.url item) "";
     Visit.visitCount := or_zero (HistoryItem.visitCount item);
     Visit.lastVisitTime :=
       match HistoryItem.lastVisitTime item with Some q => q | None => 0%Q end |}.

(** [getRecentHistory()], with [now] the reading of [Date.now()]. *)
Definition getRecentHistory (host : Host) (now : Z) : list Visit.t :=
  let twoHoursAgo := now - 2 * 60 * 60 * 1000 in
  match history_search host
          {| text := ""; startTime := twoHoursAgo; maxResults := 15 |} with
  | Ret history => map visit_info (filter useful history)
  | Throw _ => []
  end.

(** [item.visitCount > 1] *)
Definition visited_again (item : HistoryItem.t) : bool :=
  match HistoryItem.visitCount item with
  | Some n => 1 <? n
  | None => false
  end.

(** [.sort((a, b) => b.visitCount - a.visitCount)]: a stable sort, most
    visited first.  Every item that reaches it has a visit count. *)
Fixpoint insert_by_visits (x : HistoryItem.t) (l : list HistoryItem.t)
  : list HistoryItem.t :=
  match l with
  | [] => [x]
  | y :: rest =>
      if or_zero (HistoryItem.visitCount y) - or_zero (HistoryItem.visitCount x) <=? 0
      then x :: l
      else y :: insert_by_visits x rest
  end.

Definition sort_by_visits (l : list HistoryItem.t) : list HistoryItem.t :=
  fold_right insert_by_visits [] l.

Definition top_info (item : HistoryItem.t) : Top.t :=
  {| Top.title := or_else (HistoryItem.title item) "";
     Top.url := or_else (HistoryItem.url item) "";
     Top.visitCount := or_zero (HistoryItem.visitCount item) |}.

(** [getTopVisitedTitles()] *)
Definition getTopVisitedTitles (host : Host) (now : Z) : list Top.t :=
  let oneWeekAgo := now - 7 * 24 * 60 * 60 * 1000 in
  match history_search host
          {| text := ""; startTime := oneWeekAgo; maxResults := 50 |} with
  | Ret history =>
      map top_info
        (firstn 5
           (sort_by_visits
              (filter (fun item => (useful item && visited_again item)%bool) history)))
  | Throw _ => []
  end.

(** The browser keeps to the [maxResults] of a history query. *)
Definition honours_maxResults (host : Host) : Prop :=
  forall q l, history_search host q = Ret l -> (List.length l <= maxResults q)%nat.

(** The snapshot [collectContext()] builds, as far as the prompt
    builders read it. *)
Record Snapshot : Type :=
  { active_tabs : list TabInfo;
    active_input_text : string;
    recent_history : list Visit.t;
    top_visited_titles : list Top.t }.

Definition collectContext (host : Host) (now : Z) : Snapshot :=
  {| active_tabs := getActiveTabsContext host;
     active_input_text := getActiveInputText host;
     recent_history := getRecentHistory host now;
     top_visited_titles := getTopVisitedTitles host now |}.

(** The patterns carry the [i] flag; they are lower-case and the text
    they are tested on is lower-cased first. *)
Definition sensitivePatterns : list re :=
  [ lit "password"; lit "passwd"; lit "pwd";
    joined "credit" "card"; joined "cc" "number";
    lit "ssn"; joined "social" "security";
    joined "bank" "account"; joined "account" "number";
    lit "cvv"; lit "cvc"; lit "pin";
    joined "api" "key"; lit "token" ].

(** [isSensitiveInput(text, fieldName)]; a field name that is not given
    prints as [undefined]. *)
Definition isSensitiveInput (text : string) (fieldName : option string) : bool :=
  let combinedText := toLowerCase (text ++ " " ++ template_text fieldName) in
  existsb (fun pattern => test pattern combinedText) sensitivePatterns.

End ContextCollector.

(* ================================================================== *)
(** ** The configuration manager, the network and the record of effects *)
(* ================================================================== *)

Module Runtime.
Import Js Message.

(** The two system instructions of [groq-service.js]; their texts play
    no part below. *)
Inductive SystemPrompt : Type :=
| ContextAwareSystemPrompt
| FormFillSystemPrompt.

(** The request [callWithRetry] posts to [/chat/completions]. *)
Record Request : Type :=
  { endpoint : string;
    authorization : string;
    model : string;
    system : SystemPrompt;
    user : string;
    temperature : Q;
    max_tokens : Z;
    top_p : Q }.

(** What [fetch] resolves to: the status, the [retry-after] header and
    what [response.json()] resolves to. *)
Record HttpResponse : Type :=
  { status : Z;
    retry_after : option string;
    json : Outcome value }.

(** [response.ok] *)
Definition ok (r : HttpResponse) : bool :=
  ((200 <=? status r) && (status r <=? 299))%bool.

Inductive FetchOutcome : Type :=
| NetworkError (msg : string)
| Responds (r : HttpResponse).

(** The provider: its answer to the [n]-th request of a run. *)
Definition Network : Type := nat -> Request -> FetchOutcome.

Inductive Event : Type :=
| EvPrompt (prompt : string)                 (* a prompt was built *)
| EvFetch (req : Request)                    (* an HTTP request was made *)
| EvSleep (seconds : string)                 (* waited parseFloat(seconds) * 1000 ms *)
| EvRecordQuery (query : string) (suggestions : list Suggestion)
| EvStorePastSearch (query : string) (suggestions : list Suggestion).

Definition is_fetch (e : Event) : bool :=
  match e with EvFetch _ => true | _ => false end.

Definition is_prompt (e : Event) : bool :=
  match e with EvPrompt _ => true | _ => false end.

(** The number of HTTP requests in a record of effects. *)
Definition http_attempts (trace : list Event) : nat :=
  List.length (filter is_fetch trace).

(** [config-manager.js], as far as the pipeline reads it. *)
Record Config : Type :=
  { groqApiKey : option string;
    enableHistoryTracking : value }.

Record ConfigManager : Type :=
  { config : option Config;
    initialized : bool }.

(** What [chrome.storage.local.get(['groqApiKey', 'config'])] holds. *)
Record StoredConfig : Type :=
  { stored_groqApiKey : option string;
    stored_enableHistoryTracking : value }.

Record World : Type :=
  { configManager : ConfigManager;
    trace : list Event }.

Definition with_trace (w : World) (t : list Event) : World :=
  {| configManager := configManager w; trace := t |}.

Definition with_config (w : World) (c : ConfigManager) : World :=
  {| configManager := c; trace := trace w |}.

(** Computations that may throw and that change the world. *)
Definition M (A : Type) : Type := World -> Outcome A * World.

Definition ret {A : Type} (a : A) : M A := fun w => (Ret a, w).

Definition throw {A : Type} (msg : string) : M A := fun w => (Throw msg, w).

Definition bind {A B : Type} (m : M A) (k : A -> M B) : M B :=
  fun w =>
    match m w with
    | (Ret a, w1) => k a w1
    | (Throw msg, w1) => (Throw msg, w1)
    end.

(** [try { m } catch (error) { handler(error.message) }] *)
Definition try_catch {A : Type} (m : M A) (handler : string -> M A) : M A :=
  fun w =>
    match m w with
    | (Ret a, w1) => (Ret a, w1)
    | (Throw msg, w1) => handler msg w1
    end.

Definition lift {A : Type} (o : Outcome A) : M A := fun w => (o, w).

Definition emit (e : Event) : M unit :=
  fun w => (Ret tt, with_trace w (trace w ++ [e])).

(** [fetch(...)]: the provider answers the request, which is recorded. *)
Definition fetch (net : Network) (req : Request) : M HttpResponse :=
  fun w =>
    let w1 := with_trace w (trace w ++ [EvFetch req]) in
    match net (http_attempts (trace w)) req with
    | NetworkError msg => (Throw msg, w1)
    | Responds r => (Ret r, w1)
    end.

End Runtime.

Declare Scope js_scope.
Delimit Scope js_scope with js.
Notation "x <- m ;; k" := (Runtime.bind m (fun x => k))
  (at level 61, m at next level, right associativity) : js_scope.
Notation "m ;;; k" := (Runtime.bind m (fun _ => k))
  (at level 61, right associativity) : js_scope.

Module ConfigManager.
Import Js Runtime.

(** [initialize()], given what the read of the storage resolves to. *)
Definition initialize (stored : Outcome StoredConfig) : M unit :=
  fun w =>
    if initialized (configManager w) then (Ret tt, w)
    else
      match stored with
      | Ret st =>
          (Ret tt,
           with_config w
             {| config :=
                  Some {| groqApiKey :=
                            match stored_groqApiKey st with
                            | Some EmptyString | None => None
                            | Some k => Some k
                            end;
                          enableHistoryTracking :=
                            nullish_or (stored_enableHistoryTracking st) (JBool true) |};
                initialized := true |})
      | Throw _ => (Throw "Configuration initialization failed", w)
      end.

Definition api_key (cm : ConfigManager) : option string :=
  match config cm with
  | Some c =>
      match groqApiKey c with
      | Some EmptyString | None => None
      | Some k => Some k
      end
  | None => None
  end.

(** [getApiKey()] *)
Definition getApiKey : M string :=
  fun w =>
    match api_key (configManager w) with
    | Some k => (Ret k, w)
    | None => (Throw "Groq API key not configured", w)
    end.

(** [isConfigured()] *)
Definition isConfigured (cm : ConfigManager) : bool :=
  match api_key cm with Some _ => true | None => false end.

(** [get('enableHistoryTracking')] *)
Definition get_enableHistoryTracking (cm : ConfigManager) : value :=
  match config cm with
  | Some c => nullish_or (enableHistoryTracking c) JNull
  | None => JNull
  end.

End ConfigManager.

(* ================================================================== *)
(** ** src/services/groq-service.js *)
(* ================================================================== *)

Module GroqService.
Import Js Regex Field Message Runtime.
Local Open Scope js_scope.

Definition baseURL : string := "https://api.groq.com/openai/v1".
Definition model_name : string := "llama-3.1-8b-instant".

(** What [sessionTracker.getIntentContext()] hands over. *)
Record SessionIntent : Type :=
  { sessionSummary : string; recentThread : string }.

(** The merged context of a request, as far as this service reads it. *)
Record Context : Type :=
  { active_input_text : string;
    active_tabs : list ContextCollector.TabInfo;
    recent_history : list ContextCollector.Visit.t;
    fieldMeta : option FieldMeta;
    sessionIntent : option SessionIntent }.

(** [_buildFormFillResponse(fieldMeta)] *)
Definition _buildFormFillResponse (fieldMeta : FieldMeta) : Result :=
  let suggestions :=
    map (fun c => {| text := Candidate.value c;
                     derivation := "Auto-filled from " ++ Candidate.source c |})
        (candidates fieldMeta) in
  {| reason := JStr ("Smart fill for " ++ quoted (fieldLabel fieldMeta));
     suggestions := suggestions;
     isFormFill := true;
     error := None |}.

Definition summary_of (context : Context) : string :=
  match sessionIntent context with
  | Some i => sessionSummary i
  | None => ""
  end.

Definition thread_of (context : Context) : string :=
  match sessionIntent context with
  | Some i => recentThread i
  | None => ""
  end.

Definition when (b : bool) (line : string) : list string :=
  if b then [line] else [].

Definition nonempty (s : string) : bool := negb (String.eqb s "").

(** The first two titles, each cut to 40 characters and quoted, joined
    by a comma and a space. *)
Definition titles (l : list string) : string :=
  join ", " (map (fun t => quoted (slice0 40 t)) (firstn 2 l)).

(** [buildContextAwarePrompt(context)] *)
Definition buildContextAwarePrompt (context : Context) : string :=
  let input := active_input_text context in
  let tabs := map ContextCollector.title (active_tabs context) in
  let hist := map ContextCollector.Visit.title (recent_history context) in
  join nl
    ([("Q:" ++ quoted input)%string]
     ++ when (nonempty (summary_of context))
             ("SESSION:" ++ summary_of context)
     ++ when (nonempty (thread_of context))
             ("THREAD:" ++ slice0 120 (thread_of context))
     ++ when (Nat.ltb 0 (List.length tabs)) ("TABS:" ++ titles tabs)
     ++ when (Nat.ltb 0 (List.length hist)) ("HIST:" ++ titles hist)).

(** [buildFormFieldPrompt(context)] *)
Definition buildFormFieldPrompt (context : Context) : string :=
  let fieldType :=
    match fieldMeta context with
    | Some m => Field.name (Field.fieldType m)
    | None => "unknown"
    end in
  let fieldLabel :=
    match fieldMeta context with
    | Some m => or_else (Some (Field.fieldLabel m)) "field"
    | None => "field"
    end in
  let currentValue := active_input_text context in
  let tabs := map ContextCollector.title (active_tabs context) in
  join nl
    ([("FIELD_TYPE:" ++ fieldType)%string;
      ("FIELD_LABEL:" ++ quoted fieldLabel)%string;
      ("CURRENT_VALUE:" ++ quoted currentValue)%string]
     ++ when (nonempty (summary_of context))
             ("SESSION:" ++ summary_of context)
     ++ when (Nat.ltb 0 (List.length tabs)) ("TABS:" ++ titles tabs)).

(** The character class of the third test of the filter: braces, square
    brackets, the double quote, the apostrophe and the backtick. *)
Definition bracket_or_quote (c : ascii) : bool :=
  existsb (Ascii.eqb c)
    ["{"; "}"; "["; "]"; "034"; "'"; "`"]%char.

(** The entry the [map] of [validateSuggestions] makes of an element;
    [None] is its [null]. *)
Definition entry_of (s : value) : option Suggestion :=
  match s with
  | JObj _ | JArr _ =>
      let text := or_ (get s "text") (get s "suggestion") in
      let derivation :=
        or_ (or_ (get s "derivation") (get s "explanation")) (get s "reason") in
      if truthy text
      then Some {| text := trim (to_String text);
                   derivation :=
                     if truthy derivation
                     then trim (to_String derivation)
                     else "Based on context" |}
      else None
  | JStr str => Some {| text := trim str; derivation := "Based on context" |}
  | _ => None
  end.

(** The test of the [filter] of [validateSuggestions]. *)
Definition keeps (s : Suggestion) : bool :=
  let text := text s in
  if String.eqb text "" then false
  else if (Nat.ltb (String.length text) 3 || Nat.ltb 200 (String.length text))%bool
  then false
  else if all_chars bracket_or_quote text then false
  else if includes (toLowerCase text) "reason:" then false
  else if includes (toLowerCase text) "suggestions:" then false
  else true.

(** [validateSuggestions(suggestions)] *)
Definition validateSuggestions (suggestions : value) : list Suggestion :=
  match suggestions with
  | JArr l => firstn 3 (filter keeps (somes (map entry_of l)))
  | _ => []
  end.

Definition sourceLabel (index : nat) : string :=
  nth index ["Session"; "Context"; "Smart"] "Smart".

(** [validateSuggestionOrdering(suggestions)] *)
Definition validateSuggestionOrdering (suggestions : list Suggestion)
  : list Suggestion :=
  mapi (fun index suggestion =>
          let label := sourceLabel index in
          let derivation := derivation suggestion in
          {| text := text suggestion;
             derivation :=
               if startsWith derivation label then derivation
               else (label ++ ": " ++ derivation)%string |})
       suggestions.

(** The first two [replace] calls of [parseResponse]. *)
Definition strip_fence_start (s : string) : string :=
  let s1 :=
    if startsWith (toLowerCase s) "```json" then trimStart (drop 7 s) else s in
  if startsWith s1 "```" then trimStart (drop 3 s1) else s1.

(** [.replace(/```\s*$/, '')] *)
Fixpoint strip_fence_end (s : string) : string :=
  if (startsWith s "```" && all_chars is_space (drop 3 s))%bool
  then EmptyString
  else match s with
       | EmptyString => EmptyString
       | String c s' => String c (strip_fence_end s')
       end.

Definition fence_stripped (content : string) : string :=
  trim (strip_fence_end (strip_fence_start (trim content))).

(** The text up to and including the last closing brace. *)
Fixpoint through_last_brace (s : string) : option string :=
  match s with
  | EmptyString => None
  | String c s' =>
      match through_last_brace s' with
      | Some t => Some (String c t)
      | None => if Ascii.eqb c "}" then Some (String c EmptyString) else None
      end
  end.

(** [cleaned.match(/\{[\s\S]*\}/)]: from the first opening brace to the
    last closing brace after it. *)
Fixpoint brace_match (s : string) : option string :=
  match s with
  | EmptyString => None
  | String c s' =>
      if Ascii.eqb c "{"
      then option_map (String c) (through_last_brace s')
      else brace_match s'
  end.

Section Parsing.

(** [JSON.parse]; [None] when it throws. *)
Variable JSON_parse : string -> option value.

(** What either [try] block of [parseResponse] returns, if it does. *)
Definition from_parsed (json_text : string) : option Result :=
  match JSON_parse json_text with
  | Some parsed =>
      match parsed with
      | JObj _ | JArr _ =>
          match get parsed "suggestions" with
          | JArr (x :: l) =>
              let suggestions := validateSuggestions (JArr (x :: l)) in
              let normalized :=
                map (fun s => {| text := text s;
                                 derivation := or_else (Some (derivation s))
                                                       "Based on context" |})
                    suggestions in
              let validated := validateSuggestionOrdering normalized in
              if Nat.ltb 0 (List.length validated)
              then Some {| reason := or_ (get parsed "reason")
                                         (JStr "Based on your browsing context");
                           suggestions := validated;
                           isFormFill := false;
                           error := None |}
              else None
          | _ => None
          end
      | _ => None
      end
  | None => None
  end.

(** [parseResponse(content)] for a string [content]. *)
Definition parseResponse (content : string) : Result :=
  let cleaned := fence_stripped content in
  match from_parsed cleaned with
  | Some r => r
  | None =>
      match
        match brace_match cleaned with
        | Some jsonMatch => from_parsed jsonMatch
        | None => None
        end
      with
      | Some r => r
      | None =>
          {| reason := JStr "Could not parse AI response";
             suggestions := [];
             isFormFill := false;
             error := None |}
      end
  end.

(** The provider. *)
Variable net : Network.

Definition request (apiKey prompt : string) (systemPrompt : SystemPrompt)
  : Request :=
  {| endpoint := baseURL ++ "/chat/completions";
     authorization := "Bearer " ++ apiKey;
     model := model_name;
     system := systemPrompt;
     user := prompt;
     temperature := 4 # 10;
     max_tokens := 200;
     top_p := 9 # 10 |}.

Definition status_text (n : Z) : string :=
  DecimalString.NilZero.string_of_int (Z.to_int n).

(** [if (!response.ok) { ... throw ... }] *)
Definition fail_with (response : HttpResponse) : M Result :=
  error <- lift (json response) ;;
  match error with
  | JUndefined | JNull => throw "TypeError: cannot read properties of null"
  | _ =>
      let message := get_opt (get error "error") "message" in
      throw (if truthy message then to_String message
             else ("API Error: " ++ status_text (status response))%string)
  end.

(** The lines of [callWithRetry] after the last [if]. *)
Definition succeed_with (response : HttpResponse) : M Result :=
  data <- lift (json response) ;;
  match data with
  | JUndefined | JNull => throw "TypeError: cannot read properties of null"
  | _ =>
      let content :=
        get_opt (get_opt (first_of (get data "choices")) "message") "content" in
      if negb (truthy content) then throw "No response content from Groq"
      else
        match content with
        | JStr c => ret (parseResponse c)
        | _ => throw "TypeError: content.trim is not a function"
        end
  end.

(** What an answer that is not retried comes to: the parsed content when
    it is a success, a rejection otherwise. *)
Definition settle (response : HttpResponse) (out : Outcome Result) : Prop :=
  if ok response
  then forall w, out = fst (succeed_with response w)
  else exists msg, out = Throw msg.

(** [callWithRetry(apiKey, prompt, systemPrompt, attempt)].  The
    function calls itself; [fuel] bounds the depth of the calls and
    [None] says that it did not suffice. *)
Fixpoint callWithRetry (fuel : nat) (apiKey prompt : string)
         (systemPrompt : SystemPrompt) (attempt : nat) (w : World)
  : option (Outcome Result * World) :=
  match fuel with
  | O => None
  | S fuel' =>
      match fetch net (request apiKey prompt systemPrompt) w with
      | (Throw msg, w1) => Some (Throw msg, w1)
      | (Ret response, w1) =>
          if ((status response =? 429) && Nat.eqb attempt 0)%bool
          then
            let retryAfter := or_else (retry_after response) "2" in
            let w2 := snd (emit (EvSleep retryAfter) w1) in
            callWithRetry fuel' apiKey prompt systemPrompt 1 w2
          else if negb (ok response)
          then Some (fail_with response w1)
          else Some (succeed_with response w1)
      end
  end.

(** The call [this.callWithRetry(apiKey, prompt, systemPrompt)]: two
    levels of calls always suffice (see [callWithRetry_fuel]). *)
Definition callWithRetry0 (apiKey prompt : string)
           (systemPrompt : SystemPrompt) : M Result :=
  fun w =>
    match callWithRetry 2 apiKey prompt systemPrompt 0 w with
    | Some r => r
    | None => (Throw "callWithRetry: too deep", w)
    end.

Definition form_fill_ready (context : Context) : option FieldMeta :=
  match fieldMeta context with
  | Some m =>
      if (Field.isFormFill m && Nat.ltb 0 (List.length (candidates m)))%bool
      then Some m else None
  | None => None
  end.

(** [generateSuggestions(context)] *)
Definition generateSuggestions (context : Context) : M Result :=
  try_catch
    (apiKey <- ConfigManager.getApiKey ;;
     match form_fill_ready context with
     | Some m => ret (_buildFormFillResponse m)
     | None =>
         let prompt :=
           match fieldMeta context with
           | Some _ => buildFormFieldPrompt context
           | None => buildContextAwarePrompt context
           end in
         let systemPrompt :=
           match fieldMeta context with
           | Some _ => FormFillSystemPrompt
           | None => ContextAwareSystemPrompt
           end in
         emit (EvPrompt prompt) ;;;
         callWithRetry0 apiKey prompt systemPrompt
     end)
    (fun message =>
       ret {| reason := JStr "Error generating suggestions";
              suggestions := [];
              isFormFill := false;
              error := Some message |}).

End Parsing.

End GroqService.

(* ================================================================== *)
(** ** The background service worker *)
(* ================================================================== *)

Module ServiceWorker.
Import Js Field Message Runtime.
Local Open Scope js_scope.

(** [request.data]: the page context (of which the input text is read
    downstream), the field name and the field metadata.  The popup sends
    an empty object: all three are missing. *)
Record Data : Type :=
  { context_input_text : option string;
    fieldName : option string;
    fieldMeta : option FieldMeta }.

(** What the browser and the session tracker answer during one request:
    the stored [extensionEnabled] flag, the stored configuration, the
    tabs and the history, the clock, what
    [sessionTracker.getIntentContext()] resolves to and whether
    [sessionTracker.recordQuery] succeeds. *)
Record Env : Type :=
  { stored_extensionEnabled : Outcome value;
    stored_config : Outcome StoredConfig;
    host : ContextCollector.Host;
    now : Z;
    intent : Outcome (option GroqService.SessionIntent);
    recordQuery_outcome : Outcome unit }.

Definition empty_result : Result :=
  {| reason := JUndefined; suggestions := []; isFormFill := false; error := None |}.

Definition reply (ok : bool) (why : value) (err : option string) : Response :=
  {| success := ok;
     result := {| reason := why; suggestions := [];
                  isFormFill := false; error := err |} |}.

Definition truthy_text (o : option string) : bool :=
  match o with
  | Some EmptyString | None => false
  | Some _ => true
  end.

(** [storePastSearch(query, suggestions)]: it catches its own errors. *)
Definition storePastSearch (query : string) (suggestions : list Suggestion)
  : M unit :=
  emit (EvStorePastSearch query suggestions).

Section Pipeline.

Variable JSON_parse : string -> option value.
Variable net : Network.
Variable env : Env.

(** [data.context?.active_input_text || fullContext.active_input_text] *)
Definition request_text (data : Data) : string :=
  or_else (context_input_text data)
          (ContextCollector.active_input_text
             (ContextCollector.collectContext (host env) (now env))).

Definition mergedContext (data : Data) (intent : option GroqService.SessionIntent)
  : GroqService.Context :=
  let fullContext := ContextCollector.collectContext (host env) (now env) in
  {| GroqService.active_input_text := request_text data;
     GroqService.active_tabs := ContextCollector.active_tabs fullContext;
     GroqService.recent_history := ContextCollector.recent_history fullContext;
     GroqService.fieldMeta := fieldMeta data;
     GroqService.sessionIntent := intent |}.

(** The part of [generateSuggestions] after the sensitivity check. *)
Definition generate (merged : GroqService.Context) : M Response :=
  let text := GroqService.active_input_text merged in
  result <- GroqService.generateSuggestions JSON_parse net merged ;;
  (if GroqService.nonempty text
   then emit (EvRecordQuery text (suggestions result)) ;;;
        lift (recordQuery_outcome env)
   else ret tt) ;;;
  (fun w =>
     if (truthy (ConfigManager.get_enableHistoryTracking (configManager w)) &&
         GroqService.nonempty text)%bool
     then storePastSearch text (suggestions result) w
     else (Ret tt, w)) ;;;
  ret {| success := true; result := result |}.

(** [generateSuggestions(data)] *)
Definition generateSuggestions (data : Data) : M Response :=
  try_catch
    (stored <- lift (stored_extensionEnabled env) ;;
     let extensionEnabled := nullish_or stored (JBool true) in
     if negb (truthy extensionEnabled)
     then ret (reply true (JStr "Extension is disabled") None)
     else
       ConfigManager.initialize (stored_config env) ;;;
       (fun w =>
          if negb (ConfigManager.isConfigured (configManager w))
          then (Ret (reply false JUndefined (Some "Groq API key not configured")), w)
          else
            (intent <- lift (intent env) ;;
             let merged := mergedContext data intent in
             let text := GroqService.active_input_text merged in
             if (GroqService.nonempty text && truthy_text (fieldName data) &&
                 ContextCollector.isSensitiveInput text (fieldName data))%bool
             then ret (reply true (JStr "Sensitive input detected") None)
             else generate merged) w))
    (fun message => ret (reply false JUndefined (Some message))).

End Pipeline.

End ServiceWorker.

(* ================================================================== *)
(** ** content-script.js: from a keystroke to the overlay *)
(* ================================================================== *)

Module SuggestionFlow.
Import Js Message.

(** The [data] of the message [generateSuggestions(input, value)] sends
    to the service worker. *)
Definition message (ua : string) (input : ContentScript.Element) (value : string)
  : ServiceWorker.Data :=
  {| ServiceWorker.context_input_text := Some value;
     ServiceWorker.fieldName :=
       Some (ContentScript.first_text
               [ContentScript.name input; ContentScript.id input;
                ContentScript.placeholder input] "");
     ServiceWorker.fieldMeta := ContentScript.buildFieldMeta ua input |}.

Inductive Overlay : Type :=
| Hidden
| Thinking
| Showing (suggestion : Suggestion) (reason : value) (isFormFill : bool).

(** The script's variables for the focused input, its timer and the
    requests it has sent and not yet heard of: each with the value it
    was generated for. *)
Record Page : Type :=
  { field_value : string;
    lastInputValue : string;
    currentSuggestions : list Suggestion;
    activeSuggestionIndex : nat;
    overlay : Overlay;
    debounceTimer : option string;
    in_flight : list (nat * string);
    issued : nat }.

Definition initial : Page :=
  {| field_value := ""; lastInputValue := ""; currentSuggestions := [];
     activeSuggestionIndex := 0; overlay := Hidden; debounceTimer := None;
     in_flight := []; issued := 0 |}.

(** [hideSuggestion(); currentSuggestions = [];] *)
Definition dismiss (p : Page) : Page :=
  {| field_value := field_value p; lastInputValue := lastInputValue p;
     currentSuggestions := []; activeSuggestionIndex := activeSuggestionIndex p;
     overlay := Hidden; debounceTimer := debounceTimer p;
     in_flight := in_flight p; issued := issued p |}.

(** [inputHandler], run on the [input] event of the focused element;
    it includes [debouncedGenerateSuggestions]. *)
Definition inputHandler (p : Page) : Page :=
  let value := field_value p in
  if (negb (String.eqb value (lastInputValue p)) &&
      Nat.leb 1 (String.length (trim value)))%bool
  then {| field_value := value; lastInputValue := value;
          currentSuggestions := currentSuggestions p;
          activeSuggestionIndex := activeSuggestionIndex p;
          overlay := Thinking; debounceTimer := Some value;
          in_flight := in_flight p; issued := issued p |}
  else if Nat.eqb (String.length (trim value)) 0 then dismiss p
  else p.

(** The lines of [generateSuggestions(input, value)] after the [await]:
    [sent] is what [chrome.runtime.sendMessage] settled with. *)
Definition completion (value : string) (sent : Outcome (option Response))
           (p : Page) : Page :=
  match sent with
  | Throw _ => dismiss p
  | Ret response =>
      let currentValue := field_value p in
      if negb (String.eqb currentValue value) then p
      else
        match response with
        | Some r =>
            if success r then
              match suggestions (result r) with
              | first :: rest =>
                  {| field_value := field_value p;
                     lastInputValue := lastInputValue p;
                     currentSuggestions := first :: rest;
                     activeSuggestionIndex := 0;
                     overlay := Showing first (reason (result r))
                                        (isFormFill (result r));
                     debounceTimer := debounceTimer p;
                     in_flight := in_flight p; issued := issued p |}
              | [] => dismiss p
              end
            else dismiss p
        | None => dismiss p
        end
  end.

Inductive Event : Type :=
| Types (v : string)         (* the user edits the field: it now holds [v] *)
| TimerFires                 (* the debounce delay has passed *)
| Settles (id : nat) (sent : Outcome (option Response)).

Fixpoint value_of (id : nat) (l : list (nat * string)) : option string :=
  match l with
  | [] => None
  | (i, v) :: rest => if Nat.eqb i id then Some v else value_of id rest
  end.

Definition without (id : nat) (l : list (nat * string)) : list (nat * string) :=
  filter (fun iv => negb (Nat.eqb (fst iv) id)) l.

Definition step (p : Page) (e : Event) : Page :=
  match e with
  | Types v =>
      inputHandler
        {| field_value := v; lastInputValue := lastInputValue p;
           currentSuggestions := currentSuggestions p;
           activeSuggestionIndex := activeSuggestionIndex p;
           overlay := overlay p; debounceTimer := debounceTimer p;
           in_flight := in_flight p; issued := issued p |}
  | TimerFires =>
      match debounceTimer p with
      | Some value =>
          {| field_value := field_value p; lastInputValue := lastInputValue p;
             currentSuggestions := currentSuggestions p;
             activeSuggestionIndex := activeSuggestionIndex p;
             overlay := overlay p; debounceTimer := None;
             in_flight := in_flight p ++ [(issued p, value)];
             issued := S (issued p) |}
      | None => p
      end
  | Settles id sent =>
      match value_of id (in_flight p) with
      | Some value =>
          completion value sent
            {| field_value := field_value p; lastInputValue := lastInputValue p;
               currentSuggestions := currentSuggestions p;
               activeSuggestionIndex := activeSuggestionIndex p;
               overlay := overlay p; debounceTimer := debounceTimer p;
               in_flight := without id (in_flight p); issued := issued p |}
      | None => p
      end
  end.

Definition run (events : list Event) (p : Page) : Page :=
  fold_left step events p.

(** What the user sees and can accept. *)
Definition display (p : Page) : Overlay * list Suggestion * nat :=
  (overlay p, currentSuggestions p, activeSuggestionIndex p).

End SuggestionFlow.

(* ================================================================== *)
(** ** The configuration manager and [chrome.storage.local] *)
(* ================================================================== *)

Module ConfigStore.
Import Js Runtime.

(** An entry of [pastSearches]. *)
Record PastSearch : Type :=
  { query : string;
    suggestions : list Message.Suggestion;
    timestamp : Z }.

(** [chrome.storage.local], as far as the sources read and write it. *)
Module Storage.
Record t : Type :=
  { groqApiKey : option string;
    enableHistoryTracking : value;
    extensionEnabled : value;
    pastSearches : option (list PastSearch) }.
End Storage.

(** The storage after [chrome.storage.local.clear()]. *)
Definition cleared : Storage.t :=
  {| Storage.groqApiKey := None;
     Storage.enableHistoryTracking := JUndefined;
     Storage.extensionEnabled := JUndefined;
     Storage.pastSearches := None |}.

(** [chrome.storage.local.get(['groqApiKey', 'config'])] *)
Definition stored_config (s : Storage.t) : StoredConfig :=
  {| stored_groqApiKey := Storage.groqApiKey s;
     stored_enableHistoryTracking := Storage.enableHistoryTracking s |}.

(** [new ConfigManager()] *)
Definition fresh : ConfigManager := {| config := None; initialized := false |}.

(** The manager of a service worker that starts on the storage [s] and
    runs [initialize()]. *)
Definition boot (s : Storage.t) : ConfigManager :=
  configManager
    (snd (ConfigManager.initialize (Ret (stored_config s))
            {| configManager := fresh; trace := [] |})).

Definition invalid_format : string :=
  "Invalid format. Groq keys start with " ++ quoted "gsk_".

(** [setApiKey(apiKey)]; [write] is what
    [chrome.storage.local.set] settles with. *)
Definition setApiKey (apiKey : value) (write : Outcome unit)
           (s : Storage.t) (cm : ConfigManager)
  : Outcome unit * (Storage.t * ConfigManager) :=
  match apiKey with
  | JStr k =>
      if String.eqb k "" then (Throw "Invalid API key", (s, cm))
      else if negb (startsWith k "gsk_") then (Throw invalid_format, (s, cm))
      else
        match write with
        | Throw msg => (Throw msg, (s, cm))
        | Ret _ =>
            let s' :=
              {| Storage.groqApiKey := Some k;
                 Storage.enableHistoryTracking := Storage.enableHistoryTracking s;
                 Storage.extensionEnabled := Storage.extensionEnabled s;
                 Storage.pastSearches := Storage.pastSearches s |} in
            match config cm with
            | Some c =>
                (Ret tt,
                 (s', {| config :=
                           Some {| Runtime.groqApiKey := Some k;
                                   Runtime.enableHistoryTracking :=
                                     Runtime.enableHistoryTracking c |};
                         initialized := initialized cm |}))
            | None =>
                (Throw "TypeError: cannot set properties of null", (s', cm))
            end
        end
  | _ => (Throw "Invalid API key", (s, cm))
  end.

(** [clear()] *)
Definition clear (write : Outcome unit) (s : Storage.t) (cm : ConfigManager)
  : Outcome unit * (Storage.t * ConfigManager) :=
  match write with
  | Throw msg => (Throw msg, (s, cm))
  | Ret _ => (Ret tt, (cleared, fresh))
  end.

Definition or_nil {A : Type} (o : option (list A)) : list A :=
  match o with Some l => l | None => [] end.

(** [storePastSearch(query, suggestions)] of the service worker, on the
    storage; [now] is the reading of [Date.now()] and [available] says
    whether the storage answers: when it does not, the error is caught
    and nothing changes. *)
Definition storePastSearch (available : bool) (now : Z)
           (query : string) (suggestions : list Message.Suggestion)
           (s : Storage.t) : Storage.t :=
  if available then
    let pastSearches := or_nil (Storage.pastSearches s) in
    let pastSearches :=
      {| query := query; suggestions := suggestions; timestamp := now |}
        :: pastSearches in
    {| Storage.groqApiKey := Storage.groqApiKey s;
       Storage.enableHistoryTracking := Storage.enableHistoryTracking s;
       Storage.extensionEnabled := Storage.extensionEnabled s;
       Storage.pastSearches := Some (firstn 50 pastSearches) |}
  else s.

(** [getPastSimilarSearches()] of the context collector. *)
Definition getPastSimilarSearches (available : bool) (s : Storage.t)
  : list PastSearch :=
  if available then or_nil (Storage.pastSearches s) else [].

(** A run of stored searches, oldest first. *)
Fixpoint store_all (entries : list (Z * string * list Message.Suggestion))
         (s : Storage.t) : Storage.t :=
  match entries with
  | [] => s
  | (now, query, suggestions) :: rest =>
      store_all rest (storePastSearch true now query suggestions s)
  end.

Definition entry_of (e : Z * string * list Message.Suggestion) : PastSearch :=
  {| query := snd (fst e); suggestions := snd e; timestamp := fst (fst e) |}.

End ConfigStore.

(* ================================================================== *)
(** ** context-collector.js: the page and the AI tabs *)
(* ================================================================== *)

Module PageCollector.
Import Js ContextCollector.

(** What the page answers to [getPageContext], as far as it is read. *)
Record PageInfo : Type :=
  { info_title : option string;
    info_headings : option (list string) }.

Record CurrentPage : Type :=
  { title : string; url : string; headings : list string }.

Definition nowhere : CurrentPage :=
  {| title := ""; url := ""; headings := [] |}.

(** [getCurrentPageContext()]; [reply] is what
    [chrome.tabs.sendMessage] settles with ([None] when the page sends
    no answer). *)
Definition getCurrentPageContext (host : Host) (reply : Outcome (option PageInfo))
  : CurrentPage :=
  match tabs_active host with
  | Ret (tab :: _) =>
      let pageInfo :=
        match reply with
        | Ret i => i
        | Throw _ =>
            Some {| info_title := Some (or_else (Tab.title tab) "");
                    info_headings := Some [] |}
        end in
      match pageInfo with
      | Some pageInfo =>
          {| title := or_else (info_title pageInfo) (or_else (Tab.title tab) "");
             url := or_else (Tab.url tab) "";
             headings :=
               firstn 3 (match info_headings pageInfo with
                         | Some l => l
                         | None => []
                         end) |}
      | None => nowhere
      end
  | _ => nowhere
  end.

Definition aiDomains : list string :=
  ["chat.openai.com"; "claude.ai"; "bard.google.com";
   "copilot.microsoft.com"; "perplexity.ai"; "gemini.google.com";
   "poe.com"; "huggingface.co/chat"].

(** [detectAIPlatform(url)] *)
Definition detectAIPlatform (url : string) : string :=
  let urlLower := toLowerCase url in
  if includes urlLower "chat.openai.com" then "ChatGPT"
  else if includes urlLower "claude.ai" then "Claude"
  else if (includes urlLower "bard.google.com" ||
           includes urlLower "gemini.google.com")%bool then "Gemini"
  else if includes urlLower "copilot.microsoft.com" then "Copilot"
  else if includes urlLower "perplexity.ai" then "Perplexity"
  else if includes urlLower "poe.com" then "Poe"
  else "AI Chat".

Record AITab : Type :=
  { ai_title : string; ai_url : string; platform : string }.

Definition is_ai (item : HistoryItem.t) : bool :=
  let url := lower_or_empty (HistoryItem.url item) in
  existsb (fun domain => includes url domain) aiDomains.

Definition ai_tab (item : HistoryItem.t) : AITab :=
  {| ai_title := or_else (HistoryItem.title item) "";
     ai_url := or_else (HistoryItem.url item) "";
     platform := detectAIPlatform (or_else (HistoryItem.url item) "") |}.

(** [getRecentAITabs()] *)
Definition getRecentAITabs (host : Host) (now : Z) : list AITab :=
  let oneHourAgo := now - 60 * 60 * 1000 in
  match history_search host
          {| text := ""; startTime := oneHourAgo; maxResults := 20 |} with
  | Ret history => map ai_tab (firstn 3 (filter is_ai history))
  | Throw _ => []
  end.

End PageCollector.

(* ================================================================== *)
(** ** content-script.js: the keys *)
(* ================================================================== *)

Module Keyboard.
Import Js Message SuggestionFlow.

Inductive Key : Type :=
| Tab
| ArrowDown
| ArrowUp
| Escape
| Other.

(** [updateSuggestionDisplay()]: [showSuggestion] is called without a
    reason and without the form-fill flag. *)
Definition updateSuggestionDisplay (p : Page) : Outcome Page :=
  match currentSuggestions p with
  | [] => Ret p
  | _ :: _ =>
      match nth_error (currentSuggestions p) (activeSuggestionIndex p) with
      | Some suggestion =>
          Ret {| field_value := field_value p;
                 lastInputValue := lastInputValue p;
                 currentSuggestions := currentSuggestions p;
                 activeSuggestionIndex := activeSuggestionIndex p;
                 overlay := Showing suggestion (JStr "") false;
                 debounceTimer := debounceTimer p;
                 in_flight := in_flight p; issued := issued p |}
      | None => Throw "TypeError: cannot read properties of undefined"
      end
  end.

Definition with_index (p : Page) (index : nat) : Page :=
  {| field_value := field_value p;
     lastInputValue := lastInputValue p;
     currentSuggestions := currentSuggestions p;
     activeSuggestionIndex := index;
     overlay := overlay p;
     debounceTimer := debounceTimer p;
     in_flight := in_flight p; issued := issued p |}.

(** [acceptSuggestion()] on the focused input: the text goes into the
    field, the [input] event is dispatched and handled at once, and then
    the overlay is hidden. *)
Definition acceptSuggestion (p : Page) : Outcome Page :=
  match currentSuggestions p with
  | [] => Ret p
  | _ :: _ =>
      match nth_error (currentSuggestions p) (activeSuggestionIndex p) with
      | None => Throw "TypeError: cannot read properties of undefined"
      | Some suggestion =>
          let suggestionText := text suggestion in
          if String.eqb suggestionText "" then Ret p
          else
            let p1 :=
              inputHandler
                {| field_value := suggestionText;
                   lastInputValue := lastInputValue p;
                   currentSuggestions := currentSuggestions p;
                   activeSuggestionIndex := activeSuggestionIndex p;
                   overlay := overlay p;
                   debounceTimer := debounceTimer p;
                   in_flight := in_flight p; issued := issued p |} in
            Ret {| field_value := field_value p1;
                   lastInputValue := suggestionText;
                   currentSuggestions := [];
                   activeSuggestionIndex := activeSuggestionIndex p1;
                   overlay := Hidden;
                   debounceTimer := debounceTimer p1;
                   in_flight := in_flight p1; issued := issued p1 |}
      end
  end.

(** [keydownHandler(e)] on the focused input.  The index is a natural
    number; [activeSuggestionIndex - 1 + length] is computed in the
    integers, where the index 0 gives [length - 1]. *)
Definition keydownHandler (p : Page) (key : Key) : Outcome Page :=
  let n := List.length (currentSuggestions p) in
  match key with
  | Tab => if Nat.ltb 0 n then acceptSuggestion p else Ret p
  | ArrowDown =>
      if Nat.ltb 1 n
      then updateSuggestionDisplay
             (with_index p (Nat.modulo (activeSuggestionIndex p + 1) n))
      else Ret p
  | ArrowUp =>
      if Nat.ltb 1 n
      then updateSuggestionDisplay
             (with_index p
                (Z.to_nat ((Z.of_nat (activeSuggestionIndex p) - 1 + Z.of_nat n)
                           mod Z.of_nat n)))
      else Ret p
  | Escape => Ret (dismiss p)
  | Other => Ret p
  end.

(** What happens on the page: what [SuggestionFlow] has, and keys. *)
Inductive Action : Type :=
| Does (e : Event)
| Presses (key : Key).

(** An uncaught error in a handler leaves the page as the handler found
    it. *)
Definition act (p : Page) (a : Action) : Page :=
  match a with
  | Does e => step p e
  | Presses key =>
      match keydownHandler p key with
      | Ret p' => p'
      | Throw _ => p
      end
  end.

Definition play (actions : list Action) (p : Page) : Page :=
  fold_left act actions p.

(** The active index points at a suggestion, if there is any. *)
Definition in_range (p : Page) : Prop :=
  currentSuggestions p = []
  \/ (activeSuggestionIndex p < List.length (currentSuggestions p))%nat.

End Keyboard.

(* ================================================================== *)
(** ** Example data *)
(* ================================================================== *)

Module Sample.
Import Js.

(** A browser with 500 history items, visited one second apart, that
    answers a history query like Chrome does: the items since
    [startTime], at most [maxResults] of them. *)
Definition history_db : list ContextCollector.HistoryItem.t :=
  map (fun n =>
         {| ContextCollector.HistoryItem.url := Some "https://docs.python.org/3/library/asyncio.html";
            ContextCollector.HistoryItem.title := Some "asyncio - Asynchronous I/O";
            ContextCollector.HistoryItem.visitCount := Some (Z.of_nat n);
            ContextCollector.HistoryItem.lastVisitTime :=
              Some (inject_Z (1000000 - 1000 * Z.of_nat n)) |})
      (seq 0 500).

Definition since (startTime : Z) (item : ContextCollector.HistoryItem.t) : bool :=
  match ContextCollector.HistoryItem.lastVisitTime item with
  | Some q => Qle_bool (inject_Z startTime) q
  | None => false
  end.

Definition chrome_history_search (db : list ContextCollector.HistoryItem.t)
           (q : ContextCollector.HistoryQuery)
  : Outcome (list ContextCollector.HistoryItem.t) :=
  Ret (firstn (ContextCollector.maxResults q)
              (filter (since (ContextCollector.startTime q)) db)).

Definition tab (id : Z) (url title : string) : ContextCollector.Tab.t :=
  {| ContextCollector.Tab.id := Some id;
     ContextCollector.Tab.url := Some url;
     ContextCollector.Tab.title := Some title |}.

Definition open_tabs : list ContextCollector.Tab.t :=
  [ tab 1 "https://support.example.com/new" "New ticket";
    tab 2 "https://www.mybank.example/home" "My Bank";
    tab 3 "https://docs.python.org/3/" "Python docs";
    tab 4 "https://stackoverflow.com/questions/1" "asyncio vs threads";
    tab 5 "https://news.example.org/" "News";
    tab 6 "https://github.com/python/cpython" "cpython";
    tab 7 "https://example.org/a" "A";
    tab 8 "https://example.org/b" "B";
    tab 9 "https://example.org/c" "C" ].

Definition host : ContextCollector.Host :=
  {| ContextCollector.tabs_window := Ret open_tabs;
     ContextCollector.tabs_active := Ret [tab 1 "https://support.example.com/new" "New ticket"];
     ContextCollector.history_search := chrome_history_search history_db;
     ContextCollector.page_input := Ret (Some "python async") |}.

(** A browser that hands over sixteen items whatever the query says. *)
Definition generous_host : ContextCollector.Host :=
  {| ContextCollector.tabs_window := Ret open_tabs;
     ContextCollector.tabs_active := Ret [];
     ContextCollector.history_search := fun _ => Ret (firstn 16 history_db);
     ContextCollector.page_input := Ret None |}.

(** The payload of the specification's scenario, and [JSON.parse] on the
    texts of the examples: the payload parses to its value, the other
    texts are not JSON. *)
Definition scenario_text : string :=
  "how does python asyncio handle concurrency under the hood".

Definition scenario_payload : string :=
  "{" ++ quoted "reason" ++ ":" ++ quoted "ok" ++ "," ++
  quoted "suggestions" ++ ":[{" ++
  quoted "text" ++ ":" ++ quoted scenario_text ++ "," ++
  quoted "derivation" ++ ":" ++ quoted "session" ++ "}]}".

Definition scenario_value : value :=
  JObj [("reason", JStr "ok");
        ("suggestions",
         JArr [JObj [("text", JStr scenario_text);
                     ("derivation", JStr "session")]])].

Definition parse (s : string) : option value :=
  if String.eqb s scenario_payload then Some scenario_value else None.

(** The body of a successful completion carrying [content]. *)
Definition completion_body (content : string) : value :=
  JObj [("choices",
         JArr [JObj [("message", JObj [("role", JStr "assistant");
                                       ("content", JStr content)])]])].

Definition http (status : Z) (retry_after : option string) (body : value)
  : Runtime.FetchOutcome :=
  Runtime.Responds
    {| Runtime.status := status;
       Runtime.retry_after := retry_after;
       Runtime.json := Ret body |}.

Definition rate_limit_body : value :=
  JObj [("error", JObj [("message", JStr "Rate limit reached")])].


(** A provider that answers every request with the payload. *)
Definition obliging : Runtime.Network :=
  fun _ _ => http 200 None (completion_body scenario_payload).

(** A provider that always answers 429. *)
Definition always_busy : Runtime.Network :=
  fun _ _ => http 429 None rate_limit_body.

(** A configured extension that has done nothing yet. *)
Definition configured : Runtime.World :=
  {| Runtime.configManager :=
       {| Runtime.config :=
            Some {| Runtime.groqApiKey := Some "gsk_example";
                    Runtime.enableHistoryTracking := JBool true |};
          Runtime.initialized := true |};
     Runtime.trace := [] |}.

(** An extension without a key. *)
Definition unconfigured : Runtime.World :=
  {| Runtime.configManager :=
       {| Runtime.config :=
            Some {| Runtime.groqApiKey := None;
                    Runtime.enableHistoryTracking := JBool true |};
          Runtime.initialized := true |};
     Runtime.trace := [] |}.

Definition chrome_on_windows : string :=
  "Mozilla/5.0 (Windows NT 10.0; Win64; x64) AppleWebKit/537.36 (KHTML, like Gecko) Chrome/120.0.0.0 Safari/537.36".

(** An identity string that names both Windows versions. *)
Definition two_windows : string := "Windows NT 10.0; Windows NT 11.0".

Definition element (name type value : string) : ContentScript.Element :=
  {| ContentScript.name := Some name;
     ContentScript.id := Some "";
     ContentScript.placeholder := Some "";
     ContentScript.autocomplete_attr := None;
     ContentScript.aria_label := None;
     ContentScript.type := Some type;
     ContentScript.autocomplete := Some "";
     ContentScript.nearbyLabel := None;
     ContentScript.value := value |}.

Definition os_element : ContentScript.Element := element "platform" "text" "Win".

Definition context_for (text : string) (meta : option Field.FieldMeta)
  : GroqService.Context :=
  {| GroqService.active_input_text := text;
     GroqService.active_tabs := [];
     GroqService.recent_history := [];
     GroqService.fieldMeta := meta;
     GroqService.sessionIntent :=
       Some {| GroqService.sessionSummary := "Researching: python, asyncio, concurrency";
               GroqService.recentThread := "" |} |}.

(** A text box without a name, an id or a placeholder, in which the
    user has typed a secret; and a reply with one suggestion. *)
Definition nameless_box : ContentScript.Element :=
  element "" "text" "my password is hunter2".

Definition one_suggestion : Message.Response :=
  {| Message.success := true;
     Message.result :=
       {| Message.reason := JStr "ok";
          Message.suggestions :=
            [{| Message.text := scenario_text;
                Message.derivation := "Session: session" |}];
          Message.isFormFill := false;
          Message.error := None |} |}.

Definition burst : list Z :=
  [0; 1000; 2000; 3000; 4000; 5000; 6000; 7000; 8000; 9000; 30000].


Definition refusal : string := "Sorry, I can only help with {valid} requests.".

Definition os_meta : Field.FieldMeta :=
  {| Field.fieldType := Field.os;
     Field.fieldLabel := "platform";
     Field.isFormFill := true;
     Field.candidates := [ContentScript.device "Windows 10" 1] |}.


(** The page after two requests have gone out, for [ab] and for [abc]. *)
Definition two_in_flight : SuggestionFlow.Page :=
  SuggestionFlow.run
    [SuggestionFlow.Types "ab"; SuggestionFlow.TimerFires;
     SuggestionFlow.Types "abc"; SuggestionFlow.TimerFires]
    SuggestionFlow.initial.

Definition five_entries : value :=
  JArr [JObj [("text", JStr "  python asyncio tutorial ");
              ("derivation", JStr "Session thread")];
        JStr "{}";
        JStr "Suggestions: none";
        JStr "asyncio vs threads";
        JObj [("suggestion", JStr "asyncio event loop")];
        JStr "asyncio gather example"].

(** A limiter whose window is used up at time 10000. *)
Definition exhausted : RateLimiter.t :=
  {| RateLimiter.requests := [0; 1000; 2000; 3000; 4000; 5000; 6000; 7000; 8000; 9000];
     RateLimiter.windowMs := 60000 |}.

(** What the browser and the session tracker answer while all is well. *)
Definition calm : ServiceWorker.Env :=
  {| ServiceWorker.stored_extensionEnabled := Ret JUndefined;
     ServiceWorker.stored_config :=
       Ret {| Runtime.stored_groqApiKey := Some "gsk_example";
              Runtime.stored_enableHistoryTracking := JUndefined |};
     ServiceWorker.host := host;
     ServiceWorker.now := 1000000;
     ServiceWorker.intent := Ret None;
     ServiceWorker.recordQuery_outcome := Ret tt |}.

(** A storage that holds a key and nothing else. *)
Definition keyed : ConfigStore.Storage.t :=
  {| ConfigStore.Storage.groqApiKey := Some "gsk_example";
     ConfigStore.Storage.enableHistoryTracking := JUndefined;
     ConfigStore.Storage.extensionEnabled := JUndefined;
     ConfigStore.Storage.pastSearches := None |}.

(** The same browser, read after the storage was cleared. *)
Definition wiped : ServiceWorker.Env :=
  {| ServiceWorker.stored_extensionEnabled :=
       Ret (ConfigStore.Storage.extensionEnabled ConfigStore.cleared);
     ServiceWorker.stored_config :=
       Ret (ConfigStore.stored_config ConfigStore.cleared);
     ServiceWorker.host := host;
     ServiceWorker.now := 1000000;
     ServiceWorker.intent := Ret None;
     ServiceWorker.recordQuery_outcome := Ret tt |}.

(** Sixty searches, a second apart, the sixtieth last. *)
Definition sixty_searches : list (Z * string * list Message.Suggestion) :=
  map (fun n => (Z.of_nat n * 1000,
                 ("query " ++ DecimalString.NilZero.string_of_uint (Nat.to_uint n))%string,
                 []))
      (List.seq 1 60).

(** A reply with three suggestions, and the page that shows it for the
    text [py]. *)
Definition three_suggestions : Message.Response :=
  {| Message.success := true;
     Message.result :=
       {| Message.reason := JStr "ok";
          Message.suggestions :=
            [{| Message.text := "python asyncio tutorial";
                Message.derivation := "Session: thread" |};
             {| Message.text := "python packaging guide";
                Message.derivation := "Context: tabs" |};
             {| Message.text := "python type hints";
                Message.derivation := "Smart: completion" |}];
          Message.isFormFill := false;
          Message.error := None |} |}.

Definition asked_py : SuggestionFlow.Page :=
  SuggestionFlow.run [SuggestionFlow.Types "py"; SuggestionFlow.TimerFires]
                     SuggestionFlow.initial.

Definition showing_three : SuggestionFlow.Page :=
  SuggestionFlow.step asked_py
    (SuggestionFlow.Settles 0 (Ret (Some three_suggestions))).

(** The same browser with history tracking switched off, and a service
    worker that has just started. *)
Definition untracked : ServiceWorker.Env :=
  {| ServiceWorker.stored_extensionEnabled := Ret JUndefined;
     ServiceWorker.stored_config :=
       Ret {| Runtime.stored_groqApiKey := Some "gsk_example";
              Runtime.stored_enableHistoryTracking := JBool false |};
     ServiceWorker.host := host;
     ServiceWorker.now := 1000000;
     ServiceWorker.intent := Ret None;
     ServiceWorker.recordQuery_outcome := Ret tt |}.

Definition started : Runtime.World :=
  {| Runtime.configManager := ConfigStore.fresh; Runtime.trace := [] |}.

(** A browser that hands over its 500 items whatever the query says. *)
Definition lavish_host : ContextCollector.Host :=
  {| ContextCollector.tabs_window := Ret open_tabs;
     ContextCollector.tabs_active := Ret [];
     ContextCollector.history_search := fun _ => Ret history_db;
     ContextCollector.page_input := Ret None |}.




End Sample.

(* ================================================================== *)
(** ** The specification's words, where they are wider than the code *)
(* ================================================================== *)

Module Spec.
Import Js.

(** [purely punctuation/bracket characters]: the punctuation of ASCII,
    which includes every kind of bracket. *)
Definition is_punctuation (c : ascii) : bool :=
  (between 33 47 c || between 58 64 c || between 91 96 c || between 123 126 c)%bool.

Definition purely_punctuation (text : string) : bool :=
  (negb (String.eqb text "") && all_chars is_punctuation text)%bool.

(** [the schema's own field names]: the properties of the format the
    system prompts ask for. *)
Definition schema_fields : list string :=
  ["reason"; "suggestions"; "text"; "derivation"].

(** [echoing] a field name: the text holds a field name and its colon. *)
Definition echoes_field_name (text : string) : bool :=
  existsb (fun f => includes (toLowerCase text) (f ++ ":")) schema_fields.

End Spec.

(* ================================================================== *)
(** ** Notions of the further properties *)
(* ================================================================== *)

Module Shape.
Import Js Field Message Runtime.

(** The derivation [validateSuggestionOrdering] gives the entry at
    [index]. *)
Definition labelled (index : nat) (derivation : string) : string :=
  if startsWith derivation (GroqService.sourceLabel index) then derivation
  else (GroqService.sourceLabel index ++ ": " ++ derivation)%string.

(** What a result read from a payload looks like. *)
Definition well_formed (r : Result) : Prop :=
  (1 <= List.length (suggestions r) <= 3)%nat
  /\ (forall index s, nth_error (suggestions r) index = Some s ->
        (3 <= String.length (text s) <= 200)%nat
        /\ GroqService.keeps s = true
        /\ startsWith (derivation s) (GroqService.sourceLabel index) = true)
  /\ Message.isFormFill r = false
  /\ error r = None.

(** No backtick in the text. *)
Definition no_backtick (s : string) : bool :=
  all_chars (fun c => negb (Ascii.eqb c "`")) s.

(** The characters of the lines of a prompt. *)
Definition total (l : list string) : nat :=
  fold_right (fun s n => (String.length s + n)%nat) 0%nat l.

(** The three ways in which [generateSuggestions] answers. *)
Inductive Answer (JSON_parse : string -> option value)
          (context : GroqService.Context) : Result -> Prop :=
| FromCandidates m :
    GroqService.fieldMeta context = Some m -> candidates m <> [] ->
    Answer JSON_parse context (GroqService._buildFormFillResponse m)
| FromPayload content :
    Answer JSON_parse context (GroqService.parseResponse JSON_parse content)
| Failure message :
    Answer JSON_parse context
           {| reason := JStr "Error generating suggestions";
              suggestions := [];
              Message.isFormFill := false;
              error := Some message |}.

(** The request passes the three gates of the service worker: the
    extension is enabled, a key is configured once the configuration is
    read, and the sensitivity check does not stop the text. *)
Definition passes_the_gates (env : ServiceWorker.Env) (data : ServiceWorker.Data)
           (w : World) : Prop :=
  (exists stored, ServiceWorker.stored_extensionEnabled env = Ret stored
                  /\ truthy (nullish_or stored (JBool true)) = true)
  /\ (exists w1,
        ConfigManager.initialize (ServiceWorker.stored_config env) w = (Ret tt, w1)
        /\ ConfigManager.isConfigured (configManager w1) = true)
  /\ (GroqService.nonempty (ServiceWorker.request_text env data)
      && ServiceWorker.truthy_text (ServiceWorker.fieldName data)
      && ContextCollector.isSensitiveInput (ServiceWorker.request_text env data)
                                           (ServiceWorker.fieldName data))%bool
     = false.

(** The patterns without a metacharacter. *)
Definition plain_keywords : list string :=
  ["password"; "passwd"; "pwd"; "ssn"; "cvv"; "cvc"; "pin"; "token"].

(** The events that keep a query: in the past searches, with the session
    tracker. *)
Definition is_store (e : Event) : bool :=
  match e with EvStorePastSearch _ _ => true | _ => false end.

Definition is_record (e : Event) : bool :=
  match e with EvRecordQuery _ _ => true | _ => false end.

(** The events of the inference service: prompts, requests and waits. *)
Definition of_inference (e : Event) : bool :=
  match e with EvPrompt _ | EvFetch _ | EvSleep _ => true | _ => false end.

(** No number of the list is greater than one before it. *)
Fixpoint descending (l : list Z) : bool :=
  match l with
  | [] => true
  | a :: rest => (forallb (fun b => b <=? a) rest && descending rest)%bool
  end.

(** The visit count [sort] compares. *)
Definition visits (item : ContextCollector.HistoryItem.t) : Z :=
  ContextCollector.or_zero (ContextCollector.HistoryItem.visitCount item).

End Shape.

(* ================================================================== *)
(** * Properties *)
(* ================================================================== *)

(** ** Lists *)

Module ListFacts.
Import Js.

Lemma filter_narrow {A} (f g : A -> bool) (l : list A) :
  (forall x, In x l -> f x = true -> g x = true) ->
  filter f (filter g l) = filter f l.
Proof.
  induction l as [|x l IH]; intros H; simpl; [reflexivity|].
  destruct (g x) eqn:G; simpl.
  - rewrite IH by (intros; apply H; simpl; auto). reflexivity.
  - destruct (f x) eqn:F.
    + rewrite (H x) in G by (simpl; auto). discriminate.
    + apply IH. intros; apply H; simpl; auto.
Qed.

Lemma filter_count_le {A} (f g : A -> bool) (l : list A) :
  (forall x, In x l -> f x = true -> g x = true) ->
  (List.length (filter f l) <= List.length (filter g l))%nat.
Proof.
  induction l as [|x l IH]; intros H; simpl; [lia|].
  assert (IH' := IH (fun y Hy => H y (or_intror Hy))).
  destruct (f x) eqn:F.
  - rewrite (H x) by (simpl; auto). simpl. lia.
  - destruct (g x); simpl; lia.
Qed.

Lemma filter_all {A} (f : A -> bool) (l : list A) :
  (forall x, In x l -> f x = true) -> filter f l = l.
Proof.
  induction l as [|x l IH]; intros H; simpl; [reflexivity|].
  rewrite (H x) by (simpl; auto). f_equal. apply IH. intros; apply H; simpl; auto.
Qed.

Lemma filter_drops_one {A} (f : A -> bool) (l : list A) (x : A) :
  In x l -> f x = false -> (List.length (filter f l) < List.length l)%nat.
Proof.
  induction l as [|y l IH]; simpl; [tauto|].
  intros [->|Hin] Hf.
  - rewrite Hf. pose proof (filter_length_le f l). lia.
  - specialize (IH Hin Hf). destruct (f y); simpl; lia.
Qed.

Lemma firstn_In {A} (n : nat) (l : list A) (x : A) : In x (firstn n l) -> In x l.
Proof.
  revert l. induction n as [|n IH]; intros [|y l]; simpl; try tauto.
  intros [H|H]; [auto | right; apply IH, H].
Qed.

Lemma somes_In {A} (l : list (option A)) (x : A) : In x (somes l) <-> In (Some x) l.
Proof.
  induction l as [|[y|] l IH]; simpl; [tauto| |].
  - rewrite IH. split; intros [H|H]; auto; left; congruence.
  - rewrite IH. split; [auto|]. intros [H|H]; [discriminate|auto].
Qed.

End ListFacts.

(** ** The rate limiter *)

Module RateLimiterFacts.
Import RateLimiter ListFacts.

(** *** The oldest request *)

Lemma min_of_le_start x l : min_of x l <= x.
Proof.
  unfold min_of. revert x. induction l as [|y l IH]; intros x; simpl; [lia|].
  specialize (IH (Z.min x y)). lia.
Qed.

Lemma min_of_le_each x l a : In a l -> min_of x l <= a.
Proof.
  unfold min_of. revert x. induction l as [|y l IH]; intros x; simpl; [tauto|].
  intros [->|Hin].
  - pose proof (min_of_le_start (Z.min x a) l) as H. unfold min_of in H. lia.
  - apply IH, Hin.
Qed.

Lemma min_of_in x l : In (min_of x l) (x :: l).
Proof.
  unfold min_of. revert x. induction l as [|y l IH]; intros x; simpl; [auto|].
  destruct (IH (Z.min x y)) as [H|H].
  - rewrite <- H. destruct (Z.min_spec x y) as [[_ E]|[_ E]]; rewrite E; auto.
  - auto.
Qed.

(** *** One check *)

Lemma checkLimit_window now rl : windowMs (snd (checkLimit now rl)) = windowMs rl.
Proof. unfold checkLimit. destruct (Nat.leb _ _); reflexivity. Qed.

Lemma checkLimit_verdict now rl :
  fst (checkLimit now rl) = true <-> (List.length (live now rl) < maxRequests)%nat.
Proof.
  unfold checkLimit. destruct (Nat.leb maxRequests (List.length (live now rl))) eqn:E; simpl.
  - apply Nat.leb_le in E. split; [discriminate | lia].
  - apply Nat.leb_gt in E. tauto.
Qed.

Lemma Inv_new c : Inv [] c new.
Proof. constructor; simpl; try constructor; try lia. Qed.

Lemma live_history hist c rl now :
  Inv hist c rl -> c <= now ->
  live now rl = filter (fun a => now - a <? windowMs rl) hist.
Proof.
  intros I Hc. unfold live. rewrite (inv_requests _ _ _ I).
  apply filter_narrow. intros x _ H.
  apply Z.ltb_lt in H. apply Z.ltb_lt. lia.
Qed.

Lemma checkLimit_Inv hist c rl now :
  Inv hist c rl -> c <= now ->
  Inv (if fst (checkLimit now rl) then hist ++ [now] else hist) now
      (snd (checkLimit now rl)).
Proof.
  intros I Hc. pose proof (live_history _ _ _ _ I Hc) as L.
  pose proof (inv_window _ _ _ I) as Wpos.
  assert (P : Forall (fun a => a <= now) hist).
  { eapply Forall_impl; [|apply (inv_past _ _ _ I)]. simpl; intros; lia. }
  unfold checkLimit.
  destruct (Nat.leb maxRequests (List.length (live now rl))) eqn:E; simpl.
  - constructor; simpl; auto.
    + apply (inv_quota _ _ _ I).
    + unfold live. pose proof (filter_length_le (fun time => now - time <? windowMs rl) (requests rl)).
      pose proof (inv_length _ _ _ I). lia.
  - apply Nat.leb_gt in E. constructor; simpl; auto.
    + rewrite filter_app, L. simpl.
      replace (now - now <? windowMs rl) with true; [reflexivity|].
      symmetry. apply Z.ltb_lt. lia.
    + apply Forall_app. split; [assumption|]. constructor; [lia|constructor].
    + constructor; [apply (inv_quota _ _ _ I)|].
      unfold still_counted. rewrite <- L. exact E.
    + rewrite length_app. simpl. lia.
Qed.

(** *** A run of checks *)

Lemma checks_cons now rest rl :
  checks (now :: rest) rl =
    (fst (checkLimit now rl) :: fst (checks rest (snd (checkLimit now rl))),
     snd (checks rest (snd (checkLimit now rl)))).
Proof.
  simpl. destruct (checkLimit now rl) as [ok rl1]. simpl.
  destruct (checks rest rl1). reflexivity.
Qed.

Lemma admitted_cons now rest rl :
  admitted (now :: rest) rl =
    (if fst (checkLimit now rl) then [now] else [])
      ++ admitted rest (snd (checkLimit now rl)).
Proof.
  simpl. destruct (checkLimit now rl) as [ok rl1]. simpl. destruct ok; reflexivity.
Qed.

Lemma checks_Inv times : forall hist c rl,
  Inv hist c rl -> ascending c times ->
  Inv (hist ++ admitted times rl) (last_time c times) (snd (checks times rl)).
Proof.
  induction times as [|now rest IH]; intros hist c rl I A.
  - simpl. rewrite app_nil_r. exact I.
  - destruct A as [Hc A]. rewrite checks_cons, admitted_cons. simpl snd. simpl last_time.
    pose proof (checkLimit_Inv _ _ _ _ I Hc) as I1.
    specialize (IH _ _ _ I1 A).
    destruct (fst (checkLimit now rl)); simpl app in *.
    + rewrite <- app_assoc in IH. exact IH.
    + exact IH.
Qed.

(** *** At most [maxRequests] admissions in any window *)

Lemma Quota_window d hist :
  Quota d hist -> forall w, (in_window w d hist <= maxRequests)%nat.
Proof.
  induction 1 as [|h a Q IH Hlt]; intros w.
  - unfold in_window, maxRequests; simpl; lia.
  - unfold in_window. rewrite filter_app, length_app. simpl.
    destruct ((w <=? a) && (a <? w + d))%bool eqn:E; simpl.
    + apply andb_true_iff in E. destruct E as [E1 E2].
      apply Z.leb_le in E1. apply Z.ltb_lt in E2.
      assert (in_window w d h <= still_counted a d h)%nat.
      { unfold in_window, still_counted. apply filter_count_le. intros x _ Hx.
        apply andb_true_iff in Hx. destruct Hx as [X1 X2].
        apply Z.leb_le in X1. apply Z.ltb_lt. lia. }
      specialize (IH w). unfold in_window in *. lia.
    + specialize (IH w). unfold in_window in IH. lia.
Qed.

(** *** The first [maxRequests] checks pass *)

Lemma checks_below_cap times : forall rl,
  (List.length (requests rl) + List.length times <= maxRequests)%nat ->
  fst (checks times rl) = repeat true (List.length times).
Proof.
  induction times as [|now rest IH]; intros rl H; [reflexivity|].
  rewrite checks_cons. simpl in *.
  assert (L : (List.length (live now rl) <= List.length (requests rl))%nat)
    by apply filter_length_le.
  assert (V : fst (checkLimit now rl) = true) by (apply checkLimit_verdict; lia).
  rewrite V. f_equal. apply IH.
  unfold checkLimit in *.
  destruct (Nat.leb maxRequests (List.length (live now rl))); [discriminate|].
  simpl. rewrite length_app. simpl. lia.
Qed.

(** *** After a rejection *)

Lemma rejected_state now rl :
  fst (checkLimit now rl) = false ->
  snd (checkLimit now rl) = {| requests := live now rl; windowMs := windowMs rl |}
  /\ (maxRequests <= List.length (live now rl))%nat.
Proof.
  unfold checkLimit.
  destruct (Nat.leb maxRequests (List.length (live now rl))) eqn:E; simpl;
    [|discriminate].
  apply Nat.leb_le in E. auto.
Qed.

Lemma checks_all_rejected later : forall rl,
  (maxRequests <= List.length (requests rl))%nat ->
  (forall t a, In t later -> In a (requests rl) -> t - a < windowMs rl) ->
  fst (checks later rl) = repeat false (List.length later).
Proof.
  induction later as [|t rest IH]; intros rl Hfull Hin; [reflexivity|].
  rewrite checks_cons.
  assert (L : live t rl = requests rl).
  { unfold live. apply filter_all. intros a Ha. apply Z.ltb_lt.
    apply Hin; simpl; auto. }
  assert (V : fst (checkLimit t rl) = false).
  { destruct (fst (checkLimit t rl)) eqn:E; [|reflexivity].
    apply checkLimit_verdict in E. rewrite L in E. lia. }
  destruct (rejected_state _ _ V) as [S _]. rewrite V, S, L. simpl. f_equal.
  apply IH; simpl; auto. intros t' a Ht' Ha. apply Hin; simpl; auto.
Qed.

Lemma checks_window times : forall rl,
  windowMs (snd (checks times rl)) = windowMs rl.
Proof.
  induction times as [|now rest IH]; intros rl; [reflexivity|].
  rewrite checks_cons. simpl. rewrite IH. apply checkLimit_window.
Qed.

Lemma oldest_request rl :
  requests rl <> [] ->
  exists earliest,
    In earliest (requests rl)
    /\ (forall a, In a (requests rl) -> earliest <= a)
    /\ forall now, getTimeUntilReset now rl = Z.max 0 (earliest + windowMs rl - now).
Proof.
  unfold getTimeUntilReset. destruct (requests rl) as [|x l]; [congruence|].
  intros _. exists (min_of x l). split; [apply min_of_in|]. split; [|reflexivity].
  intros a [<-|Ha]; [apply min_of_le_start | apply min_of_le_each, Ha].
Qed.

(** C5.  Checks made at clock readings that never go back, on a fresh
    limiter (cap 10, window 60000 ms): no window of 60000 ms holds more
    than 10 admissions; the first 10 checks are admitted; a further
    check is admitted exactly when fewer than 10 admissions are less
    than 60000 ms old; and once a check is rejected, every check before
    the earliest counted admission is 60000 ms old is rejected too,
    [getTimeUntilReset] tells how long that takes, and any check from
    then on is admitted. *)
Theorem sliding_window_admission (c : Z) (times : list Z) :
  ascending c times ->
  let rl := snd (checks times new) in
  let adm := admitted times new in
  (forall w, (in_window w 60000 adm <= 10)%nat)
  /\ ((List.length times <= 10)%nat ->
      fst (checks times new) = repeat true (List.length times))
  /\ (forall now, last_time c times <= now ->
        (fst (checkLimit now rl) = true <-> (still_counted now 60000 adm < 10)%nat)
        /\ (fst (checkLimit now rl) = false ->
             let rl' := snd (checkLimit now rl) in
             exists earliest,
               In earliest adm
               /\ now - earliest < 60000
               /\ (forall a, In a (requests rl') -> earliest <= a)
               /\ getTimeUntilReset now rl' = earliest + 60000 - now
               /\ fst (getRemainingRequests now rl') = 0
               /\ (forall later, Forall (fun t => t < earliest + 60000) later ->
                     fst (checks later rl') = repeat false (List.length later))
               /\ (forall now', earliest + 60000 <= now' ->
                     fst (checkLimit now' rl') = true))).
Proof.
  intros A rl adm.
  pose proof (checks_Inv times [] c new (Inv_new c) A) as I.
  simpl app in I. fold rl adm in I.
  assert (W : windowMs rl = 60000) by (unfold rl; rewrite checks_window; reflexivity).
  split; [|split].
  - intros w. pose proof (Quota_window _ _ (inv_quota _ _ _ I) w) as H.
    rewrite W in H. exact H.
  - intros H. apply checks_below_cap. simpl. unfold maxRequests. lia.
  - intros now Hnow.
    pose proof (live_history _ _ _ _ I Hnow) as L. rewrite W in L.
    split.
    + rewrite checkLimit_verdict, L. reflexivity.
    + intros V rl'. destruct (rejected_state _ _ V) as [S Full].
      assert (R : requests rl' = live now rl) by (unfold rl'; rewrite S; reflexivity).
      assert (W' : windowMs rl' = 60000) by (unfold rl'; rewrite S; exact W).
      assert (Len : List.length (requests rl') = maxRequests).
      { pose proof (inv_length _ _ _ (checkLimit_Inv _ _ _ _ I Hnow)) as H.
        fold rl' in H. rewrite R in *. lia. }
      destruct (oldest_request rl') as (earliest & Ein & Emin & Ereset).
      { intros E. rewrite E in Len. discriminate. }
      assert (Ein' := Ein). rewrite R, L in Ein'.
      apply filter_In in Ein'. destruct Ein' as [Eadm Ewin].
      apply Z.ltb_lt in Ewin.
      exists earliest. repeat split; auto.
      * rewrite Ereset, W'. lia.
      * unfold getRemainingRequests. simpl.
        assert (LL : live now rl' = requests rl').
        { unfold live. apply filter_all. intros a Ha. rewrite W'.
          rewrite R, L in Ha. apply filter_In in Ha. apply Ha. }
        rewrite LL, Len. reflexivity.
      * intros later F. apply checks_all_rejected; [lia|].
        intros t a Ht Ha. rewrite W'.
        rewrite Forall_forall in F. specialize (F t Ht). specialize (Emin a Ha). lia.
      * intros now' Hlate. apply checkLimit_verdict. rewrite <- Len.
        unfold live. apply filter_drops_one with (x := earliest); [exact Ein|].
        apply Z.ltb_ge. rewrite W'. lia.
Qed.

(** Eleven checks within half a minute: ten pass, the eleventh does not,
    nor does one at 59999 ms; the one at 60000 ms does. *)
Lemma sliding_window_admission_witness :
  ascending 0 Sample.burst
  /\ fst (checks Sample.burst new)
     = [true; true; true; true; true; true; true; true; true; true; false]
  /\ (forall w, (in_window w 60000 (admitted Sample.burst new) <= 10)%nat)
  /\ fst (checkLimit 59999 (snd (checks Sample.burst new))) = false
  /\ fst (checkLimit 60000 (snd (checks Sample.burst new))) = true.
Proof.
  assert (A : ascending 0 Sample.burst) by (simpl; lia).
  split; [exact A|]. split; [reflexivity|].
  split; [exact (proj1 (sliding_window_admission 0 Sample.burst A))|].
  split; reflexivity.
Defined.

End RateLimiterFacts.

(** ** The field classifiers *)

Module ClassifierFacts.
Import Js Regex Field.

Lemma first_rule_not_sensitive combined ty :
  FormDetector.first_rule FormDetector.rules combined = Some ty -> ty <> sensitive.
Proof.
  unfold FormDetector.rules. simpl.
  repeat (match goal with
          | |- context [if ?b then _ else _] => destruct b
          end; [intros H; inversion H; discriminate|]).
  discriminate.
Qed.


(** The category is [sensitive] in no other case. *)
Lemma sensitive_only_then (meta : FormDetector.Meta) :
  FormDetector._classifyField meta = Some sensitive ->
  existsb (fun k => includes (FormDetector.combined_text meta) k)
          FormDetector.sensitive_keywords = true
  \/ FormDetector.type meta = Some "password"
  \/ FormDetector.type meta = Some "tel".
Proof.
  unfold FormDetector._classifyField.
  destruct (existsb _ FormDetector.sensitive_keywords); [auto|].
  assert (T : forall tag, FormDetector.type_is meta tag = true ->
                          FormDetector.type meta = Some tag).
  { intros tag. unfold FormDetector.type_is.
    destruct (FormDetector.type meta) as [t|]; [|discriminate].
    destruct (String.eqb_spec t tag); [congruence|discriminate]. }
  destruct (FormDetector.type_is meta "password") eqn:P; [auto|].
  destruct (FormDetector.type_is meta "tel") eqn:L; [auto|]. cbn [orb].
  destruct (FormDetector.first_rule FormDetector.rules
              (FormDetector.combined_text meta)) eqn:R.
  - intros H. injection H as ->. apply first_rule_not_sensitive in R.
    exfalso. apply R. reflexivity.
  - match goal with |- context [if ?b then _ else _] => destruct b end; discriminate.
Qed.

(** The scenarios of the specification, on [_classifyField]. *)
Lemma password_field_is_sensitive :
  FormDetector._classifyField
    {| FormDetector.name := Some "password"; FormDetector.id := None;
       FormDetector.placeholder := None; FormDetector.autocomplete := None;
       FormDetector.label := None; FormDetector.type := None |}
  = Some sensitive.
Proof. reflexivity. Qed.

Lemma os_field_is_os :
  FormDetector._classifyField
    {| FormDetector.name := Some "os_field"; FormDetector.id := None;
       FormDetector.placeholder := None; FormDetector.autocomplete := None;
       FormDetector.label := None; FormDetector.type := None |}
  = Some os.
Proof. reflexivity. Qed.

(** The content script, which looks for [_os_], [platform] and
    [operating_system], does not see an operating-system field in the
    name [os_field]. *)
Lemma os_field_is_unknown_to_the_page :
  ContentScript.classifyField (Sample.element "os_field" "text" "") = None.
Proof. reflexivity. Qed.






End ClassifierFacts.

(** ** The context snapshot *)

Module SnapshotFacts.
Import Js ContextCollector ListFacts.

Lemma active_tabs_cap host : (List.length (getActiveTabsContext host) <= 5)%nat.
Proof.
  unfold getActiveTabsContext.
  destruct (tabs_window host); [|simpl; lia].
  destruct (tabs_active host); [|simpl; lia].
  rewrite length_map. apply firstn_le_length.
Qed.

Lemma active_tabs_are_other_tabs host i :
  In i (getActiveTabsContext host) ->
  exists tabs active tab,
    tabs_window host = Ret tabs /\ tabs_active host = Ret active
    /\ In tab tabs /\ i = tab_info tab
    /\ same_id tab (hd_error active) = false
    /\ isFiltered tab = false.
Proof.
  unfold getActiveTabsContext.
  destruct (tabs_window host) as [tabs|]; [|simpl; tauto].
  destruct (tabs_active host) as [active|]; [|simpl; tauto].
  intros H. apply in_map_iff in H. destruct H as (tab & <- & H).
  apply firstn_In in H.
  apply filter_In in H. destruct H as [Hin Hother].
  exists tabs, active, tab. repeat split; auto.
  - unfold other_tab in Hother. destruct (same_id tab (hd_error active)); [discriminate|reflexivity].
  - unfold other_tab in Hother. destruct (same_id tab (hd_error active)); [discriminate|].
    destruct (isFiltered tab); [discriminate|reflexivity].
Qed.

Lemma recent_history_within_answer host now :
  match history_search host
          {| text := ""; startTime := now - 2 * 60 * 60 * 1000; maxResults := 15 |} with
  | Ret history => (List.length (getRecentHistory host now) <= List.length history)%nat
  | Throw _ => getRecentHistory host now = []
  end.
Proof.
  unfold getRecentHistory. destruct (history_search host _); [|reflexivity].
  rewrite length_map. apply filter_length_le.
Qed.

Lemma insert_by_visits_length x l :
  List.length (insert_by_visits x l) = S (List.length l).
Proof.
  induction l as [|y l IH]; simpl; [reflexivity|].
  destruct (_ <=? 0); simpl; [reflexivity|]. rewrite IH. reflexivity.
Qed.

Lemma sort_by_visits_length l : List.length (sort_by_visits l) = List.length l.
Proof.
  induction l as [|x l IH]; [reflexivity|].
  change (sort_by_visits (x :: l)) with (insert_by_visits x (sort_by_visits l)).
  rewrite insert_by_visits_length, IH. reflexivity.
Qed.

Lemma top_visited_cap host now : (List.length (getTopVisitedTitles host now) <= 5)%nat.
Proof.
  unfold getTopVisitedTitles. destruct (history_search host _); [|simpl; lia].
  rewrite length_map. apply firstn_le_length.
Qed.

(** C6, as the code has it.  However many tabs and history items there
    are, the snapshot has at most 5 other tabs (none of them the active
    tab, none with a sensitive word in its address) and at most 5
    most-visited entries.  The recent navigation has no cap of its own:
    it is every useful item of the browser's answer to a query for the
    last two hours with [maxResults: 15], so it has at most as many
    entries as that answer, and at most 15 with a browser that keeps to
    the [maxResults] of a query. *)
Theorem snapshot_caps (host : Host) (now : Z) :
  let snapshot := collectContext host now in
  (List.length (active_tabs snapshot) <= 5)%nat
  /\ (List.length (top_visited_titles snapshot) <= 5)%nat
  /\ (forall i, In i (active_tabs snapshot) ->
        exists tabs active tab,
          tabs_window host = Ret tabs /\ tabs_active host = Ret active
          /\ In tab tabs /\ i = tab_info tab
          /\ same_id tab (hd_error active) = false
          /\ isFiltered tab = false)
  /\ match history_search host
             {| text := ""; startTime := now - 7200000; maxResults := 15 |} with
     | Ret history =>
         recent_history snapshot = map visit_info (filter useful history)
         /\ (List.length (recent_history snapshot) <= List.length history)%nat
     | Throw _ => recent_history snapshot = []
     end
  /\ (honours_maxResults host ->
      (List.length (recent_history snapshot) <= 15)%nat).
Proof.
  intros snapshot. unfold snapshot, collectContext.
  cbn [active_tabs top_visited_titles recent_history].
  split; [apply active_tabs_cap|].
  split; [apply top_visited_cap|].
  split; [apply active_tabs_are_other_tabs|].
  unfold getRecentHistory. change (now - 2 * 60 * 60 * 1000) with (now - 7200000).
  destruct (history_search host
              {| text := ""; startTime := now - 7200000; maxResults := 15 |})
    as [history|msg] eqn:E.
  - assert (L : (List.length (map visit_info (filter useful history))
                 <= List.length history)%nat)
      by (rewrite length_map; apply filter_length_le).
    split; [split; [reflexivity | exact L]|].
    intros Hhost. apply Hhost in E. cbn [maxResults] in E. lia.
  - split; [reflexivity|]. intros _. simpl. lia.
Qed.

Lemma chrome_history_search_honours db q l :
  Sample.chrome_history_search db q = Ret l -> (List.length l <= maxResults q)%nat.
Proof.
  unfold Sample.chrome_history_search. intros E. injection E as <-.
  apply firstn_le_length.
Qed.

(** Nine tabs and 500 history items, with a browser that keeps to
    [maxResults]. *)
Lemma snapshot_caps_witness :
  List.length Sample.history_db = 500%nat
  /\ honours_maxResults Sample.host
  /\ (List.length (active_tabs (collectContext Sample.host 1000000)) <= 5)%nat
  /\ (List.length (recent_history (collectContext Sample.host 1000000)) <= 15)%nat
  /\ (List.length (top_visited_titles (collectContext Sample.host 1000000)) <= 5)%nat.
Proof.
  assert (H : honours_maxResults Sample.host).
  { intros q l E. exact (chrome_history_search_honours Sample.history_db q l E). }
  split; [vm_compute; reflexivity|]. split; [exact H|].
  destruct (snapshot_caps Sample.host 1000000) as (A & C & _ & _ & B).
  exact (conj A (conj (B H) C)).
Defined.

(** The cap on recent navigation is the [maxResults] of the query: the
    collector keeps every useful item of the answer. *)
Lemma recent_history_has_no_cap_of_its_own :
  List.length (getRecentHistory Sample.generous_host 1000000) = 16%nat.
Proof. vm_compute. reflexivity. Qed.

(** Where C6 fails as it is worded: a browser that hands over 500 useful
    items gets 500 entries of recent navigation into the snapshot. *)
Lemma five_hundred_items_stay_in_the_snapshot :
  List.length Sample.history_db = 500%nat
  /\ List.length (recent_history (collectContext Sample.lavish_host 1000000)) = 500%nat
  /\ ~ (forall (host : Host) (now : Z),
          (List.length (recent_history (collectContext host now)) <= 15)%nat).
Proof.
  assert (L : List.length (recent_history (collectContext Sample.lavish_host 1000000))
              = 500%nat) by (vm_compute; reflexivity).
  split; [vm_compute; reflexivity|]. split; [exact L|].
  intros H. specialize (H Sample.lavish_host 1000000).
  rewrite L in H. apply Nat.leb_le in H. vm_compute in H. discriminate H.
Qed.

End SnapshotFacts.

(** ** The response validator *)

Module ValidatorFacts.
Import Js Message Runtime GroqService ListFacts.

Lemma keeps_spec s :
  keeps s = true ->
  (3 <= String.length (text s) <= 200)%nat
  /\ all_chars bracket_or_quote (text s) = false
  /\ includes (toLowerCase (text s)) "reason:" = false
  /\ includes (toLowerCase (text s)) "suggestions:" = false.
Proof.
  unfold keeps.
  destruct (String.eqb (text s) ""); [discriminate|].
  destruct (Nat.ltb (String.length (text s)) 3) eqn:L3; [discriminate|].
  destruct (Nat.ltb 200 (String.length (text s))) eqn:L200; [discriminate|].
  simpl.
  destruct (all_chars bracket_or_quote (text s)); [discriminate|].
  destruct (includes (toLowerCase (text s)) "reason:"); [discriminate|].
  destruct (includes (toLowerCase (text s)) "suggestions:"); [discriminate|].
  apply Nat.ltb_ge in L3, L200. intros _. repeat split; auto.
Qed.

(** C8, as the code has it.  Every entry that survives
    [validateSuggestions] is the entry made of one of the given elements
    (its text converted to a string and trimmed, nothing else); its text
    has 3 to 200 characters, is not made up of braces, square brackets
    and quote characters only, and contains neither [reason:] nor
    [suggestions:] in any letter case; the survivors are the first three
    entries that pass, in order. *)
Theorem validateSuggestions_survivors (suggestions : value) :
  let out := validateSuggestions suggestions in
  (List.length out <= 3)%nat
  /\ (forall s, In s out ->
        (3 <= String.length (text s) <= 200)%nat
        /\ all_chars bracket_or_quote (text s) = false
        /\ includes (toLowerCase (text s)) "reason:" = false
        /\ includes (toLowerCase (text s)) "suggestions:" = false
        /\ exists l element,
             suggestions = JArr l /\ In element l /\ entry_of element = Some s)
  /\ (forall l, suggestions = JArr l ->
        out = firstn 3 (filter keeps (somes (map entry_of l)))).
Proof.
  intros out. unfold out, validateSuggestions.
  destruct suggestions as [| | | | |l|];
    try (simpl; split; [lia | split; [tauto | intros; discriminate]]).
  split; [apply firstn_le_length|]. split.
  - intros s H. apply firstn_In in H. apply filter_In in H. destruct H as [Hin Hk].
    destruct (keeps_spec s Hk) as (A & B & C & D).
    repeat split; try tauto.
    apply somes_In in Hin. apply in_map_iff in Hin. destruct Hin as (element & E & Hel).
    exists l, element. auto.
  - intros l' E. injection E as <-. reflexivity.
Qed.

(** Five entries, of which the second and the third fail the tests. *)
Lemma validateSuggestions_survivors_witness :
  validateSuggestions Sample.five_entries
  = [{| text := "python asyncio tutorial"; derivation := "Session thread" |};
     {| text := "asyncio vs threads"; derivation := "Based on context" |};
     {| text := "asyncio event loop"; derivation := "Based on context" |}]
  /\ (List.length (validateSuggestions Sample.five_entries) <= 3)%nat.
Proof.
  split; [reflexivity|].
  exact (proj1 (validateSuggestions_survivors Sample.five_entries)).
Defined.

(** What survives although the specification's words rule it out. *)
Lemma brackets_and_field_names_survive :
  ~ (forall suggestions s,
       In s (validateSuggestions suggestions) ->
       Spec.purely_punctuation (text s) = false)
  /\ ~ (forall suggestions s,
          In s (validateSuggestions suggestions) ->
          Spec.echoes_field_name (text s) = false).
Proof.
  split; intros H.
  - specialize (H (JArr [JStr "((("])
                  {| text := "((("; derivation := "Based on context" |}).
    simpl in H. discriminate H. left; reflexivity.
  - specialize (H (JArr [JObj [("text", JStr "derivation: session")]])
                  {| text := "derivation: session"; derivation := "Based on context" |}).
    simpl in H. discriminate H. left; reflexivity.
Qed.

(** *** Parsing *)

Lemma try_catch_returns {A} (m : M A) (f : string -> A) w :
  exists a w', try_catch m (fun message => ret (f message)) w = (Ret a, w').
Proof.
  unfold try_catch, ret. destruct (m w) as [[a|msg] w1]; eauto.
Qed.

Lemma groq_generateSuggestions_returns JSON_parse net context w :
  exists r w', generateSuggestions JSON_parse net context w = (Ret r, w').
Proof. unfold generateSuggestions. apply try_catch_returns. Qed.

Lemma worker_generateSuggestions_returns JSON_parse net env data w :
  exists r w',
    ServiceWorker.generateSuggestions JSON_parse net env data w = (Ret r, w').
Proof.
  unfold ServiceWorker.generateSuggestions.
  apply (try_catch_returns _ (fun message =>
           ServiceWorker.reply false JUndefined (Some message))).
Qed.

(** C9.  When [JSON.parse] throws on the fence-stripped text and on the
    brace-delimited part of it (if there is one), [parseResponse] returns
    no suggestion and the reason [Could not parse AI response]; and
    whatever the payload, the provider, the browser and the request are,
    neither the service nor the service worker lets an exception out:
    both return a result. *)
Theorem malformed_response_is_contained (JSON_parse : string -> option value) :
  (forall content,
      JSON_parse (fence_stripped content) = None ->
      (forall jsonMatch, brace_match (fence_stripped content) = Some jsonMatch ->
                         JSON_parse jsonMatch = None) ->
      parseResponse JSON_parse content
      = {| reason := JStr "Could not parse AI response";
           suggestions := []; isFormFill := false; error := None |})
  /\ (forall net context w,
        exists r w', generateSuggestions JSON_parse net context w = (Ret r, w'))
  /\ (forall net env data w,
        exists r w',
          ServiceWorker.generateSuggestions JSON_parse net env data w = (Ret r, w')).
Proof.
  split; [|split].
  - intros content H1 H2. unfold parseResponse, from_parsed. rewrite H1.
    destruct (brace_match (fence_stripped content)) as [jsonMatch|] eqn:B;
      [|reflexivity].
    rewrite (H2 jsonMatch eq_refl). reflexivity.
  - intros. apply groq_generateSuggestions_returns.
  - intros. apply worker_generateSuggestions_returns.
Qed.

(** A refusal in prose with a stray brace pair. *)
Lemma malformed_response_is_contained_witness :
  Sample.parse (fence_stripped Sample.refusal) = None
  /\ brace_match (fence_stripped Sample.refusal) = Some "{valid}"
  /\ Sample.parse "{valid}" = None
  /\ parseResponse Sample.parse Sample.refusal
     = {| reason := JStr "Could not parse AI response";
          suggestions := []; isFormFill := false; error := None |}.
Proof.
  split; [reflexivity|]. split; [reflexivity|]. split; [reflexivity|].
  apply (proj1 (malformed_response_is_contained Sample.parse) Sample.refusal).
  - reflexivity.
  - intros jsonMatch H. vm_compute in H. injection H as <-. reflexivity.
Defined.

(** The scenario of the specification: a fenced payload after some
    prose is still read, and the model's derivation gets its label. *)
Lemma fenced_payload_is_read :
  parseResponse Sample.parse
    ("Here you go: ```json" ++ nl ++ Sample.scenario_payload ++ nl ++ "```")
  = {| reason := JStr "ok";
       suggestions := [{| text := Sample.scenario_text;
                          derivation := "Session: session" |}];
       isFormFill := false; error := None |}.
Proof. vm_compute. reflexivity. Qed.

End ValidatorFacts.

(** ** The inference client *)

Module InferenceFacts.
Import Js Regex Field Message Runtime GroqService.

Lemma http_attempts_app l1 l2 :
  http_attempts (l1 ++ l2) = (http_attempts l1 + http_attempts l2)%nat.
Proof. unfold http_attempts. rewrite filter_app, length_app. reflexivity. Qed.

Lemma fail_with_throws r w : exists msg, fail_with r w = (Throw msg, w).
Proof.
  unfold fail_with, bind, lift, throw.
  destruct (json r) as [error|msg]; [|eauto].
  destruct error; eauto.
Qed.

Lemma succeed_with_world JSON_parse r w w0 :
  succeed_with JSON_parse r w = (fst (succeed_with JSON_parse r w0), w).
Proof.
  unfold succeed_with, bind, lift, throw, ret.
  destruct (json r) as [data|msg]; [|reflexivity].
  destruct data; try reflexivity;
    match goal with
    | |- context [if ?b then _ else _] => destruct b; try reflexivity
    end;
    match goal with
    | |- context [match ?c with JStr _ => _ | _ => _ end] => destruct c; reflexivity
    end.
Qed.

Section Retry.

Variable JSON_parse : string -> option value.
Variable net : Network.
Variables (apiKey prompt : string) (systemPrompt : SystemPrompt).

Let req := request apiKey prompt systemPrompt.

Lemma callWithRetry_unfold fuel attempt w :
  callWithRetry JSON_parse net (S fuel) apiKey prompt systemPrompt attempt w
  = match fetch net req w with
    | (Throw msg, w1) => Some (Throw msg, w1)
    | (Ret response, w1) =>
        if ((status response =? 429) && Nat.eqb attempt 0)%bool
        then callWithRetry JSON_parse net fuel apiKey prompt systemPrompt 1
               (snd (emit (EvSleep (or_else (retry_after response) "2")) w1))
        else if negb (ok response)
        then Some (fail_with response w1)
        else Some (succeed_with JSON_parse response w1)
    end.
Proof. reflexivity. Qed.

Lemma settle_after response w :
  settle JSON_parse response
    (fst ((if negb (ok response) then fail_with response
           else succeed_with JSON_parse response) w))
  /\ snd ((if negb (ok response) then fail_with response
           else succeed_with JSON_parse response) w) = w.
Proof.
  unfold settle. destruct (ok response); simpl.
  - split.
    + intros w0. rewrite (succeed_with_world JSON_parse response w w0). reflexivity.
    + rewrite (succeed_with_world JSON_parse response w w). reflexivity.
  - destruct (fail_with_throws response w) as [msg E]. rewrite E. simpl. eauto.
Qed.

(** The second call: [attempt] is 1, so there is no further one. *)
Lemma second_attempt fuel w :
  exists out,
    callWithRetry JSON_parse net (S fuel) apiKey prompt systemPrompt 1 w
      = Some (out, with_trace w (trace w ++ [EvFetch req]))
    /\ match net (http_attempts (trace w)) req with
       | NetworkError msg => out = Throw msg
       | Responds second => settle JSON_parse second out
       end.
Proof.
  rewrite callWithRetry_unfold. unfold fetch.
  destruct (net (http_attempts (trace w)) req) as [msg|second]; [eauto|].
  rewrite andb_false_r.
  destruct (settle_after second (with_trace w (trace w ++ [EvFetch req]))) as [S1 S2].
  eexists. split; [|exact S1].
  destruct (negb (ok second)); rewrite (surjective_pairing (_ _)); rewrite S2;
    reflexivity.
Qed.

(** The first request fails on the way. *)
Lemma first_attempt_lost fuel w msg :
  net (http_attempts (trace w)) req = NetworkError msg ->
  callWithRetry JSON_parse net (S fuel) apiKey prompt systemPrompt 0 w
  = Some (Throw msg, with_trace w (trace w ++ [EvFetch req])).
Proof.
  intros N. rewrite callWithRetry_unfold. unfold fetch. fold req. rewrite N.
  reflexivity.
Qed.

(** The first answer has another status than 429. *)
Lemma first_attempt_final fuel w first :
  net (http_attempts (trace w)) req = Responds first ->
  (status first =? 429) = false ->
  exists out,
    callWithRetry JSON_parse net (S fuel) apiKey prompt systemPrompt 0 w
    = Some (out, with_trace w (trace w ++ [EvFetch req]))
    /\ settle JSON_parse first out.
Proof.
  intros N S429. rewrite callWithRetry_unfold. unfold fetch. fold req.
  rewrite N, S429. cbn [andb].
  destruct (settle_after first (with_trace w (trace w ++ [EvFetch req]))) as [S1 S2].
  eexists. split; [|exact S1].
  destruct (negb (ok first)); rewrite (surjective_pairing (_ _)); rewrite S2;
    reflexivity.
Qed.

(** The first answer has status 429. *)
Lemma first_attempt_busy fuel w first :
  net (http_attempts (trace w)) req = Responds first ->
  (status first =? 429) = true ->
  exists out,
    callWithRetry JSON_parse net (S (S fuel)) apiKey prompt systemPrompt 0 w
    = Some (out,
            with_trace w
              (trace w ++ [EvFetch req;
                           EvSleep (or_else (retry_after first) "2");
                           EvFetch req]))
    /\ match net (S (http_attempts (trace w))) req with
       | NetworkError msg => out = Throw msg
       | Responds second => settle JSON_parse second out
       end.
Proof.
  intros N S429. rewrite callWithRetry_unfold. unfold fetch. fold req.
  rewrite N, S429. cbn [andb Nat.eqb].
  set (w2 := snd (emit (EvSleep (or_else (retry_after first) "2"))
                    (with_trace w (trace w ++ [EvFetch req])))).
  destruct (second_attempt fuel w2) as (out & E & Hout).
  exists out. split.
  - rewrite E. unfold w2, emit. simpl. rewrite <- !app_assoc. reflexivity.
  - replace (http_attempts (trace w2)) with (S (http_attempts (trace w))) in Hout;
      [exact Hout|].
    unfold w2, emit. simpl. rewrite !http_attempts_app.
    unfold http_attempts at 3 4. simpl. lia.
Qed.

(** One request or two, whatever the provider answers. *)
Lemma callWithRetry_attempts (fuel : nat) (w : World) :
  (2 <= fuel)%nat ->
  exists out events,
    callWithRetry JSON_parse net fuel apiKey prompt systemPrompt 0 w
      = Some (out, with_trace w (trace w ++ events))
    /\ (1 <= http_attempts events <= 2)%nat.
Proof.
  intros Hfuel. destruct fuel as [|[|fuel]]; try lia.
  destruct (net (http_attempts (trace w)) req) as [msg|first] eqn:N.
  - rewrite (first_attempt_lost _ w msg N).
    eexists; eexists. split; [reflexivity|]. unfold http_attempts; simpl; lia.
  - destruct (status first =? 429) eqn:S429.
    + destruct (first_attempt_busy fuel w first N S429) as (out & E & _).
      rewrite E. eexists; eexists. split; [reflexivity|].
      unfold http_attempts; simpl; lia.
    + destruct (first_attempt_final (S fuel) w first N S429) as (out & E & _).
      rewrite E. eexists; eexists. split; [reflexivity|].
      unfold http_attempts; simpl; lia.
Qed.


End Retry.


Lemma busy_provider_is_asked_twice :
  option_map (fun r => (fst r, http_attempts (trace (snd r))))
    (callWithRetry Sample.parse Sample.always_busy 7 "gsk_example" "Q:python"
                   ContextAwareSystemPrompt 0 Sample.configured)
  = Some (Throw "Rate limit reached", 2%nat).
Proof. vm_compute. reflexivity. Qed.

End InferenceFacts.

(** ** Regular expressions without metacharacters *)

Module RegexFacts.
Import Js Regex.

Lemma accepts_lit p : forall s bol k,
  accepts (lit p) bol s k
  = if startsWith s p
    then k (match p with EmptyString => bol | _ => false end) (drop (String.length p) s)
    else false.
Proof.
  induction p as [|c p IH]; intros s bol k.
  - simpl. destruct s; reflexivity.
  - destruct s as [|d s]; [reflexivity|].
    cbn [lit accepts chr startsWith String.length drop].
    rewrite IH. destruct (Ascii.eqb c d); [|reflexivity]. simpl.
    destruct (startsWith s p); [|reflexivity]. destruct p; reflexivity.
Qed.

Lemma here_lit p s bol : here (lit p) bol s = startsWith s p.
Proof. unfold here. rewrite accepts_lit. destruct (startsWith s p); reflexivity. Qed.

Lemma search_lit p s : forall bol, search (lit p) bol s = includes s p.
Proof.
  induction s as [|c s IH]; intros bol; simpl; rewrite here_lit; [reflexivity|].
  rewrite IH. reflexivity.
Qed.

(** [/p/.test(s)] is [s.includes(p)] when [p] has no metacharacter. *)
Lemma test_lit p s : test (lit p) s = includes s p.
Proof. apply search_lit. Qed.

End RegexFacts.

(** ** Form fill, and what does not stand before the inference call *)

Module FormFillFacts.
Import Js Regex Field Message Runtime GroqService.

Lemma detectOS_windows_10 ua :
  includes ua "Windows NT 10" = true ->
  includes ua "Windows NT 11" = false ->
  ContentScript.detectOS ua = Some "Windows 10".
Proof.
  intros H10 H11. unfold ContentScript.detectOS.
  rewrite !RegexFacts.test_lit, H11, H10. reflexivity.
Qed.

Lemma getApiKey_configured w key :
  ConfigManager.api_key (configManager w) = Some key ->
  ConfigManager.getApiKey w = (Ret key, w).
Proof. intros H. unfold ConfigManager.getApiKey. rewrite H. reflexivity. Qed.

Lemma getApiKey_unconfigured w :
  ConfigManager.api_key (configManager w) = None ->
  ConfigManager.getApiKey w = (Throw "Groq API key not configured", w).
Proof. intros H. unfold ConfigManager.getApiKey. rewrite H. reflexivity. Qed.

Lemma form_fill_ready_intro context m :
  fieldMeta context = Some m -> Field.isFormFill m = true -> candidates m <> [] ->
  form_fill_ready context = Some m.
Proof.
  intros H1 H2 H3. unfold form_fill_ready. rewrite H1, H2.
  destruct (candidates m); [congruence|reflexivity].
Qed.

(** C3, as the code has it.  With an API key configured, a request whose
    field metadata is marked form-fill and carries candidates is answered
    from those candidates alone: each value as the text of a suggestion,
    derived [Auto-filled from] its source, the form-fill flag set, and
    the world as it was: no prompt, no HTTP request.  Without a key the
    answer is the error result, and again nothing is sent.  For a field
    the content script classifies as [os], on a platform whose identity
    string contains [Windows NT 10] and not [Windows NT 11], the content
    script's metadata hold the one candidate [Windows 10], from the
    device, with confidence 1. *)
Theorem form_fill_skips_inference :
  (forall JSON_parse net context m w key,
      ConfigManager.api_key (configManager w) = Some key ->
      fieldMeta context = Some m ->
      Field.isFormFill m = true ->
      candidates m <> [] ->
      generateSuggestions JSON_parse net context w
      = (Ret {| reason := JStr ("Smart fill for " ++ quoted (fieldLabel m));
                suggestions :=
                  map (fun c => {| text := Candidate.value c;
                                   derivation := "Auto-filled from " ++ Candidate.source c |})
                      (candidates m);
                Message.isFormFill := true;
                error := None |},
         w))
  /\ (forall JSON_parse net context w,
        ConfigManager.api_key (configManager w) = None ->
        generateSuggestions JSON_parse net context w
        = (Ret {| reason := JStr "Error generating suggestions";
                  suggestions := [];
                  Message.isFormFill := false;
                  error := Some "Groq API key not configured" |},
           w))
  /\ (forall ua element,
        ContentScript.classifyField element = Some os ->
        includes ua "Windows NT 10" = true ->
        includes ua "Windows NT 11" = false ->
        exists label,
          ContentScript.buildFieldMeta ua element
          = Some {| fieldType := os;
                    fieldLabel := label;
                    Field.isFormFill := true;
                    candidates :=
                      [{| Candidate.value := "Windows 10";
                          Candidate.source := "Your device";
                          Candidate.confidence := 1 |}] |}).
Proof.
  split; [|split].
  - intros JSON_parse net context m w key K F I C.
    unfold generateSuggestions, try_catch, bind.
    rewrite (getApiKey_configured w key K).
    rewrite (form_fill_ready_intro context m F I C). reflexivity.
  - intros JSON_parse net context w K.
    unfold generateSuggestions, try_catch, bind.
    rewrite (getApiKey_unconfigured w K). reflexivity.
  - intros ua element C H10 H11.
    unfold ContentScript.buildFieldMeta. rewrite C.
    cbn [Field.eqb]. rewrite (detectOS_windows_10 ua H10 H11).
    eexists. reflexivity.
Qed.

Lemma form_fill_skips_inference_witness :
  ContentScript.buildFieldMeta Sample.chrome_on_windows Sample.os_element
  = Some Sample.os_meta
  /\ ConfigManager.api_key (configManager Sample.configured) = Some "gsk_example"
  /\ generateSuggestions Sample.parse Sample.obliging
       (Sample.context_for "Win" (Some Sample.os_meta)) Sample.configured
     = (Ret {| reason := JStr ("Smart fill for " ++ quoted "platform");
               suggestions := [{| text := "Windows 10";
                                  derivation := "Auto-filled from Your device" |}];
               Message.isFormFill := true;
               error := None |},
        Sample.configured).
Proof.
  split; [reflexivity|]. split; [reflexivity|].
  apply (proj1 form_fill_skips_inference Sample.parse Sample.obliging
           (Sample.context_for "Win" (Some Sample.os_meta)) Sample.os_meta
           Sample.configured "gsk_example").
  - reflexivity.
  - reflexivity.
  - reflexivity.
  - discriminate.
Defined.

(** Where C3 fails as it is worded: without a key the candidates are not
    returned, and an identity string that names Windows NT 11 as well
    yields Windows 11. *)
Lemma form_fill_needs_key_and_one_windows :
  ~ (forall JSON_parse net context m w,
       fieldMeta context = Some m ->
       Field.isFormFill m = true ->
       candidates m <> [] ->
       fst (generateSuggestions JSON_parse net context w)
       = Ret (_buildFormFillResponse m))
  /\ ~ (forall ua element,
          ContentScript.classifyField element = Some os ->
          includes ua "Windows NT 10" = true ->
          exists meta,
            ContentScript.buildFieldMeta ua element = Some meta
            /\ map Candidate.value (candidates meta) = ["Windows 10"]).
Proof.
  split; intros H.
  - specialize (H Sample.parse Sample.obliging
                  (Sample.context_for "Win"
                     (ContentScript.buildFieldMeta Sample.chrome_on_windows
                                                   Sample.os_element))
                  Sample.os_meta Sample.unconfigured eq_refl eq_refl).
    vm_compute in H. specialize (H ltac:(discriminate)). discriminate H.
  - destruct (H Sample.two_windows Sample.os_element eq_refl eq_refl)
      as (meta & E & V).
    vm_compute in E. injection E as <-. vm_compute in V. discriminate V.
Qed.

(** *** The rate limiter is not consulted *)

Lemma generateSuggestions_trace JSON_parse net context w key :
  ConfigManager.api_key (configManager w) = Some key ->
  form_fill_ready context = None ->
  exists prompt events,
    trace (snd (generateSuggestions JSON_parse net context w))
    = (trace w ++ [EvPrompt prompt]) ++ events
    /\ (1 <= http_attempts events <= 2)%nat.
Proof.
  intros K F. unfold generateSuggestions, try_catch, bind.
  rewrite (getApiKey_configured w key K), F.
  set (prompt := match fieldMeta context with
                 | Some _ => buildFormFieldPrompt context
                 | None => buildContextAwarePrompt context
                 end).
  set (systemPrompt := match fieldMeta context with
                       | Some _ => FormFillSystemPrompt
                       | None => ContextAwareSystemPrompt
                       end).
  unfold emit. cbv iota beta.
  set (w1 := with_trace w (trace w ++ [EvPrompt prompt])).
  unfold callWithRetry0.
  destruct (InferenceFacts.callWithRetry_attempts JSON_parse net key prompt systemPrompt 2 w1 (le_n 2))
    as (out & events & E & H).
  rewrite E. exists prompt, events. split; [|exact H].
  destruct out as [r|msg]; reflexivity.
Qed.

Lemma generateSuggestions_asks JSON_parse net context w key :
  ConfigManager.api_key (configManager w) = Some key ->
  form_fill_ready context = None ->
  let after := snd (generateSuggestions JSON_parse net context w) in
  (http_attempts (trace w) + 1 <= http_attempts (trace after)
   <= http_attempts (trace w) + 2)%nat.
Proof.
  intros K F after.
  destruct (generateSuggestions_trace JSON_parse net context w key K F)
    as (prompt & events & E & H).
  unfold after. rewrite E, !InferenceFacts.http_attempts_app.
  change (http_attempts [EvPrompt prompt]) with 0%nat. lia.
Qed.

(** C4, as the code has it.  The limiter stands before nothing: with a
    key configured and no form-fill candidates, [generateSuggestions]
    makes one HTTP request or two also when the limiter's window is used
    up.  The limiter itself then reports no remaining request, and the
    time until the oldest counted request leaves the window: the
    earliest of the requests that are less than a window old. *)
Theorem inference_is_not_rate_limited
        (rl : RateLimiter.t) (now : Z)
        (JSON_parse : string -> option value) (net : Network)
        (context : Context) (w : World) (key : string) :
  fst (RateLimiter.checkLimit now rl) = false ->
  ConfigManager.api_key (configManager w) = Some key ->
  form_fill_ready context = None ->
  let after := snd (generateSuggestions JSON_parse net context w) in
  let rl' := snd (RateLimiter.checkLimit now rl) in
  (http_attempts (trace w) + 1 <= http_attempts (trace after)
   <= http_attempts (trace w) + 2)%nat
  /\ fst (RateLimiter.getRemainingRequests now rl') = 0
  /\ exists earliest,
       In earliest (RateLimiter.requests rl)
       /\ now - earliest < RateLimiter.windowMs rl
       /\ (forall a, In a (RateLimiter.requests rl) ->
                     now - a < RateLimiter.windowMs rl -> earliest <= a)
       /\ RateLimiter.getTimeUntilReset now rl'
          = earliest + RateLimiter.windowMs rl - now.
Proof.
  intros V K F after rl'.
  split; [apply (generateSuggestions_asks JSON_parse net context w key K F)|].
  destruct (RateLimiterFacts.rejected_state now rl V) as [S Full].
  assert (R : RateLimiter.requests rl' = RateLimiter.live now rl)
    by (unfold rl'; rewrite S; reflexivity).
  assert (W : RateLimiter.windowMs rl' = RateLimiter.windowMs rl)
    by (unfold rl'; rewrite S; reflexivity).
  assert (Within : forall a, In a (RateLimiter.requests rl') ->
                             In a (RateLimiter.requests rl)
                             /\ now - a < RateLimiter.windowMs rl).
  { intros a Ha. rewrite R in Ha. unfold RateLimiter.live in Ha.
    apply filter_In in Ha. destruct Ha as [Ha Hw]. apply Z.ltb_lt in Hw. auto. }
  split.
  - unfold RateLimiter.getRemainingRequests. cbn [fst].
    assert (LL : RateLimiter.live now rl' = RateLimiter.requests rl').
    { unfold RateLimiter.live. apply ListFacts.filter_all.
      intros a Ha. rewrite W. apply Z.ltb_lt. apply Within, Ha. }
    rewrite LL, R. unfold RateLimiter.maxRequests in *. lia.
  - destruct (RateLimiterFacts.oldest_request rl') as (earliest & Ein & Emin & Ereset).
    { intros E. rewrite R in E. rewrite E in Full.
      unfold RateLimiter.maxRequests in Full. simpl in Full. lia. }
    destruct (Within earliest Ein) as [I1 I2].
    exists earliest. split; [exact I1|]. split; [exact I2|]. split.
    + intros a Ha Hw. apply Emin. rewrite R. unfold RateLimiter.live.
      apply filter_In. split; [exact Ha|]. apply Z.ltb_lt, Hw.
    + rewrite Ereset, W. lia.
Qed.

Lemma inference_is_not_rate_limited_witness :
  fst (RateLimiter.checkLimit 10000 Sample.exhausted) = false
  /\ ConfigManager.api_key (configManager Sample.configured) = Some "gsk_example"
  /\ form_fill_ready (Sample.context_for "python async" None) = None
  /\ (1 <= http_attempts
             (trace (snd (generateSuggestions Sample.parse Sample.obliging
                            (Sample.context_for "python async" None)
                            Sample.configured))))%nat.
Proof.
  split; [reflexivity|]. split; [reflexivity|]. split; [reflexivity|].
  exact (proj1 (proj1 (inference_is_not_rate_limited
                         Sample.exhausted 10000 Sample.parse Sample.obliging
                         (Sample.context_for "python async" None)
                         Sample.configured "gsk_example"
                         eq_refl eq_refl eq_refl))).
Defined.

(** Where C4 fails as it is worded: the limiter's window is used up and
    the request goes out all the same. *)
Lemma exhausted_limiter_stops_nothing :
  ~ (forall (rl : RateLimiter.t) (now : Z) JSON_parse net context w,
       fst (RateLimiter.checkLimit now rl) = false ->
       http_attempts (trace (snd (generateSuggestions JSON_parse net context w)))
       = http_attempts (trace w)).
Proof.
  intros H.
  specialize (H Sample.exhausted 10000 Sample.parse Sample.obliging
                (Sample.context_for "python async" None) Sample.configured eq_refl).
  vm_compute in H. discriminate H.
Qed.

End FormFillFacts.

(** ** The sensitivity check of the service worker *)

Module SensitiveFacts.
Import Js Message Runtime ServiceWorker.


Lemma initialize_trace stored w :
  trace (snd (ConfigManager.initialize stored w)) = trace w.
Proof.
  unfold ConfigManager.initialize.
  destruct (initialized (configManager w)); [reflexivity|].
  destruct stored; reflexivity.
Qed.






(** The page hands no text of a field it holds for sensitive to the
    service worker. *)
Lemma sensitive_field_is_not_read (element : ContentScript.Element) :
  ContentScript.isSensitiveField element = true ->
  ContentScript.getActiveInput (Some element) = "".
Proof. intros H. unfold ContentScript.getActiveInput. rewrite H. reflexivity. Qed.

(** The box of the example below passes the page's own test. *)
Lemma nameless_box_is_not_a_sensitive_field :
  ContentScript.isSensitiveField Sample.nameless_box = false
  /\ ServiceWorker.fieldName
       (SuggestionFlow.message Sample.chrome_on_windows Sample.nameless_box
                               "my password is hunter2") = Some "".
Proof. split; reflexivity. Qed.


End SensitiveFacts.

(** ** Stale results *)

Module StaleFacts.
Import Js Message SuggestionFlow.

(** C10, as the code has it.  When a request settles with a response
    while the field holds another value than the one the request was
    generated for, nothing of what is displayed changes, whatever the
    response; so the result of an earlier request is discarded while the
    field holds the value of a later one.  When the field holds the value
    the request was generated for, a successful response with
    suggestions is displayed. *)
Theorem stale_result_is_discarded (p : Page) (id : nat) (value : string)
        (response : option Response) :
  value_of id (in_flight p) = Some value ->
  (field_value p <> value ->
     display (step p (Settles id (Ret response))) = display p
     /\ field_value (step p (Settles id (Ret response))) = field_value p)
  /\ (forall id2 value2,
        value_of id2 (in_flight p) = Some value2 ->
        value2 <> value ->
        field_value p = value2 ->
        display (step p (Settles id (Ret response))) = display p)
  /\ (field_value p = value ->
      forall r first rest,
        response = Some r -> success r = true ->
        suggestions (result r) = first :: rest ->
        display (step p (Settles id (Ret response)))
        = (Showing first (reason (result r)) (isFormFill (result r)),
           first :: rest, 0%nat)).
Proof.
  intros V.
  assert (Stale : field_value p <> value ->
                  display (step p (Settles id (Ret response))) = display p
                  /\ field_value (step p (Settles id (Ret response))) = field_value p).
  { intros Hne. cbn [step]. rewrite V. unfold completion. cbn [field_value].
    destruct (String.eqb_spec (field_value p) value) as [E|_]; [contradiction|].
    cbn [negb]. split; reflexivity. }
  split; [exact Stale|]. split.
  - intros id2 value2 _ Hne Hf. apply Stale. congruence.
  - intros Hf r first rest -> Hs Hl. cbn [step]. rewrite V. unfold completion.
    cbn [field_value]. rewrite Hf, String.eqb_refl. cbn [negb].
    rewrite Hs, Hl. reflexivity.
Qed.

(** Two requests in flight, the field holding the value of the second:
    the answer to the first changes nothing. *)
Lemma stale_result_is_discarded_witness :
  value_of 0 (in_flight Sample.two_in_flight) = Some "ab"
  /\ field_value Sample.two_in_flight <> "ab"
  /\ display (step Sample.two_in_flight (Settles 0 (Ret (Some Sample.one_suggestion))))
     = display Sample.two_in_flight.
Proof.
  assert (V : value_of 0 (in_flight Sample.two_in_flight) = Some "ab") by reflexivity.
  assert (N : field_value Sample.two_in_flight <> "ab") by discriminate.
  split; [exact V|]. split; [exact N|].
  exact (proj1 (proj1 (stale_result_is_discarded Sample.two_in_flight 0%nat "ab"
                         (Some Sample.one_suggestion) V) N)).
Defined.

(** Where C10 fails as it is worded: the second request has started with
    another value, the user goes back to the first value, and the answer
    to the first request is displayed. *)
Lemma earlier_result_shown_after_edit_back :
  ~ (forall p id1 id2 value1 value2 response,
       value_of id1 (in_flight p) = Some value1 ->
       value_of id2 (in_flight p) = Some value2 ->
       (id1 < id2)%nat ->
       value1 <> value2 ->
       display (step p (Settles id1 (Ret response))) = display p).
Proof.
  intros H.
  specialize (H (step Sample.two_in_flight (Types "ab"))
                0%nat 1%nat "ab" "abc" (Some Sample.one_suggestion)
                eq_refl eq_refl (le_n 1)).
  assert (N : "ab" <> "abc") by discriminate.
  specialize (H N). vm_compute in H. discriminate H.
Qed.

End StaleFacts.

(* ================================================================== *)
(** * Further properties *)
(* ================================================================== *)

(** ** The rate limiter: reset, remaining requests, time to reset *)

Module QuotaFacts.
Import RateLimiter ListFacts RateLimiterFacts.

Lemma live_live now rl :
  live now {| requests := live now rl; windowMs := windowMs rl |} = live now rl.
Proof.
  unfold live. simpl. apply filter_all. intros a Ha.
  apply filter_In in Ha. apply Ha.
Qed.

(** X1.  After [reset()] the limiter is as good as new, whatever it held:
    ten requests remain, there is nothing to wait for, and the next
    checks, up to ten of them, all pass. *)
Theorem reset_restores_quota (rl : t) (now : Z) (times : list Z) :
  (List.length times <= 10)%nat ->
  fst (getRemainingRequests now (reset rl)) = 10
  /\ getTimeUntilReset now (reset rl) = 0
  /\ fst (checks times (reset rl)) = repeat true (List.length times).
Proof.
  intros H. split; [reflexivity|]. split; [reflexivity|].
  apply checks_below_cap. simpl. unfold maxRequests. lia.
Qed.

Lemma reset_restores_quota_witness :
  (List.length [10000; 10001; 10002]%Z <= 10)%nat
  /\ fst (checkLimit 10000 Sample.exhausted) = false
  /\ fst (checks [10000; 10001; 10002] (reset Sample.exhausted))
     = [true; true; true].
Proof.
  split; [simpl; lia|]. split; [reflexivity|].
  apply (reset_restores_quota Sample.exhausted 10000 [10000; 10001; 10002]).
  simpl; lia.
Defined.

(** X2.  [getRemainingRequests] and [checkLimit] agree: a check passes
    exactly when a request remains; asking for the remaining requests
    first does not change the verdict; a check that passes takes one
    request off what remains, and after one that does not pass none
    remains. *)
Theorem remaining_agrees_with_check (now : Z) (rl : t) :
  0 < windowMs rl ->
  (fst (checkLimit now rl) = true <-> 0 < fst (getRemainingRequests now rl))
  /\ fst (checkLimit now (snd (getRemainingRequests now rl)))
     = fst (checkLimit now rl)
  /\ (fst (checkLimit now rl) = true ->
      fst (getRemainingRequests now (snd (checkLimit now rl)))
      = fst (getRemainingRequests now rl) - 1)
  /\ (fst (checkLimit now rl) = false ->
      fst (getRemainingRequests now (snd (checkLimit now rl))) = 0).
Proof.
  intros W.
  assert (V := checkLimit_verdict now rl).
  unfold getRemainingRequests. cbn [fst snd].
  assert (Cap : Z.of_nat maxRequests = 10) by reflexivity.
  assert (CapN : maxRequests = 10%nat) by reflexivity.
  split; [|split; [|split]].
  - rewrite V. lia.
  - unfold checkLimit. rewrite live_live. reflexivity.
  - intros A. apply V in A. unfold checkLimit.
    destruct (Nat.leb maxRequests (List.length (live now rl))) eqn:E.
    + apply Nat.leb_le in E. lia.
    + cbn [snd]. unfold live at 1. cbn [requests windowMs].
      rewrite filter_app. fold (live now rl).
      replace (filter (fun time => now - time <? windowMs rl) (live now rl))
        with (live now rl) by (symmetry; apply (live_live now rl)).
      simpl filter. replace (now - now <? windowMs rl) with true
        by (symmetry; apply Z.ltb_lt; lia).
      rewrite length_app. cbn [List.length]. lia.
  - intros R. destruct (rejected_state now rl R) as [S Full].
    rewrite S, live_live. lia.
Qed.

Lemma remaining_agrees_with_check_witness :
  0 < windowMs Sample.exhausted
  /\ fst (getRemainingRequests 10000 Sample.exhausted) = 0
  /\ fst (checkLimit 10000 Sample.exhausted) = false
  /\ fst (getRemainingRequests 60000 Sample.exhausted) = 1
  /\ fst (getRemainingRequests 60000 (snd (checkLimit 60000 Sample.exhausted))) = 0.
Proof.
  assert (W : 0 < windowMs Sample.exhausted) by (simpl; lia).
  split; [exact W|]. split; [reflexivity|]. split; [reflexivity|].
  split; [reflexivity|].
  rewrite (proj1 (proj2 (proj2 (remaining_agrees_with_check 60000 Sample.exhausted W)))
             eq_refl).
  reflexivity.
Defined.

Lemma checkLimit_length now rl :
  (List.length (requests rl) <= maxRequests)%nat ->
  (List.length (requests (snd (checkLimit now rl))) <= maxRequests)%nat.
Proof.
  intros H. unfold checkLimit.
  assert (L : (List.length (live now rl) <= List.length (requests rl))%nat)
    by apply filter_length_le.
  destruct (Nat.leb maxRequests (List.length (live now rl))) eqn:E; simpl.
  - lia.
  - apply Nat.leb_gt in E. rewrite length_app. simpl. lia.
Qed.

Lemma checks_length times : forall rl,
  (List.length (requests rl) <= maxRequests)%nat ->
  (List.length (requests (snd (checks times rl))) <= maxRequests)%nat.
Proof.
  induction times as [|now rest IH]; intros rl H; [exact H|].
  rewrite checks_cons. cbn [snd]. apply IH, checkLimit_length, H.
Qed.

(** X3.  Whatever checks were made, in whatever order of clock readings,
    the limiter never holds more than ten requests, and a check made
    [getTimeUntilReset()] milliseconds after the time of asking
    passes. *)
Theorem waiting_gets_a_slot (times : list Z) (now : Z) :
  let rl := snd (checks times new) in
  (List.length (requests rl) <= 10)%nat
  /\ 0 <= getTimeUntilReset now rl
  /\ fst (checkLimit (now + getTimeUntilReset now rl) rl) = true.
Proof.
  intros rl.
  assert (Len : (List.length (requests rl) <= maxRequests)%nat).
  { apply checks_length. simpl. unfold maxRequests. lia. }
  assert (W : windowMs rl = 60000) by (unfold rl; rewrite checks_window; reflexivity).
  split; [exact Len|].
  destruct (requests rl) as [|x l] eqn:R.
  - unfold getTimeUntilReset. rewrite R. split; [lia|].
    apply checkLimit_verdict. unfold live. rewrite R. simpl. unfold maxRequests. lia.
  - destruct (oldest_request rl) as (earliest & Ein & _ & Ereset); [congruence|].
    rewrite Ereset. split; [lia|].
    apply checkLimit_verdict.
    apply Nat.lt_le_trans with (m := List.length (requests rl)); [|rewrite R; exact Len].
    unfold live. apply filter_drops_one with (x := earliest); [exact Ein|].
    apply Z.ltb_ge. lia.
Qed.

End QuotaFacts.

(** ** What the parser hands to the page *)

Module ParseFacts.
Import Js Message Runtime GroqService ListFacts Shape.

Lemma startsWith_app p : forall s, startsWith (p ++ s) p = true.
Proof.
  induction p as [|c p IH]; intros s; simpl; [destruct s; reflexivity|].
  rewrite Ascii.eqb_refl. apply IH.
Qed.

Lemma mapi_from_length {A B} (f : nat -> A -> B) l : forall i,
  List.length (mapi_from i f l) = List.length l.
Proof. induction l as [|x l IH]; intros i; simpl; [|rewrite IH]; reflexivity. Qed.

Lemma mapi_from_nth {A B} (f : nat -> A -> B) l : forall i k,
  nth_error (mapi_from i f l) k = option_map (f (i + k)%nat) (nth_error l k).
Proof.
  induction l as [|x l IH]; intros i [|k]; simpl; try reflexivity.
  - rewrite Nat.add_0_r. reflexivity.
  - rewrite IH. replace (S i + k)%nat with (i + S k)%nat by lia. reflexivity.
Qed.

Lemma mapi_from_idem {A} (f : nat -> A -> A) l :
  (forall i x, f i (f i x) = f i x) ->
  forall i, mapi_from i f (mapi_from i f l) = mapi_from i f l.
Proof.
  intros H. induction l as [|x l IH]; intros i; simpl; [reflexivity|].
  rewrite H, IH. reflexivity.
Qed.

Lemma labelled_starts index derivation :
  startsWith (labelled index derivation) (sourceLabel index) = true.
Proof.
  unfold labelled.
  destruct (startsWith derivation (sourceLabel index)) eqn:E; [exact E|].
  apply startsWith_app.
Qed.

Lemma ordering_nth suggestions index :
  nth_error (validateSuggestionOrdering suggestions) index
  = option_map (fun s => {| text := text s;
                            derivation := labelled index (derivation s) |})
               (nth_error suggestions index).
Proof.
  unfold validateSuggestionOrdering, mapi. rewrite mapi_from_nth. reflexivity.
Qed.

(** X4.  [validateSuggestionOrdering] keeps the number, the order and the
    texts of the suggestions; afterwards the derivation at each position
    starts with the label of that position (Session, Context, then Smart
    for every later one), a derivation that already did is left as it is,
    and a second pass changes nothing. *)
Theorem ordering_labels_each_position (suggestions : list Suggestion) :
  let out := validateSuggestionOrdering suggestions in
  map text out = map text suggestions
  /\ (forall index s, nth_error out index = Some s ->
        startsWith (derivation s) (sourceLabel index) = true)
  /\ (forall index s, nth_error suggestions index = Some s ->
        startsWith (derivation s) (sourceLabel index) = true ->
        nth_error out index = Some s)
  /\ validateSuggestionOrdering out = out.
Proof.
  intros out. unfold out. split; [|split; [|split]].
  - unfold validateSuggestionOrdering, mapi. generalize 0%nat.
    induction suggestions as [|x l IH]; intros i; simpl; [reflexivity|].
    rewrite IH. reflexivity.
  - intros index s. rewrite ordering_nth.
    destruct (nth_error suggestions index) as [x|]; [|discriminate].
    simpl. intros E. injection E as <-. simpl. apply labelled_starts.
  - intros index s E L. rewrite ordering_nth, E. simpl.
    unfold labelled. rewrite L. destruct s; reflexivity.
  - unfold validateSuggestionOrdering, mapi. apply mapi_from_idem.
    intros i x. cbn [text derivation].
    assert (L := labelled_starts i (derivation x)). unfold labelled in L.
    destruct (startsWith (derivation x) (sourceLabel i)) eqn:E.
    + rewrite E. reflexivity.
    + rewrite L. reflexivity.
Qed.

Section Parsed.

Variable JSON_parse : string -> option value.

Lemma keeps_text s s' : text s = text s' -> keeps s = keeps s'.
Proof. unfold keeps. intros ->. reflexivity. Qed.

Lemma from_parsed_well_formed json_text r :
  from_parsed JSON_parse json_text = Some r -> well_formed r.
Proof.
  unfold from_parsed.
  destruct (JSON_parse json_text) as [parsed|]; [|discriminate].
  set (body := match get parsed "suggestions" with
               | JArr (x :: l) => _ | _ => None end).
  assert (B : body = Some r -> well_formed r).
  { unfold body. destruct (get parsed "suggestions") as [| | | | |[|x l]|];
      try discriminate.
    set (normalized := map _ (validateSuggestions (JArr (x :: l)))).
    destruct (Nat.ltb 0 (List.length (validateSuggestionOrdering normalized))) eqn:N;
      [|discriminate].
    intros E. injection E as <-. apply Nat.ltb_lt in N.
    assert (Len : List.length (validateSuggestionOrdering normalized)
                  = List.length (validateSuggestions (JArr (x :: l)))).
    { unfold validateSuggestionOrdering, mapi. rewrite mapi_from_length.
      unfold normalized. apply length_map. }
    unfold well_formed. cbn [suggestions isFormFill error].
    split; [|split; [|split; reflexivity]].
    - rewrite Len in *. split; [lia|].
      unfold validateSuggestions. apply firstn_le_length.
    - intros index s. rewrite ordering_nth.
      destruct (nth_error normalized index) as [y|] eqn:Y; [|discriminate].
      simpl. intros E. injection E as <-. cbn [text derivation].
      apply nth_error_In in Y. unfold normalized in Y. apply in_map_iff in Y.
      destruct Y as (z & <- & Z). cbn [text].
      unfold validateSuggestions in Z. apply firstn_In, filter_In in Z.
      destruct Z as [_ K].
      split; [apply (ValidatorFacts.keeps_spec z K)|]. split; [|apply labelled_starts].
      rewrite <- K. apply keeps_text. reflexivity. }
  destruct parsed; try discriminate; exact B.
Qed.

Lemma parseResponse_cases (content : string) :
  well_formed (parseResponse JSON_parse content)
  \/ parseResponse JSON_parse content
     = {| reason := JStr "Could not parse AI response";
          suggestions := []; isFormFill := false; error := None |}.
Proof.
  unfold parseResponse.
  destruct (from_parsed JSON_parse (fence_stripped content)) as [r1|] eqn:E1.
  { left. apply (from_parsed_well_formed _ _ E1). }
  destruct (brace_match (fence_stripped content)) as [jsonMatch|]; [|auto].
  destruct (from_parsed JSON_parse jsonMatch) as [r2|] eqn:E2; [|auto].
  left. apply (from_parsed_well_formed _ _ E2).
Qed.

Lemma parseResponse_bounded (content : string) :
  let r := parseResponse JSON_parse content in
  (List.length (suggestions r) <= 3)%nat /\ isFormFill r = false /\ error r = None.
Proof.
  intros r. unfold r.
  destruct (parseResponse_cases content) as [(L & _ & F & G)| ->].
  - split; [lia|]. auto.
  - simpl. split; [lia|]. auto.
Qed.

(** X5.  Whatever [JSON.parse] makes of the payload, [parseResponse]
    returns at most three suggestions; each has a text of 3 to 200
    characters that passes the filter of [validateSuggestions] and a
    derivation that starts with the label of its position; the result is
    never marked as a form fill and carries no error; and it has no
    suggestion only when its reason is [Could not parse AI response]. *)
Theorem parseResponse_shape (content : string) :
  let r := parseResponse JSON_parse content in
  (List.length (suggestions r) <= 3)%nat
  /\ (forall index s, nth_error (suggestions r) index = Some s ->
        (3 <= String.length (text s) <= 200)%nat
        /\ keeps s = true
        /\ startsWith (derivation s) (sourceLabel index) = true)
  /\ isFormFill r = false
  /\ error r = None
  /\ (suggestions r = [] -> reason r = JStr "Could not parse AI response").
Proof.
  intros r. unfold r.
  destruct (parseResponse_cases content) as [(L & E & F & G)| ->].
  - split; [lia|]. split; [exact E|]. split; [exact F|]. split; [exact G|].
    intros N. rewrite N in L. simpl in L. lia.
  - cbn [suggestions isFormFill error reason List.length].
    split; [lia|]. split; [intros [|index] s; discriminate|]. auto.
Qed.

End Parsed.

End ParseFacts.

(** ** Code fences *)

Module FenceFacts.
Import Js Regex Message Runtime GroqService Shape.
Local Open Scope string_scope.

Lemma append_assoc (a b c : string) : (a ++ b) ++ c = a ++ b ++ c.
Proof. induction a as [|x a IH]; simpl; [|rewrite IH]; reflexivity. Qed.

Lemma trimStart_length s : (String.length (trimStart s) <= String.length s)%nat.
Proof.
  induction s as [|c s IH]; simpl; [lia|].
  destruct (is_space c); simpl; lia.
Qed.

Lemma trimEnd_length s : (String.length (trimEnd s) <= String.length s)%nat.
Proof.
  induction s as [|c s IH]; simpl; [lia|].
  destruct (trimEnd s); [destruct (is_space c)|]; simpl in *; lia.
Qed.

Lemma trimStart_spaces ws s :
  all_chars is_space ws = true -> trimStart (ws ++ s) = trimStart s.
Proof.
  induction ws as [|c ws IH]; simpl; [reflexivity|].
  intros H. apply andb_prop in H. destruct H as [C W]. rewrite C. apply IH, W.
Qed.

Lemma trimEnd_spaces ws : all_chars is_space ws = true -> trimEnd ws = "".
Proof.
  induction ws as [|c ws IH]; simpl; [reflexivity|].
  intros H. apply andb_prop in H. destruct H as [C W]. rewrite (IH W), C. reflexivity.
Qed.

Lemma trimEnd_app_spaces ws s :
  all_chars is_space ws = true -> trimEnd (s ++ ws) = trimEnd s.
Proof.
  intros W. induction s as [|c s IH]; simpl; [apply trimEnd_spaces, W|].
  rewrite IH. reflexivity.
Qed.

Lemma trimEnd_app s t : t <> "" -> trimEnd t = t -> trimEnd (s ++ t) = s ++ t.
Proof.
  intros N T. induction s as [|c s IH]; simpl; [exact T|].
  rewrite IH. destruct (s ++ t) eqn:E; [|reflexivity].
  destruct s; [simpl in E; congruence | discriminate].
Qed.

(** A trimmed text is empty or starts with a character that is not
    white space. *)
Lemma trimmed_start p :
  trim p = p -> p = "" \/ exists c p', p = String c p' /\ is_space c = false.
Proof.
  destruct p as [|c p']; [auto|]. intros T. right. exists c, p'. split; [reflexivity|].
  destruct (is_space c) eqn:C; [|reflexivity].
  exfalso. assert (L := trimEnd_length (trimStart (String c p'))).
  assert (L' := trimStart_length p'). unfold trim in T. rewrite T in L.
  simpl in L. rewrite C in L. simpl in L. lia.
Qed.

Lemma trimmed_end p : trim p = p -> trimEnd p = p.
Proof.
  intros T. destruct (trimmed_start p T) as [->|(c & p' & -> & C)]; [reflexivity|].
  unfold trim in T. simpl trimStart in T. rewrite C in T. exact T.
Qed.

Lemma strip_fence_end_closing a :
  no_backtick a = true -> strip_fence_end (a ++ "```") = a.
Proof.
  induction a as [|c a IH]; [reflexivity|].
  intros H. apply andb_prop in H. destruct H as [C A].
  change (String c a ++ "```") with (String c (a ++ "```")).
  cbn [strip_fence_end startsWith].
  replace (Ascii.eqb "`" c) with false.
  - cbn [andb]. rewrite (IH A). reflexivity.
  - symmetry. rewrite Ascii.eqb_sym. apply negb_true_iff, C.
Qed.

Lemma strip_fence_end_none a : no_backtick a = true -> strip_fence_end a = a.
Proof.
  induction a as [|c a IH]; [reflexivity|].
  intros H. apply andb_prop in H. destruct H as [C A].
  cbn [strip_fence_end startsWith].
  replace (Ascii.eqb "`" c) with false.
  - cbn [andb]. rewrite (IH A). reflexivity.
  - symmetry. rewrite Ascii.eqb_sym. apply negb_true_iff, C.
Qed.

Lemma no_backtick_app a b :
  no_backtick a = true -> no_backtick b = true -> no_backtick (a ++ b) = true.
Proof.
  intros A B. induction a as [|c a IH]; [exact B|].
  apply andb_prop in A. destruct A as [C A]. simpl.
  unfold no_backtick in *. simpl. rewrite C. apply IH, A.
Qed.

Lemma spaces_no_backtick ws : all_chars is_space ws = true -> no_backtick ws = true.
Proof.
  induction ws as [|c ws IH]; [reflexivity|].
  intros H. apply andb_prop in H. destruct H as [C W].
  unfold no_backtick in *. simpl. rewrite (IH W), andb_true_r.
  destruct (Ascii.eqb c "`") eqn:E; [|reflexivity].
  apply Ascii.eqb_eq in E. subst c. discriminate C.
Qed.

Lemma lower_no_backtick c : Ascii.eqb c "`" = false -> Ascii.eqb (lower_char c) "`" = false.
Proof.
  destruct c as [[] [] [] [] [] [] [] []]; intros H; try reflexivity; discriminate H.
Qed.

Lemma bare_payload p :
  trim p = p -> no_backtick p = true -> fence_stripped p = p.
Proof.
  intros T B. unfold fence_stripped. rewrite T.
  assert (S : strip_fence_start p = p).
  { destruct p as [|c p']; [reflexivity|].
    apply andb_prop in B. destruct B as [C _]. apply negb_true_iff in C.
    unfold strip_fence_start.
    cbn [toLowerCase startsWith].
    replace (Ascii.eqb "`" (lower_char c)) with false
      by (symmetry; rewrite Ascii.eqb_sym; apply lower_no_backtick, C).
    cbn [andb startsWith].
    replace (Ascii.eqb "`" c) with false by (symmetry; rewrite Ascii.eqb_sym; exact C).
    reflexivity. }
  rewrite S, (strip_fence_end_none p B). exact T.
Qed.

Lemma fenced_payload ws ws' p :
  all_chars is_space ws = true -> all_chars is_space ws' = true ->
  trim p = p -> no_backtick p = true ->
  fence_stripped ("```json" ++ ws ++ p ++ ws' ++ "```") = p.
Proof.
  intros W W' T B. unfold fence_stripped.
  assert (Whole : trim ("```json" ++ ws ++ p ++ ws' ++ "```")
                  = "```json" ++ ws ++ p ++ ws' ++ "```").
  { unfold trim. change (trimStart ("```json" ++ ws ++ p ++ ws' ++ "```"))
      with ("```json" ++ ws ++ p ++ ws' ++ "```").
    replace ("```json" ++ ws ++ p ++ ws' ++ "```")
      with (("```json" ++ ws ++ p ++ ws') ++ "```")
      by (rewrite !append_assoc; reflexivity).
    apply trimEnd_app; [discriminate | reflexivity]. }
  rewrite Whole.
  assert (S1 : strip_fence_start ("```json" ++ ws ++ p ++ ws' ++ "```")
               = let s1 := trimStart (p ++ ws' ++ "```") in
                 if startsWith s1 "```" then trimStart (drop 3 s1) else s1).
  { unfold strip_fence_start.
    change (startsWith (toLowerCase ("```json" ++ ws ++ p ++ ws' ++ "```")) "```json")
      with (startsWith (toLowerCase (ws ++ p ++ ws' ++ "```")) "").
    replace (startsWith (toLowerCase (ws ++ p ++ ws' ++ "```")) "") with true
      by (destruct (toLowerCase (ws ++ p ++ ws' ++ "```")); reflexivity).
    change (drop 7 ("```json" ++ ws ++ p ++ ws' ++ "```"))
      with (ws ++ p ++ ws' ++ "```").
    rewrite (trimStart_spaces ws _ W). reflexivity. }
  rewrite S1. cbv zeta.
  destruct (trimmed_start p T) as [->|(c & p' & -> & C)].
  - change ("" ++ ws' ++ "```") with (ws' ++ "```").
    rewrite (trimStart_spaces ws' _ W'). reflexivity.
  - change (String c p' ++ ws' ++ "```") with (String c (p' ++ ws' ++ "```")).
    cbn [trimStart]. rewrite C.
    assert (B' := B). apply andb_prop in B'. destruct B' as [Cb _].
    apply negb_true_iff in Cb.
    cbn [startsWith].
    replace (Ascii.eqb "`" c) with false by (symmetry; rewrite Ascii.eqb_sym; exact Cb).
    cbn [andb].
    change (String c (p' ++ ws' ++ "```")) with (String c p' ++ ws' ++ "```").
    rewrite <- append_assoc.
    rewrite strip_fence_end_closing
      by (apply no_backtick_app; [exact B | apply spaces_no_backtick, W']).
    unfold trim. change (trimStart (String c p' ++ ws')) with
      (if is_space c then trimStart (p' ++ ws') else String c p' ++ ws').
    rewrite C. rewrite (trimEnd_app_spaces ws' _ W'). apply trimmed_end, T.
Qed.

(** X6.  A code fence around the payload is transparent: for a payload
    without a backtick and without white space at either end, the
    payload between [```json] and [```], with any white space after the
    one and before the other, is read exactly as the payload on its
    own. *)
Theorem fence_is_transparent (JSON_parse : string -> option value)
        (ws ws' p : string) :
  all_chars is_space ws = true -> all_chars is_space ws' = true ->
  trim p = p -> no_backtick p = true ->
  fence_stripped ("```json" ++ ws ++ p ++ ws' ++ "```") = p
  /\ fence_stripped p = p
  /\ parseResponse JSON_parse ("```json" ++ ws ++ p ++ ws' ++ "```")
     = parseResponse JSON_parse p.
Proof.
  intros W W' T B.
  assert (F := fenced_payload ws ws' p W W' T B).
  assert (P := bare_payload p T B).
  split; [exact F|]. split; [exact P|].
  unfold parseResponse. rewrite F, P. reflexivity.
Qed.

Lemma fence_is_transparent_witness :
  parseResponse Sample.parse ("```json" ++ nl ++ Sample.scenario_payload ++ nl ++ "```")
  = parseResponse Sample.parse Sample.scenario_payload
  /\ suggestions (parseResponse Sample.parse Sample.scenario_payload)
     = [{| text := Sample.scenario_text; derivation := "Session: session" |}].
Proof.
  split; [|vm_compute; reflexivity].
  apply (fence_is_transparent Sample.parse nl nl Sample.scenario_payload);
    vm_compute; reflexivity.
Defined.

End FenceFacts.

(** ** The prompt *)

Module PromptFacts.
Import Js Message Runtime GroqService Shape.

Lemma length_append (a b : string) :
  String.length (a ++ b)%string = (String.length a + String.length b)%nat.
Proof. induction a as [|c a IH]; simpl; [|rewrite IH]; reflexivity. Qed.

Lemma total_app a b : total (a ++ b) = (total a + total b)%nat.
Proof. induction a as [|x a IH]; simpl; [|rewrite IH]; lia. Qed.

Lemma join_length sep l :
  String.length (join sep l)
  = (total l + String.length sep * (List.length l - 1))%nat.
Proof.
  induction l as [|x l IH]; [simpl; lia|].
  destruct l as [|y l]; [simpl; lia|].
  change (join sep (x :: y :: l)) with (x ++ sep ++ join sep (y :: l))%string.
  rewrite !length_append, IH. simpl. lia.
Qed.

Lemma slice0_length n s : (String.length (slice0 n s) <= n)%nat.
Proof.
  revert s. induction n as [|n IH]; intros [|c s]; simpl; try lia.
  specialize (IH s). lia.
Qed.

Lemma quoted_length s : String.length (quoted s) = (String.length s + 2)%nat.
Proof. unfold quoted. rewrite !length_append. simpl. lia. Qed.

Lemma titles_length l : (String.length (titles l) <= 86)%nat.
Proof.
  unfold titles. rewrite join_length.
  assert (Q : forall t, (String.length (quoted (slice0 40 t)) <= 42)%nat).
  { intros t. rewrite quoted_length. pose proof (slice0_length 40 t). lia. }
  destruct l as [|a [|b l]]; simpl firstn; cbn [map total fold_right List.length].
  - simpl. lia.
  - pose proof (Q a). simpl String.length at 2. lia.
  - pose proof (Q a). pose proof (Q b). simpl String.length at 3. lia.
Qed.

(** X7.  The prompt of [buildContextAwarePrompt] grows with the text of
    the input and with the session summary only: whatever the number of
    tabs and of history items, the length of their titles and the length
    of the thread, the rest of it has at most 325 characters. *)
Theorem prompt_is_bounded (context : Context) :
  (String.length (buildContextAwarePrompt context)
   <= String.length (active_input_text context)
      + String.length (summary_of context) + 325)%nat.
Proof.
  unfold buildContextAwarePrompt. rewrite join_length.
  set (tabs := map ContextCollector.title (active_tabs context)).
  set (hist := map ContextCollector.Visit.title (recent_history context)).
  pose proof (titles_length tabs) as T.
  pose proof (titles_length hist) as H.
  pose proof (slice0_length 120 (thread_of context)) as R.
  rewrite !length_app, !total_app.
  assert (W : forall b line, (total (when b line) <= String.length line
                              /\ List.length (when b line) <= 1)%nat).
  { intros [] line; simpl; lia. }
  pose proof (W (nonempty (summary_of context))
                ("SESSION:" ++ summary_of context)%string) as [A1 B1].
  pose proof (W (nonempty (thread_of context))
                ("THREAD:" ++ slice0 120 (thread_of context))%string) as [A2 B2].
  pose proof (W (Nat.ltb 0 (List.length tabs)) ("TABS:" ++ titles tabs)%string) as [A3 B3].
  pose proof (W (Nat.ltb 0 (List.length hist)) ("HIST:" ++ titles hist)%string) as [A4 B4].
  rewrite !length_append in *.
  cbn [total fold_right List.length] in *.
  rewrite !length_append, quoted_length.
  change (String.length nl) with 1%nat.
  change (String.length "Q:") with 2%nat.
  change (String.length "SESSION:") with 8%nat in *.
  change (String.length "THREAD:") with 7%nat in *.
  change (String.length "TABS:") with 5%nat in *.
  change (String.length "HIST:") with 5%nat in *.
  lia.
Qed.

End PromptFacts.

(** ** What the inference service answers *)

Module AnswerFacts.
Import Js Regex Field Message Runtime GroqService Shape.

Section Answers.

Variable JSON_parse : string -> option value.
Variable net : Network.

Lemma succeed_with_parses response w r w' :
  succeed_with JSON_parse response w = (Ret r, w') ->
  exists content, r = parseResponse JSON_parse content.
Proof.
  unfold succeed_with, bind, lift, throw, ret.
  destruct (json response) as [data|msg]; [|discriminate].
  destruct data; try discriminate;
    match goal with
    | |- context [if ?b then _ else _] => destruct b; try discriminate
    end;
    match goal with
    | |- context [match ?c with JStr _ => _ | _ => _ end] =>
        destruct c; try discriminate
    end;
    intros E; injection E as <- _; eauto.
Qed.

Lemma callWithRetry_parses apiKey prompt systemPrompt fuel : forall attempt w r w',
  callWithRetry JSON_parse net fuel apiKey prompt systemPrompt attempt w
  = Some (Ret r, w') ->
  exists content, r = parseResponse JSON_parse content.
Proof.
  induction fuel as [|fuel IH]; intros attempt w r w'; [discriminate|].
  rewrite InferenceFacts.callWithRetry_unfold.
  destruct (fetch net (request apiKey prompt systemPrompt) w) as [[response|msg] w1];
    [|discriminate].
  destruct ((status response =? 429) && Nat.eqb attempt 0)%bool; [apply IH|].
  destruct (negb (ok response)).
  - destruct (InferenceFacts.fail_with_throws response w1) as [msg E].
    rewrite E. discriminate.
  - intros E. injection E as E. apply (succeed_with_parses _ _ _ _ E).
Qed.

Lemma generateSuggestions_cases (context : Context) (w : World) :
  exists r w',
    generateSuggestions JSON_parse net context w = (Ret r, w')
    /\ Answer JSON_parse context r.
Proof.
  unfold generateSuggestions, try_catch, bind.
  destruct (ConfigManager.getApiKey w) as [[apiKey|msg] w1] eqn:K.
  2:{ eexists; eexists. split; [reflexivity|]. apply Failure. }
  destruct (form_fill_ready context) as [m|] eqn:F.
  - eexists; eexists. split; [reflexivity|].
    unfold form_fill_ready in F.
    destruct (fieldMeta context) as [m'|] eqn:Fm; [|discriminate].
    destruct (Field.isFormFill m' && Nat.ltb 0 (List.length (candidates m')))%bool eqn:C;
      [|discriminate].
    injection F as ->. apply andb_prop in C. destruct C as [_ C].
    apply Nat.ltb_lt in C. apply FromCandidates; [exact Fm|].
    intros N. rewrite N in C. simpl in C. lia.
  - unfold emit. cbv iota beta. unfold callWithRetry0.
    match goal with
    | |- context [callWithRetry JSON_parse net 2 apiKey ?p ?s 0 ?w0] =>
        destruct (callWithRetry JSON_parse net 2 apiKey p s 0 w0)
          as [[[r|msg] w2]|] eqn:E
    end.
    + eexists; eexists. split; [reflexivity|].
      destruct (callWithRetry_parses _ _ _ _ _ _ _ _ E) as [content ->].
      apply FromPayload.
    + eexists; eexists. split; [reflexivity|]. apply Failure.
    + eexists; eexists. split; [reflexivity|]. apply Failure.
Qed.

(** X8.  [generateSuggestions] of the inference service always returns
    a result, whatever the provider does.  A result marked as a form
    fill is the one built from the candidates of the field; any other
    has at most three suggestions; and a result that carries an error
    has none and the reason [Error generating suggestions]. *)
Theorem generateSuggestions_answers (context : Context) (w : World) :
  exists r w',
    generateSuggestions JSON_parse net context w = (Ret r, w')
    /\ (Message.isFormFill r = true ->
        exists m, fieldMeta context = Some m /\ candidates m <> []
                  /\ r = _buildFormFillResponse m)
    /\ (Message.isFormFill r = false -> (List.length (suggestions r) <= 3)%nat)
    /\ (forall message, error r = Some message ->
          r = {| reason := JStr "Error generating suggestions";
                 suggestions := [];
                 Message.isFormFill := false;
                 error := Some message |}).
Proof.
  destruct (generateSuggestions_cases context w) as (r & w' & E & A).
  exists r, w'. split; [exact E|].
  destruct A as [m Fm C|content|message].
  - split; [eauto|]. split; [discriminate|]. discriminate.
  - destruct (ParseFacts.parseResponse_bounded JSON_parse content) as (L & F & G).
    split; [rewrite F; discriminate|]. split; [intros _; exact L|].
    intros message M. rewrite G in M. discriminate M.
  - split; [discriminate|]. split; [simpl; lia|].
    intros message' M. simpl in M. injection M as ->. reflexivity.
Qed.

End Answers.

End AnswerFacts.

(** ** The metadata the page sends for a field *)

Module FieldMetaFacts.
Import Js Regex Field.
Import ContentScript.

Lemma first_pattern_not_sensitive pats combined ty :
  first_pattern pats combined = Some ty -> ty <> sensitive.
Proof.
  induction pats as [|[ty' keywords] rest IH]; simpl; [discriminate|].
  destruct (existsb _ keywords); [|exact IH].
  destruct (Field.eqb ty' sensitive) eqn:E; [discriminate|].
  intros H. injection H as <-. intros ->. discriminate E.
Qed.

Lemma push_if_shape c meta :
  candidates meta = [] -> isFormFill meta = false ->
  let meta' := push_if c meta in
  fieldType meta' = fieldType meta
  /\ (List.length (candidates meta') <= 1)%nat
  /\ (isFormFill meta' = true <-> candidates meta' <> [])
  /\ (forall x, In x (candidates meta') -> c = Some x).
Proof.
  intros C F. destruct c as [c|]; simpl.
  - rewrite C. simpl. repeat split; try lia; try discriminate; auto.
    intros x [<-|[]]. reflexivity.
  - rewrite C, F. simpl. repeat split; try lia; try discriminate; try tauto;
      try congruence.
Qed.

Lemma field_metadata_bounded ua element meta :
  buildFieldMeta ua element = Some meta -> (List.length (candidates meta) <= 1)%nat.
Proof.
  unfold buildFieldMeta.
  destruct (classifyField element) as [ty|]; [|discriminate].
  intros H. injection H as <-.
  destruct ty; cbn [Field.eqb]; try (simpl; lia).
  - destruct (detectOS ua); simpl; lia.
  - destruct (detectBrowser ua); simpl; lia.
  - destruct (detectOS ua); [destruct (detectBrowser ua)|]; simpl; lia.
Qed.

Lemma trim_nonempty c s : is_space c = false -> trim (String c s) <> "".
Proof.
  intros C. unfold trim. cbn [trimStart]. rewrite C. cbn [trimEnd].
  destruct (trimEnd s); [rewrite C|]; discriminate.
Qed.

Lemma detectOS_nonempty ua v : detectOS ua = Some v -> v <> "".
Proof.
  unfold detectOS.
  repeat match goal with
         | |- context [if ?b then _ else _] => destruct b
         | |- context [match ?o with Some _ => _ | None => _ end] => destruct o
         end;
    intros H; try discriminate H; injection H as <-; discriminate.
Qed.

Lemma detectBrowser_nonempty ua v : detectBrowser ua = Some v -> v <> "".
Proof.
  unfold detectBrowser, with_major.
  repeat match goal with
         | |- context [if ?b then _ else _] => destruct b
         end;
    intros H; try discriminate H; injection H as <-;
    try discriminate; apply trim_nonempty; reflexivity.
Qed.

(** X9.  The metadata [buildFieldMeta] sends for a field never describe
    a sensitive field; they hold at most one candidate, which comes from
    the device, has a value that is not empty, and is there only for the
    fields classified as [os], [browser] or [issue_description]; and
    they are marked as a form fill exactly when they hold a
    candidate. *)
Theorem field_metadata_shape (ua : string) (element : Element) (meta : FieldMeta) :
  buildFieldMeta ua element = Some meta ->
  classifyField element = Some (fieldType meta)
  /\ fieldType meta <> sensitive
  /\ (List.length (candidates meta) <= 1)%nat
  /\ (isFormFill meta = true <-> candidates meta <> [])
  /\ (forall c, In c (candidates meta) ->
        Candidate.source c = "Your device"
        /\ Candidate.value c <> ""
        /\ (fieldType meta = os \/ fieldType meta = browser
            \/ fieldType meta = issue_description)).
Proof.
  unfold buildFieldMeta.
  destruct (classifyField element) as [ty|] eqn:C; [|discriminate].
  assert (NS := first_pattern_not_sensitive _ _ _ C).
  set (meta0 := {| fieldType := ty;
                   fieldLabel := first_text [nearbyLabel element; placeholder element;
                                             ContentScript.name element; id element]
                                            (Field.name ty);
                   isFormFill := false; candidates := [] |}).
  assert (Plain : fieldType meta0 = ty /\ (List.length (candidates meta0) <= 1)%nat
                  /\ (isFormFill meta0 = true <-> candidates meta0 <> [])
                  /\ (forall c, In c (candidates meta0) -> False)).
  { simpl. repeat split; try lia; try discriminate; try tauto; try congruence. }
  assert (Device : forall (v : option string) q c,
             option_map (fun v => device v q) v = Some c ->
             Candidate.source c = "Your device" /\ v = Some (Candidate.value c)).
  { intros [v|] q c H; [|discriminate]. injection H as <-. auto. }
  intros H. injection H as <-.
  destruct ty; try contradiction; cbn [Field.eqb];
    try (destruct Plain as (P1 & P2 & P3 & P4);
         split; [f_equal; symmetry; exact P1|]; split; [exact NS|];
         split; [exact P2|]; split; [exact P3|];
         intros c Hc; destruct (P4 c Hc)).
  - destruct (push_if_shape (option_map (fun v => device v 1) (detectOS ua)) meta0
                            eq_refl eq_refl) as (Q1 & Q2 & Q3 & Q4).
    split; [f_equal; symmetry; exact Q1|]. split; [rewrite Q1; discriminate|].
    split; [exact Q2|]. split; [exact Q3|].
    intros c Hc. destruct (Device _ _ _ (Q4 c Hc)) as [Src Val].
    split; [exact Src|]. split; [apply (detectOS_nonempty ua), Val|]. left. exact Q1.
  - destruct (push_if_shape (option_map (fun v => device v 1) (detectBrowser ua)) meta0
                            eq_refl eq_refl) as (Q1 & Q2 & Q3 & Q4).
    split; [f_equal; symmetry; exact Q1|]. split; [rewrite Q1; discriminate|].
    split; [exact Q2|]. split; [exact Q3|].
    intros c Hc. destruct (Device _ _ _ (Q4 c Hc)) as [Src Val].
    split; [exact Src|]. split; [apply (detectBrowser_nonempty ua), Val|].
    right; left. exact Q1.
  - destruct (detectOS ua) as [o|] eqn:O; [destruct (detectBrowser ua) as [b|]|].
    + destruct (push_if_shape (Some (device (o ++ " / " ++ b)%string (9 # 10))) meta0
                              eq_refl eq_refl) as (Q1 & Q2 & Q3 & Q4).
      split; [f_equal; symmetry; exact Q1|]. split; [discriminate|].
      split; [exact Q2|]. split; [exact Q3|].
      intros c Hc. specialize (Q4 c Hc). injection Q4 as <-.
      split; [reflexivity|]. split; [|right; right; exact Q1].
      cbn [device Candidate.value]. pose proof (detectOS_nonempty ua o O) as No.
      destruct o; [congruence | discriminate].
    + destruct Plain as (P1 & P2 & P3 & P4).
      split; [f_equal; symmetry; exact P1|]. split; [exact NS|].
      split; [exact P2|]. split; [exact P3|]. intros c Hc. destruct (P4 c Hc).
    + destruct Plain as (P1 & P2 & P3 & P4).
      split; [f_equal; symmetry; exact P1|]. split; [exact NS|].
      split; [exact P2|]. split; [exact P3|]. intros c Hc. destruct (P4 c Hc).
Qed.

Lemma field_metadata_shape_witness :
  buildFieldMeta Sample.chrome_on_windows Sample.os_element = Some Sample.os_meta
  /\ (List.length (candidates Sample.os_meta) <= 1)%nat
  /\ fieldType Sample.os_meta <> sensitive.
Proof.
  assert (H : buildFieldMeta Sample.chrome_on_windows Sample.os_element
              = Some Sample.os_meta) by reflexivity.
  split; [exact H|].
  destruct (field_metadata_shape Sample.chrome_on_windows Sample.os_element
                                 Sample.os_meta H) as (_ & A & B & _).
  split; [exact B | exact A].
Defined.

End FieldMetaFacts.

(** ** What the service worker replies *)

Module ReplyFacts.
Import Js Field Message Runtime ServiceWorker Shape.

Section Replies.

Variable JSON_parse : string -> option value.
Variable net : Network.
Variable env : Env.

Lemma generate_cases merged w :
  exists r w',
    try_catch (generate JSON_parse net env merged)
              (fun message => ret (reply false JUndefined (Some message))) w
    = (Ret r, w')
    /\ ((exists message, r = reply false JUndefined (Some message))
        \/ (exists result, r = {| success := true; result := result |}
                           /\ Answer JSON_parse merged result)).
Proof.
  unfold generate, try_catch, bind.
  destruct (AnswerFacts.generateSuggestions_cases JSON_parse net merged w)
    as (r0 & w1 & E & A).
  rewrite E.
  destruct (GroqService.nonempty (GroqService.active_input_text merged)).
  - unfold emit, lift. cbv iota beta.
    destruct (recordQuery_outcome env) as [[]|msg].
    + rewrite andb_true_r.
      match goal with
      | |- context [if ?b then _ else _] => destruct b
      end; unfold storePastSearch, emit, ret; eexists; eexists;
        (split; [reflexivity|]); right; eauto.
    + unfold ret. eexists; eexists. split; [reflexivity|]. left. eauto.
  - unfold ret. rewrite andb_false_r.
    eexists; eexists. split; [reflexivity|]. right; eauto.
Qed.

Lemma worker_cases data w :
  exists r w',
    generateSuggestions JSON_parse net env data w = (Ret r, w')
    /\ ((exists why, r = reply true why None)
        \/ (exists message, r = reply false JUndefined (Some message))
        \/ (exists i result,
              r = {| success := true; result := result |}
              /\ Answer JSON_parse (mergedContext env data i) result)).
Proof.
  unfold generateSuggestions, try_catch at 1, bind, lift, ret.
  destruct (stored_extensionEnabled env) as [stored|msg].
  2:{ eexists; eexists. split; [reflexivity|]. right; left. eauto. }
  destruct (truthy (nullish_or stored (JBool true))); cbn [negb].
  2:{ eexists; eexists. split; [reflexivity|]. left. eauto. }
  destruct (ConfigManager.initialize (stored_config env) w) as [[[]|msg] w1].
  2:{ eexists; eexists. split; [reflexivity|]. right; left. eauto. }
  destruct (ConfigManager.isConfigured (configManager w1)); cbn [negb].
  2:{ eexists; eexists. split; [reflexivity|]. right; left. eauto. }
  destruct (intent env) as [i|msg].
  2:{ eexists; eexists. split; [reflexivity|]. right; left. eauto. }
  match goal with
  | |- context [if ?b then _ else _] => destruct b
  end.
  { eexists; eexists. split; [reflexivity|]. left. eauto. }
  destruct (generate_cases (mergedContext env data i) w1) as (r & w' & E & C).
  unfold try_catch, ret in E.
  destruct (generate JSON_parse net env (mergedContext env data i) w1)
    as [[r1|msg] w2] eqn:G.
  - exists r, w'. split; [exact E|].
    destruct C as [C|(result & -> & A)]; [right; left; exact C|].
    right; right. eauto.
  - exists r, w'. split; [exact E|].
    destruct C as [C|(result & -> & A)]; [right; left; exact C|].
    right; right. eauto.
Qed.

(** X10.  What a page gets for the message of [generateSuggestions(input,
    value)]: always a reply, with at most three suggestions; a reply
    that is not a success, or that carries an error, has none; and a
    reply marked as a form fill is a success built from the candidates
    the page itself sent. *)
Theorem page_reply_shape (ua : string) (input : ContentScript.Element)
        (value : string) (w : World) :
  exists r w',
    generateSuggestions JSON_parse net env (SuggestionFlow.message ua input value) w
    = (Ret r, w')
    /\ (List.length (suggestions (result r)) <= 3)%nat
    /\ (success r = false ->
        suggestions (result r) = [] /\ exists message, error (result r) = Some message)
    /\ (forall message, error (result r) = Some message -> suggestions (result r) = [])
    /\ (Message.isFormFill (result r) = true ->
        success r = true
        /\ exists meta,
             ContentScript.buildFieldMeta ua input = Some meta
             /\ result r = GroqService._buildFormFillResponse meta).
Proof.
  destruct (worker_cases (SuggestionFlow.message ua input value) w)
    as (r & w' & E & C).
  exists r, w'. split; [exact E|].
  destruct C as [[why ->]|[[message ->]|(i & res & -> & A)]].
  - cbn. split; [lia|]. split; [discriminate|]. split; [discriminate|]. discriminate.
  - cbn. split; [lia|]. split; [eauto|]. split; [reflexivity|]. discriminate.
  - cbn [success result].
    destruct A as [m Fm Cm|content|message].
    + cbn [mergedContext GroqService.fieldMeta SuggestionFlow.message fieldMeta] in Fm.
      pose proof (FieldMetaFacts.field_metadata_bounded ua input m Fm) as L.
      cbn. rewrite length_map.
      split; [lia|]. split; [discriminate|]. split; [discriminate|].
      intros _. split; [reflexivity|]. exists m. split; [exact Fm | reflexivity].
    + destruct (ParseFacts.parseResponse_bounded JSON_parse content) as (L & F & G).
      split; [exact L|]. split; [discriminate|].
      split; [intros message M; rewrite G in M; discriminate M|].
      rewrite F. discriminate.
    + cbn. split; [lia|]. split; [discriminate|]. split; [reflexivity|]. discriminate.
Qed.

(** X11.  The service worker does nothing behind a closed gate: if a
    request leaves any trace (a prompt, an HTTP request, a query handed
    to the session tracker or stored with the past searches), then the
    extension was enabled, a key was configured and the sensitivity
    check let the text pass. *)
Theorem effects_need_consent (data : Data) (w : World) :
  trace (snd (generateSuggestions JSON_parse net env data w)) <> trace w ->
  passes_the_gates env data w.
Proof.
  unfold generateSuggestions, try_catch, bind, lift, ret, passes_the_gates.
  destruct (stored_extensionEnabled env) as [stored|msg];
    [|intros H; exfalso; apply H; reflexivity].
  destruct (truthy (nullish_or stored (JBool true))) eqn:Et; cbn [negb];
    [|intros H; exfalso; apply H; reflexivity].
  pose proof (SensitiveFacts.initialize_trace (stored_config env) w) as Tr.
  destruct (ConfigManager.initialize (stored_config env) w) as [[[]|msg] w1];
    cbn [snd] in Tr; [|intros H; exfalso; apply H; exact Tr].
  destruct (ConfigManager.isConfigured (configManager w1)) eqn:Ec; cbn [negb];
    [|intros H; exfalso; apply H; exact Tr].
  destruct (intent env) as [i|msg]; [|intros H; exfalso; apply H; exact Tr].
  cbn [mergedContext GroqService.active_input_text].
  destruct (GroqService.nonempty (request_text env data)
            && truthy_text (fieldName data)
            && ContextCollector.isSensitiveInput (request_text env data)
                                                 (fieldName data))%bool eqn:G;
    [intros H; exfalso; apply H; exact Tr|].
  intros _. split; [eauto|]. split; [eauto|]. reflexivity.
Qed.

End Replies.

Lemma effects_need_consent_witness :
  trace (snd (generateSuggestions Sample.parse Sample.obliging Sample.calm
                (SuggestionFlow.message Sample.chrome_on_windows Sample.nameless_box
                                        "python async")
                Sample.configured))
  <> trace Sample.configured
  /\ passes_the_gates Sample.calm
       (SuggestionFlow.message Sample.chrome_on_windows Sample.nameless_box
                               "python async")
       Sample.configured.
Proof.
  assert (H : trace (snd (generateSuggestions Sample.parse Sample.obliging Sample.calm
                (SuggestionFlow.message Sample.chrome_on_windows Sample.nameless_box
                                        "python async")
                Sample.configured))
              <> trace Sample.configured)
    by (vm_compute; discriminate).
  split; [exact H|].
  exact (effects_need_consent Sample.parse Sample.obliging Sample.calm
           (SuggestionFlow.message Sample.chrome_on_windows Sample.nameless_box
                                   "python async")
           Sample.configured H).
Defined.



End ReplyFacts.

(** ** What is kept of a request *)

Module TrackingFacts.
Import Js Field Message Runtime Shape.

Section Tracking.

Variable JSON_parse : string -> option value.
Variable net : Network.

Lemma callWithRetry_events apiKey prompt systemPrompt w :
  exists out events,
    GroqService.callWithRetry JSON_parse net 2 apiKey prompt systemPrompt 0 w
    = Some (out, with_trace w (trace w ++ events))
    /\ forallb of_inference events = true.
Proof.
  destruct (net (http_attempts (trace w))
                (GroqService.request apiKey prompt systemPrompt)) as [msg|first] eqn:N.
  - rewrite (InferenceFacts.first_attempt_lost JSON_parse net apiKey prompt systemPrompt
               1 w msg N).
    eexists; eexists. split; [reflexivity|]. reflexivity.
  - destruct (status first =? 429) eqn:S429.
    + destruct (InferenceFacts.first_attempt_busy JSON_parse net apiKey prompt
                  systemPrompt 0 w first N S429) as (out & E & _).
      rewrite E. eexists; eexists. split; [reflexivity|]. reflexivity.
    + destruct (InferenceFacts.first_attempt_final JSON_parse net apiKey prompt
                  systemPrompt 1 w first N S429) as (out & E & _).
      rewrite E. eexists; eexists. split; [reflexivity|]. reflexivity.
Qed.

Lemma inference_world context w :
  exists events,
    snd (GroqService.generateSuggestions JSON_parse net context w)
    = with_trace w (trace w ++ events)
    /\ forallb of_inference events = true.
Proof.
  assert (Same : w = with_trace w (trace w ++ [])).
  { rewrite app_nil_r. destruct w; reflexivity. }
  unfold GroqService.generateSuggestions, try_catch, bind.
  unfold ConfigManager.getApiKey.
  destruct (ConfigManager.api_key (configManager w)) as [apiKey|];
    [|exists []; split; [exact Same | reflexivity]].
  destruct (GroqService.form_fill_ready context);
    [exists []; split; [exact Same | reflexivity]|].
  unfold emit. cbv iota beta. unfold GroqService.callWithRetry0.
  match goal with
  | |- context [GroqService.callWithRetry JSON_parse net 2 apiKey ?p ?s 0 ?w0] =>
      destruct (callWithRetry_events apiKey p s w0) as (out & events & E & F);
      rewrite E; exists (EvPrompt p :: events)
  end.
  split; [|exact F].
  destruct out; cbn; unfold with_trace; cbn; rewrite <- app_assoc; reflexivity.
Qed.

Variable env : ServiceWorker.Env.

Lemma inference_is_not_kept events :
  forallb of_inference events = true ->
  filter is_store events = [] /\ filter is_record events = [].
Proof.
  induction events as [|e events IH]; [auto|].
  cbn [forallb]. intros H. apply andb_prop in H. destruct H as [E H].
  destruct (IH H) as [A B]. destruct e; try discriminate E; cbn; auto.
Qed.

(** X12.  With history tracking switched off nothing is stored with the
    past searches, whatever the request and the provider.  The session
    tracker does not look at the switch: for a request that passes the
    gates, with the session intent read and a text that is not empty,
    it is handed the text once, with the suggestions of the result the
    inference service returned; and that result is the one the reply
    carries when the tracker accepts the query. *)
Theorem tracking_off_stores_nothing (data : ServiceWorker.Data) (w : World) :
  (forall w1, ConfigManager.initialize (ServiceWorker.stored_config env) w = (Ret tt, w1) ->
              truthy (ConfigManager.get_enableHistoryTracking (configManager w1)) = false) ->
  let w' := snd (ServiceWorker.generateSuggestions JSON_parse net env data w) in
  exists events,
    trace w' = trace w ++ events
    /\ filter is_store events = []
    /\ (passes_the_gates env data w ->
        forall i w1,
          ServiceWorker.intent env = Ret i ->
          ConfigManager.initialize (ServiceWorker.stored_config env) w = (Ret tt, w1) ->
          ServiceWorker.request_text env data <> "" ->
          exists r,
            fst (GroqService.generateSuggestions JSON_parse net
                   (ServiceWorker.mergedContext env data i) w1) = Ret r
            /\ filter is_record events
               = [EvRecordQuery (ServiceWorker.request_text env data) (suggestions r)]
            /\ (ServiceWorker.recordQuery_outcome env = Ret tt ->
                fst (ServiceWorker.generateSuggestions JSON_parse net env data w)
                = Ret {| success := true; result := r |})).
Proof.
  intros Off w'. unfold w', passes_the_gates.
  unfold ServiceWorker.generateSuggestions, try_catch, bind, lift, ret.
  assert (Nil : forall t : list Event, t = t ++ []) by (intros; rewrite app_nil_r; reflexivity).
  destruct (ServiceWorker.stored_extensionEnabled env) as [stored|msg].
  2:{ exists []. split; [apply Nil|]. split; [reflexivity|].
      intros ((st & E & _) & _). discriminate E. }
  destruct (truthy (nullish_or stored (JBool true))) eqn:Et; cbn [negb].
  2:{ exists []. split; [apply Nil|]. split; [reflexivity|].
      intros ((st & E & T) & _). injection E as <-. congruence. }
  pose proof (SensitiveFacts.initialize_trace (ServiceWorker.stored_config env) w) as Tr.
  destruct (ConfigManager.initialize (ServiceWorker.stored_config env) w)
    as [[[]|msg] w1] eqn:Ei; cbn [snd] in Tr.
  2:{ exists []. split; [cbn; rewrite Tr; apply Nil|]. split; [reflexivity|].
      intros (_ & (w2 & E & _) & _). discriminate E. }
  specialize (Off w1 eq_refl).
  destruct (ConfigManager.isConfigured (configManager w1)) eqn:Ec; cbn [negb].
  2:{ exists []. split; [cbn; rewrite Tr; apply Nil|]. split; [reflexivity|].
      intros (_ & (w2 & E & C) & _). injection E as <-. congruence. }
  destruct (ServiceWorker.intent env) as [i|msg].
  2:{ exists []. split; [cbn; rewrite Tr; apply Nil|]. split; [reflexivity|].
      intros _ i w2 E. discriminate E. }
  cbn [ServiceWorker.mergedContext GroqService.active_input_text].
  destruct (GroqService.nonempty (ServiceWorker.request_text env data)
            && ServiceWorker.truthy_text (ServiceWorker.fieldName data)
            && ContextCollector.isSensitiveInput
                 (ServiceWorker.request_text env data)
                 (ServiceWorker.fieldName data))%bool eqn:G.
  { exists []. split; [cbn; rewrite Tr; apply Nil|]. split; [reflexivity|].
    intros (_ & _ & E). discriminate E. }
  unfold ServiceWorker.generate, bind.
  cbn [ServiceWorker.mergedContext GroqService.active_input_text].
  set (merged := ServiceWorker.mergedContext env data i).
  destruct (inference_world merged w1) as (ev & Ew & Fev).
  destruct (inference_is_not_kept ev Fev) as [NoStore NoRecord].
  destruct (AnswerFacts.generateSuggestions_cases JSON_parse net merged w1)
    as (r & w2 & E & _).
  rewrite E in Ew |- *. cbn [snd] in Ew. subst w2.
  destruct (GroqService.nonempty (ServiceWorker.request_text env data)) eqn:Ne.
  - unfold emit, lift. cbv iota beta. cbn [trace with_trace configManager].
    destruct (ServiceWorker.recordQuery_outcome env) as [[]|msg].
    + rewrite Off. cbn [andb]. cbn [snd fst trace ret].
      exists (ev ++ [EvRecordQuery (ServiceWorker.request_text env data) (suggestions r)]).
      rewrite Tr, app_assoc. split; [reflexivity|].
      rewrite !filter_app, NoStore, NoRecord. split; [reflexivity|].
      intros _ j w2 J I _. injection J as <-. injection I as <-.
      exists r. fold merged. rewrite E. auto.
    + cbn [snd fst trace].
      exists (ev ++ [EvRecordQuery (ServiceWorker.request_text env data) (suggestions r)]).
      rewrite Tr, app_assoc. split; [reflexivity|].
      rewrite !filter_app, NoStore, NoRecord. split; [reflexivity|].
      intros _ j w2 J I _. injection J as <-. injection I as <-.
      exists r. fold merged. rewrite E.
      split; [reflexivity|]. split; [reflexivity|]. discriminate.
  - unfold ret. cbn [configManager with_trace]. rewrite andb_false_r. cbn [snd trace].
    exists ev. rewrite Tr. split; [reflexivity|]. split; [exact NoStore|].
    intros _ j w2 _ _ T. exfalso. apply T.
    unfold GroqService.nonempty in Ne.
    destruct (String.eqb_spec (ServiceWorker.request_text env data) "");
      [assumption | discriminate Ne].
Qed.

End Tracking.

Lemma tracking_off_stores_nothing_witness :
  exists events,
    trace (snd (ServiceWorker.generateSuggestions Sample.parse Sample.obliging
                  Sample.untracked
                  (SuggestionFlow.message Sample.chrome_on_windows Sample.nameless_box
                                          "python async")
                  Sample.started))
    = trace Sample.started ++ events
    /\ filter is_store events = []
    /\ (1 <= List.length events)%nat.
Proof.
  destruct (tracking_off_stores_nothing Sample.parse Sample.obliging Sample.untracked
              (SuggestionFlow.message Sample.chrome_on_windows Sample.nameless_box
                                      "python async")
              Sample.started) as (events & T & S & _).
  - intros w1 E. vm_compute in E. injection E as <-. reflexivity.
  - exists events. split; [exact T|]. split; [exact S|].
    assert (L : List.length
                  (trace (snd (ServiceWorker.generateSuggestions Sample.parse
                                 Sample.obliging Sample.untracked
                                 (SuggestionFlow.message Sample.chrome_on_windows
                                    Sample.nameless_box "python async")
                                 Sample.started))) = 3%nat)
      by (vm_compute; reflexivity).
    rewrite T in L. simpl in L. lia.
Defined.

End TrackingFacts.

(** ** The configuration manager and the storage *)

Module ConfigStoreFacts.
Import Js Message Runtime ConfigStore.

Lemma boot_key s k :
  Storage.groqApiKey s = Some k -> k <> "" -> ConfigManager.api_key (boot s) = Some k.
Proof.
  intros S N. unfold boot, ConfigManager.initialize, ConfigManager.api_key.
  cbn. rewrite S. destruct k; [congruence|reflexivity].
Qed.

(** X13.  A key that [setApiKey] accepts is a string that starts with
    [gsk_]; it is the key [getApiKey] returns from then on, and the key
    a service worker started later on the same storage finds.  A call
    that fails leaves the manager as it was, and the storage too unless
    the manager had not been initialised. *)
Theorem setApiKey_round_trip (apiKey : value) (write : Outcome unit)
        (s s' : Storage.t) (cm cm' : ConfigManager) :
  (setApiKey apiKey write s cm = (Ret tt, (s', cm')) ->
   exists k,
     apiKey = JStr k
     /\ startsWith k "gsk_" = true
     /\ (forall tr, ConfigManager.getApiKey {| configManager := cm'; trace := tr |}
                    = (Ret k, {| configManager := cm'; trace := tr |}))
     /\ ConfigManager.isConfigured cm' = true
     /\ ConfigManager.api_key (boot s') = Some k)
  /\ (forall message,
        setApiKey apiKey write s cm = (Throw message, (s', cm')) ->
        cm' = cm /\ (s' = s \/ config cm = None)).
Proof.
  unfold setApiKey. split.
  - destruct apiKey as [| | | |k| |]; try discriminate.
    destruct (String.eqb_spec k ""); [discriminate|].
    destruct (startsWith k "gsk_") eqn:G; [|discriminate]. cbn [negb].
    destruct write as [[]|msg]; [|discriminate].
    destruct (config cm) as [c|]; [|discriminate].
    intros E. injection E as <- <-. exists k.
    assert (K : forall other tr,
               ConfigManager.api_key
                 {| config := Some {| groqApiKey := Some k;
                                      enableHistoryTracking := other |};
                    initialized := tr |} = Some k).
    { intros. unfold ConfigManager.api_key. cbn. destruct k; [congruence|reflexivity]. }
    split; [reflexivity|]. split; [exact G|]. split; [|split].
    + intros tr. unfold ConfigManager.getApiKey. cbn [configManager].
      rewrite K. reflexivity.
    + unfold ConfigManager.isConfigured. rewrite K. reflexivity.
    + apply boot_key; [reflexivity | assumption].
  - intros message.
    destruct apiKey as [| | | |k| |];
      try (intros E; injection E as _ <- <-; auto).
    destruct (String.eqb k ""); [intros E; injection E as _ <- <-; auto|].
    destruct (negb (startsWith k "gsk_")); [intros E; injection E as _ <- <-; auto|].
    destruct write as [[]|msg]; [|intros E; injection E as _ <- <-; auto].
    destruct (config cm) as [c|]; [discriminate|].
    intros E; injection E as _ <- <-; auto.
Qed.

Lemma setApiKey_round_trip_witness :
  setApiKey (JStr "gsk_example") (Ret tt) cleared (boot cleared)
  = (Ret tt,
     ({| Storage.groqApiKey := Some "gsk_example";
         Storage.enableHistoryTracking := JUndefined;
         Storage.extensionEnabled := JUndefined;
         Storage.pastSearches := None |},
      {| config := Some {| groqApiKey := Some "gsk_example";
                           enableHistoryTracking := JBool true |};
         initialized := true |}))
  /\ ConfigManager.isConfigured (boot cleared) = false
  /\ ConfigManager.api_key
       (boot {| Storage.groqApiKey := Some "gsk_example";
                Storage.enableHistoryTracking := JUndefined;
                Storage.extensionEnabled := JUndefined;
                Storage.pastSearches := None |}) = Some "gsk_example".
Proof.
  assert (H : setApiKey (JStr "gsk_example") (Ret tt) cleared (boot cleared)
              = (Ret tt,
                 ({| Storage.groqApiKey := Some "gsk_example";
                     Storage.enableHistoryTracking := JUndefined;
                     Storage.extensionEnabled := JUndefined;
                     Storage.pastSearches := None |},
                  {| config := Some {| groqApiKey := Some "gsk_example";
                                       enableHistoryTracking := JBool true |};
                     initialized := true |}))) by reflexivity.
  split; [exact H|]. split; [reflexivity|].
  destruct (proj1 (setApiKey_round_trip _ _ _ _ _ _) H) as (k & E & _ & _ & _ & B).
  injection E as <-. exact B.
Defined.

Section Cleared.

Variable JSON_parse : string -> option value.
Variable net : Network.

(** X14.  After [clear()] the extension is as it was before its first
    configuration: [getApiKey] throws; and a service worker that reads
    the cleared storage, the same one or one started later, answers
    every request with the error [Groq API key not configured], enabled
    as by default, and sends nothing. *)
Theorem clear_forgets_the_key (write : Outcome unit) (s s' : Storage.t)
        (cm cm' : ConfigManager) (env : ServiceWorker.Env)
        (data : ServiceWorker.Data) (tr : list Event) :
  clear write s cm = (Ret tt, (s', cm')) ->
  ServiceWorker.stored_extensionEnabled env = Ret (Storage.extensionEnabled s') ->
  ServiceWorker.stored_config env = Ret (stored_config s') ->
  fst (ConfigManager.getApiKey {| configManager := cm'; trace := tr |})
  = Throw "Groq API key not configured"
  /\ (forall start, start = cm' \/ start = boot s' ->
      exists w',
        ServiceWorker.generateSuggestions JSON_parse net env data
          {| configManager := start; trace := tr |}
        = (Ret (ServiceWorker.reply false JUndefined
                  (Some "Groq API key not configured")), w')
        /\ trace w' = tr).
Proof.
  unfold clear. destruct write as [[]|msg]; [|discriminate].
  intros E En Cf. injection E as <- <-. split; [reflexivity|].
  intros start [->| ->];
    unfold ServiceWorker.generateSuggestions, try_catch, bind, lift, ret;
    rewrite En, Cf; cbn; eexists; split; reflexivity.
Qed.

End Cleared.

Lemma clear_forgets_the_key_witness :
  ConfigManager.isConfigured (configManager Sample.configured) = true
  /\ exists w',
       ServiceWorker.generateSuggestions Sample.parse Sample.obliging
         Sample.wiped
         (SuggestionFlow.message Sample.chrome_on_windows Sample.nameless_box
                                 "python async")
         {| configManager := fresh; trace := [] |}
       = (Ret (ServiceWorker.reply false JUndefined
                 (Some "Groq API key not configured")), w')
       /\ trace w' = [].
Proof.
  split; [reflexivity|].
  apply (proj2 (clear_forgets_the_key Sample.parse Sample.obliging
                  (Ret tt) Sample.keyed cleared
                  (configManager Sample.configured) fresh Sample.wiped
                  (SuggestionFlow.message Sample.chrome_on_windows Sample.nameless_box
                                          "python async")
                  [] eq_refl eq_refl eq_refl)).
  left; reflexivity.
Defined.

(** *** Past searches *)

Lemma firstn_app_firstn {A} (a b : list A) : forall n m, (n <= m)%nat ->
  firstn n (a ++ firstn m b) = firstn n (a ++ b).
Proof.
  induction a as [|x a IH]; intros n m H; simpl.
  - rewrite firstn_firstn. f_equal. lia.
  - destruct n as [|n]; [reflexivity|]. simpl. f_equal. apply IH. lia.
Qed.

Lemma store_all_past entries : forall s,
  entries <> [] ->
  Storage.pastSearches (store_all entries s)
  = Some (firstn 50 (rev (map entry_of entries) ++ or_nil (Storage.pastSearches s))).
Proof.
  induction entries as [|[[now query] suggestions] rest IH]; intros s N; [congruence|].
  cbn [store_all]. destruct rest as [|e rest'].
  - reflexivity.
  - rewrite IH by discriminate.
    cbn [storePastSearch Storage.pastSearches or_nil].
    rewrite firstn_app_firstn by lia.
    f_equal. f_equal. cbn [map rev]. rewrite <- !app_assoc. reflexivity.
Qed.

(** X15.  [storePastSearch] keeps the fifty most recent searches, the
    newest first: after any run of stored searches, what
    [getPastSimilarSearches] reads back is the run in reverse, followed
    by what was there before, cut to fifty entries; the search stored
    last is its first entry. *)
Theorem past_searches_are_the_latest_fifty
        (entries : list (Z * string * list Suggestion)) (s : Storage.t) :
  entries <> [] ->
  let past := getPastSimilarSearches true (store_all entries s) in
  past = firstn 50 (rev (map entry_of entries) ++ or_nil (Storage.pastSearches s))
  /\ (List.length past <= 50)%nat
  /\ hd_error past = option_map entry_of (hd_error (rev entries)).
Proof.
  intros N past. unfold past, getPastSimilarSearches.
  rewrite (store_all_past entries s N). cbn [or_nil].
  split; [reflexivity|]. split; [apply firstn_le_length|].
  rewrite <- map_rev.
  destruct (rev entries) as [|e l] eqn:R.
  - exfalso. apply N. apply (f_equal (@rev _)) in R. rewrite rev_involutive in R.
    exact R.
  - reflexivity.
Qed.

Lemma past_searches_are_the_latest_fifty_witness :
  Sample.sixty_searches <> []
  /\ List.length (getPastSimilarSearches true (store_all Sample.sixty_searches cleared))
     = 50%nat
  /\ option_map query
       (hd_error (getPastSimilarSearches true (store_all Sample.sixty_searches cleared)))
     = Some "query 60".
Proof.
  assert (N : Sample.sixty_searches <> []) by discriminate.
  split; [exact N|].
  destruct (past_searches_are_the_latest_fifty Sample.sixty_searches cleared N)
    as (E & _ & H).
  split; [rewrite E; vm_compute; reflexivity|].
  rewrite H. vm_compute. reflexivity.
Defined.

End ConfigStoreFacts.

(** ** AI tabs *)

Module AITabFacts.
Import Js ContextCollector PageCollector ListFacts.

Lemma lower_or_empty_url (o : option string) :
  lower_or_empty o = toLowerCase (or_else o "").
Proof. destruct o as [[|c s]|]; reflexivity. Qed.

(** X16.  [getRecentAITabs] returns at most three tabs, in the order of
    the browser's answer; each is made of a history item whose
    lower-cased URL contains one of the AI domains; its platform is
    [AI Chat] only for a URL on [huggingface.co/chat] and on none of the
    domains tested before it; and when the history cannot be read there
    is none. *)
Theorem recent_ai_tabs (host : Host) (now : Z) :
  let tabs := getRecentAITabs host now in
  (List.length tabs <= 3)%nat
  /\ (forall tab, In tab tabs ->
        (exists history item,
            history_search host
              {| text := ""; startTime := now - 3600000; maxResults := 20 |}
            = Ret history
            /\ In item history /\ tab = ai_tab item)
        /\ existsb (fun domain => includes (toLowerCase (ai_url tab)) domain)
                   aiDomains = true
        /\ platform tab = detectAIPlatform (ai_url tab)
        /\ (platform tab = "AI Chat" ->
            includes (toLowerCase (ai_url tab)) "huggingface.co/chat" = true))
  /\ (forall message,
        history_search host
          {| text := ""; startTime := now - 3600000; maxResults := 20 |}
        = Throw message -> tabs = []).
Proof.
  intros tabs. unfold tabs, getRecentAITabs.
  change (now - 60 * 60 * 1000) with (now - 3600000).
  destruct (history_search host _) as [history|msg] eqn:H.
  2:{ split; [simpl; lia|]. split; [intros tab []|]. reflexivity. }
  split; [rewrite length_map; apply firstn_le_length|].
  split; [|discriminate].
  intros tab T. apply in_map_iff in T. destruct T as (item & <- & I).
  apply firstn_In, filter_In in I. destruct I as [I A].
  split; [exists history, item; auto|].
  unfold is_ai in A. rewrite lower_or_empty_url in A.
  cbn [ai_tab ai_url platform]. split; [exact A|]. split; [reflexivity|].
  set (u := toLowerCase (or_else (HistoryItem.url item) "")) in *.
  unfold detectAIPlatform. fold u. unfold aiDomains in A. cbn [existsb] in A.
  destruct (includes u "chat.openai.com"); [discriminate|].
  destruct (includes u "claude.ai"); [discriminate|].
  destruct (includes u "bard.google.com"); [discriminate|].
  destruct (includes u "gemini.google.com"); [discriminate|].
  destruct (includes u "copilot.microsoft.com"); [discriminate|].
  destruct (includes u "perplexity.ai"); [discriminate|].
  destruct (includes u "poe.com"); [discriminate|].
  cbn [orb] in *. rewrite orb_false_r in A. intros _. exact A.
Qed.

End AITabFacts.

(** ** The sensitive patterns of the collector *)

Module PatternFacts.
Import Js Regex ContextCollector Shape.

Lemma startsWith_includes s p : startsWith s p = true -> includes s p = true.
Proof. intros H. destruct s; simpl in *; rewrite H; reflexivity. Qed.

Lemma includes_app_r a s p : includes s p = true -> includes (a ++ s)%string p = true.
Proof.
  intros H. induction a as [|c a IH]; [exact H|].
  change (String c a ++ s)%string with (String c (a ++ s))%string.
  cbn [includes]. rewrite IH. apply orb_true_r.
Qed.

Lemma startsWith_app_l s t p :
  startsWith s p = true -> startsWith (s ++ t)%string p = true.
Proof.
  revert p. induction s as [|c s IH]; intros [|d p]; simpl; try reflexivity;
    try discriminate.
  - destruct t; reflexivity.
  - intros H. apply andb_prop in H. destruct H as [E H]. rewrite E. apply IH, H.
Qed.

Lemma includes_app_l s t p : includes s p = true -> includes (s ++ t)%string p = true.
Proof.
  induction s as [|c s IH]; intros H.
  - simpl in H. rewrite orb_false_r in H. destruct p; [|discriminate].
    destruct t; reflexivity.
  - change (String c s ++ t)%string with (String c (s ++ t))%string.
    cbn [includes] in *. apply orb_prop in H. destruct H as [H|H].
    + change (String c (s ++ t))%string with (String c s ++ t)%string.
      rewrite (startsWith_app_l _ t _ H). reflexivity.
    + rewrite (IH H). apply orb_true_r.
Qed.

Lemma toLowerCase_app a b :
  toLowerCase (a ++ b)%string = (toLowerCase a ++ toLowerCase b)%string.
Proof. induction a as [|c a IH]; simpl; [|rewrite IH]; reflexivity. Qed.

(** X17.  [isSensitiveInput] looks for its keywords anywhere, in any
    letter case: a text or a field name that contains [password],
    [passwd], [pwd], [ssn], [cvv], [cvc], [pin] or [token], also inside
    a longer word, is held for sensitive. *)
Theorem keyword_anywhere_is_sensitive (text fieldName keyword : string) :
  In keyword plain_keywords ->
  includes (toLowerCase text) keyword = true
  \/ includes (toLowerCase fieldName) keyword = true ->
  isSensitiveInput text (Some fieldName) = true.
Proof.
  intros K H. unfold isSensitiveInput. cbn [template_text].
  assert (I : includes (toLowerCase (text ++ " " ++ fieldName)) keyword = true).
  { rewrite !toLowerCase_app. destruct H as [H|H].
    - apply includes_app_l, H.
    - apply includes_app_r, includes_app_r, H. }
  apply existsb_exists. exists (lit keyword).
  split; [|rewrite RegexFacts.test_lit; exact I].
  unfold plain_keywords in K. unfold sensitivePatterns. simpl in K |- *.
  intuition (subst; auto 20).
Qed.

Lemma keyword_anywhere_is_sensitive_witness :
  In "pin" plain_keywords
  /\ includes (toLowerCase "Free SHIPPING on orders") "pin" = true
  /\ isSensitiveInput "Free SHIPPING on orders" (Some "comment") = true.
Proof.
  assert (K : In "pin" plain_keywords) by (simpl; tauto).
  assert (H : includes (toLowerCase "Free SHIPPING on orders") "pin" = true)
    by reflexivity.
  split; [exact K|]. split; [exact H|].
  exact (keyword_anywhere_is_sensitive "Free SHIPPING on orders" "comment" "pin"
           K (or_introl H)).
Defined.

End PatternFacts.

(** ** The most visited pages *)

Module TopVisitedFacts.
Import Js ContextCollector ListFacts Shape.

Lemma insert_by_visits_In x l y :
  In y (insert_by_visits x l) <-> y = x \/ In y l.
Proof.
  induction l as [|z l IH]; simpl; [intuition congruence|].
  destruct (_ <=? 0); simpl; [intuition congruence|].
  rewrite IH. intuition congruence.
Qed.

Lemma sort_by_visits_In l y : In y (sort_by_visits l) <-> In y l.
Proof.
  induction l as [|x l IH]; [reflexivity|].
  change (sort_by_visits (x :: l)) with (insert_by_visits x (sort_by_visits l)).
  rewrite insert_by_visits_In, IH. simpl. intuition congruence.
Qed.

Lemma descending_cons a l :
  descending (a :: l) = true <-> (forall b, In b l -> b <= a) /\ descending l = true.
Proof.
  cbn [descending]. rewrite andb_true_iff, forallb_forall.
  split; intros [H D]; (split; [|exact D]); intros b Hb; specialize (H b Hb); lia.
Qed.

Lemma insert_by_visits_descending x l :
  descending (map visits l) = true ->
  descending (map visits (insert_by_visits x l)) = true.
Proof.
  induction l as [|y l IH]; intros D; [reflexivity|].
  cbn [insert_by_visits]. fold (visits y). fold (visits x).
  cbn [map] in D. apply descending_cons in D. destruct D as [B D].
  destruct (visits y - visits x <=? 0) eqn:C.
  - apply Z.leb_le in C. cbn [map]. apply descending_cons. split.
    + intros b [<-|Hb]; [lia|]. specialize (B b Hb). lia.
    + apply descending_cons. auto.
  - apply Z.leb_gt in C. cbn [map]. apply descending_cons. split.
    + intros b Hb. apply in_map_iff in Hb. destruct Hb as (z & <- & Hz).
      apply insert_by_visits_In in Hz. destruct Hz as [->|Hz]; [lia|].
      apply B, in_map, Hz.
    + apply IH, D.
Qed.

Lemma sort_by_visits_descending l : descending (map visits (sort_by_visits l)) = true.
Proof.
  induction l as [|x l IH]; [reflexivity|].
  change (sort_by_visits (x :: l)) with (insert_by_visits x (sort_by_visits l)).
  apply insert_by_visits_descending, IH.
Qed.

Lemma firstn_descending n : forall l,
  descending l = true -> descending (firstn n l) = true.
Proof.
  induction n as [|n IH]; intros [|a l] D; try reflexivity.
  apply descending_cons in D. destruct D as [B D].
  cbn [firstn]. apply descending_cons. split; [|apply IH, D].
  intros b Hb. apply B. apply (firstn_In n l b Hb).
Qed.

(** In a descending list, what is not among the first [n] is at most
    each of them. *)
Lemma firstn_dominates {A} (f : A -> Z) n : forall (l : list A) x,
  descending (map f l) = true -> In x l ->
  In x (firstn n l)
  \/ (List.length (firstn n l) = n /\ forall t, In t (firstn n l) -> f x <= f t).
Proof.
  induction n as [|n IH]; intros l x D Hx.
  - right. split; [reflexivity|]. intros t [].
  - destruct l as [|a l]; [destruct Hx|].
    cbn [map] in D. apply descending_cons in D. destruct D as [B D].
    destruct Hx as [->|Hx]; [left; left; reflexivity|].
    destruct (IH l x D Hx) as [H|[L H]]; [left; right; exact H|].
    right. split; [cbn [firstn List.length]; rewrite L; reflexivity|].
    intros t [<-|Ht]; [apply B, in_map, Hx | apply H, Ht].
Qed.

(** X18.  [getTopVisitedTitles] returns the most visited of the pages
    the browser reports for the last week, the most visited first: its
    entries come from items that pass the filter and were visited more
    than once, their visit counts never increase along the list, and
    every such item that is left out was visited at most as often as
    each of the five that are in.  When the history cannot be read there
    is no entry. *)
Theorem top_visited_are_the_most_visited (host : Host) (now : Z) :
  let tops := getTopVisitedTitles host now in
  match history_search host
          {| text := ""; startTime := now - 604800000; maxResults := 50 |} with
  | Throw _ => tops = []
  | Ret history =>
      descending (map Top.visitCount tops) = true
      /\ (forall t, In t tops ->
            1 < Top.visitCount t
            /\ exists item, In item history /\ useful item = true
                            /\ t = top_info item)
      /\ (forall item, In item history ->
            useful item = true -> visited_again item = true ->
            In (top_info item) tops
            \/ (List.length tops = 5%nat
                /\ forall t, In t tops -> visits item <= Top.visitCount t))
  end.
Proof.
  intros tops. unfold tops, getTopVisitedTitles.
  change (now - 7 * 24 * 60 * 60 * 1000) with (now - 604800000).
  destruct (history_search host _) as [history|msg]; [|reflexivity].
  set (eligible := filter (fun item => (useful item && visited_again item)%bool) history).
  assert (V : forall l, map Top.visitCount (map top_info l) = map visits l).
  { intros l. rewrite map_map. reflexivity. }
  split; [|split].
  - rewrite V, <- firstn_map. apply firstn_descending, sort_by_visits_descending.
  - intros t Ht. apply in_map_iff in Ht. destruct Ht as (item & <- & Hi).
    apply firstn_In in Hi. apply (proj1 (sort_by_visits_In _ _)) in Hi.
    unfold eligible in Hi.
    apply filter_In in Hi. destruct Hi as [Hi E]. apply andb_prop in E.
    destruct E as [U A]. split; [|eauto].
    cbn [top_info Top.visitCount]. unfold visited_again in A.
    destruct (HistoryItem.visitCount item) as [n|]; [|discriminate].
    apply Z.ltb_lt in A. exact A.
  - intros item Hi U A.
    assert (E : In item (sort_by_visits eligible)).
    { apply sort_by_visits_In. unfold eligible. apply filter_In.
      rewrite U, A. auto. }
    destruct (firstn_dominates visits 5 _ item (sort_by_visits_descending eligible) E)
      as [H|[L H]].
    + left. apply in_map, H.
    + right. split; [rewrite length_map; exact L|].
      intros t Ht. apply in_map_iff in Ht. destruct Ht as (z & <- & Hz).
      apply (H z Hz).
Qed.

End TopVisitedFacts.

(** ** Keys and the overlay *)

Module KeyboardFacts.
Import Js Message SuggestionFlow Keyboard.

Lemma inputHandler_cases p :
  let p' := inputHandler p in
  field_value p' = field_value p
  /\ in_flight p' = in_flight p /\ issued p' = issued p
  /\ activeSuggestionIndex p' = activeSuggestionIndex p
  /\ (currentSuggestions p' = currentSuggestions p \/ currentSuggestions p' = [])
  /\ (debounceTimer p' = debounceTimer p \/ debounceTimer p' = Some (field_value p)).
Proof.
  unfold inputHandler.
  destruct (negb (String.eqb (field_value p) (lastInputValue p))
            && Nat.leb 1 (String.length (trim (field_value p))))%bool;
    [cbn; tauto|].
  destruct (Nat.eqb (String.length (trim (field_value p))) 0); cbn; tauto.
Qed.

Lemma in_range_same p p' :
  currentSuggestions p' = currentSuggestions p \/ currentSuggestions p' = [] ->
  activeSuggestionIndex p' = activeSuggestionIndex p ->
  in_range p -> in_range p'.
Proof.
  unfold in_range. intros [S|S] I [R|R]; rewrite ?S, ?I; auto.
Qed.

Lemma dismiss_in_range p : in_range (dismiss p).
Proof. left. reflexivity. Qed.

Lemma completion_in_range value sent p : in_range p -> in_range (completion value sent p).
Proof.
  intros R. unfold completion.
  destruct sent as [response|msg]; [|apply dismiss_in_range].
  destruct (negb (String.eqb (field_value p) value)); [exact R|].
  destruct response as [r|]; [|apply dismiss_in_range].
  destruct (success r); [|apply dismiss_in_range].
  destruct (suggestions (result r)) as [|first rest]; [apply dismiss_in_range|].
  right. cbn. lia.
Qed.

Lemma step_in_range p e : in_range p -> in_range (step p e).
Proof.
  intros R. destruct e as [v| |id sent]; cbn [step].
  - match goal with |- in_range (inputHandler ?q) =>
      destruct (inputHandler_cases q) as (_ & _ & _ & I & S & _);
      apply (in_range_same q); [exact S | exact I | exact R]
    end.
  - destruct (debounceTimer p); exact R.
  - destruct (value_of id (in_flight p)); [|exact R].
    apply completion_in_range. exact R.
Qed.

Lemma shown p suggestion :
  nth_error (currentSuggestions p) (activeSuggestionIndex p) = Some suggestion ->
  updateSuggestionDisplay p
  = Ret {| field_value := field_value p;
           lastInputValue := lastInputValue p;
           currentSuggestions := currentSuggestions p;
           activeSuggestionIndex := activeSuggestionIndex p;
           overlay := Showing suggestion (JStr "") false;
           debounceTimer := debounceTimer p;
           in_flight := in_flight p; issued := issued p |}.
Proof.
  intros H. unfold updateSuggestionDisplay. rewrite H.
  destruct (currentSuggestions p); [destruct (activeSuggestionIndex p); discriminate H|].
  reflexivity.
Qed.

Lemma moved p index :
  (index < List.length (currentSuggestions p))%nat ->
  exists suggestion,
    nth_error (currentSuggestions p) index = Some suggestion
    /\ updateSuggestionDisplay (with_index p index)
       = Ret {| field_value := field_value p;
                lastInputValue := lastInputValue p;
                currentSuggestions := currentSuggestions p;
                activeSuggestionIndex := index;
                overlay := Showing suggestion (JStr "") false;
                debounceTimer := debounceTimer p;
                in_flight := in_flight p; issued := issued p |}.
Proof.
  intros H. destruct (nth_error (currentSuggestions p) index) as [s|] eqn:N.
  - exists s. split; [reflexivity|]. apply (shown (with_index p index) s). exact N.
  - apply nth_error_None in N. lia.
Qed.

Lemma down_index i n : (1 < n)%nat -> ((i + 1) mod n < n)%nat.
Proof. intros H. apply Nat.mod_upper_bound. lia. Qed.

Lemma up_index i n :
  (1 < n)%nat -> (Z.to_nat ((Z.of_nat i - 1 + Z.of_nat n) mod Z.of_nat n) < n)%nat.
Proof.
  intros H. pose proof (Z.mod_pos_bound (Z.of_nat i - 1 + Z.of_nat n) (Z.of_nat n)).
  lia.
Qed.

Lemma key_in_range p key :
  in_range p -> exists p', keydownHandler p key = Ret p' /\ in_range p'.
Proof.
  intros R. unfold keydownHandler. destruct key.
  - destruct (Nat.ltb 0 (List.length (currentSuggestions p))) eqn:L; [|eauto].
    apply Nat.ltb_lt in L. unfold acceptSuggestion.
    destruct (currentSuggestions p) as [|x l] eqn:S; [simpl in L; lia|].
    destruct R as [R|R]; [rewrite S in R; discriminate|]. rewrite S in R.
    destruct (nth_error (x :: l) (activeSuggestionIndex p)) as [s|] eqn:N;
      [|apply nth_error_None in N; lia].
    destruct (String.eqb (text s) "").
    + eexists. split; [reflexivity|]. right. rewrite S. exact R.
    + eexists. split; [reflexivity|]. left. reflexivity.
  - destruct (Nat.ltb 1 (List.length (currentSuggestions p))) eqn:L; [|eauto].
    apply Nat.ltb_lt in L.
    destruct (moved p _ (down_index (activeSuggestionIndex p) _ L)) as (s & _ & E).
    rewrite E. eexists. split; [reflexivity|]. right. cbn.
    apply down_index, L.
  - destruct (Nat.ltb 1 (List.length (currentSuggestions p))) eqn:L; [|eauto].
    apply Nat.ltb_lt in L.
    destruct (moved p _ (up_index (activeSuggestionIndex p) _ L)) as (s & _ & E).
    rewrite E. eexists. split; [reflexivity|]. right. cbn.
    apply up_index, L.
  - eexists. split; [reflexivity|]. apply dismiss_in_range.
  - eauto.
Qed.

Lemma act_in_range p a : in_range p -> in_range (act p a).
Proof.
  intros R. destruct a as [e|key]; cbn [act]; [apply step_in_range, R|].
  destruct (key_in_range p key R) as (p' & E & R'). rewrite E. exact R'.
Qed.

Lemma play_in_range actions : forall p, in_range p -> in_range (play actions p).
Proof.
  induction actions as [|a rest IH]; intros p R; [exact R|].
  apply IH, act_in_range, R.
Qed.

(** X19.  However the user types and presses keys and whenever timers
    fire and replies arrive, the active index points at one of the
    current suggestions if there is any; so no key handler ever reads
    a suggestion that is not there: every key press is handled without
    an error. *)
Theorem keys_never_fail (actions : list Action) (key : Key) :
  let p := play actions initial in
  in_range p /\ exists p', keydownHandler p key = Ret p' /\ in_range p'.
Proof.
  intros p.
  assert (R : in_range p) by (apply play_in_range; left; reflexivity).
  split; [exact R|]. apply key_in_range, R.
Qed.

(** X20.  With more than one suggestion, ArrowDown moves to the next
    one and from the last to the first, ArrowUp after it moves back to
    where the index was, and the suggestions stay as they are.  The
    overlay shows the suggestion at the index, without the reason and
    without the form-fill mark the reply came with. *)
Theorem arrows_cycle (p : Page) :
  let n := List.length (currentSuggestions p) in
  let i := activeSuggestionIndex p in
  (1 < n)%nat -> (i < n)%nat ->
  exists p1 p2 s1 s2,
    keydownHandler p ArrowDown = Ret p1
    /\ keydownHandler p1 ArrowUp = Ret p2
    /\ activeSuggestionIndex p1 = (if Nat.eqb (i + 1) n then 0 else i + 1)%nat
    /\ activeSuggestionIndex p2 = i
    /\ currentSuggestions p1 = currentSuggestions p
    /\ currentSuggestions p2 = currentSuggestions p
    /\ nth_error (currentSuggestions p) (activeSuggestionIndex p1) = Some s1
    /\ overlay p1 = Showing s1 (JStr "") false
    /\ nth_error (currentSuggestions p) i = Some s2
    /\ overlay p2 = Showing s2 (JStr "") false.
Proof.
  intros n i N I.
  assert (D : ((i + 1) mod n = if Nat.eqb (i + 1) n then 0 else i + 1)%nat).
  { destruct (Nat.eqb_spec (i + 1) n) as [E|E].
    - rewrite E. apply Nat.Div0.mod_same.
    - apply Nat.mod_small. lia. }
  set (j := (if Nat.eqb (i + 1) n then 0 else i + 1)%nat) in *.
  assert (J : (j < n)%nat) by (rewrite <- D; apply down_index, N).
  destruct (moved p j J) as (s1 & N1 & E1).
  set (p1 := {| field_value := field_value p; lastInputValue := lastInputValue p;
                currentSuggestions := currentSuggestions p;
                activeSuggestionIndex := j;
                overlay := Showing s1 (JStr "") false;
                debounceTimer := debounceTimer p;
                in_flight := in_flight p; issued := issued p |}) in *.
  assert (U : Z.to_nat ((Z.of_nat j - 1 + Z.of_nat n) mod Z.of_nat n) = i).
  { unfold j. destruct (Nat.eqb_spec (i + 1) n) as [E|E].
    - replace (Z.of_nat 0 - 1 + Z.of_nat n) with (Z.of_nat i) by lia.
      rewrite Z.mod_small by lia. lia.
    - replace (Z.of_nat (i + 1) - 1 + Z.of_nat n)
        with (Z.of_nat i + 1 * Z.of_nat n) by lia.
      rewrite Z.mod_add by lia. rewrite Z.mod_small by lia. lia. }
  destruct (moved p1 i I) as (s2 & N2 & E2).
  eexists p1, _, s1, s2.
  split; [|split; [|split; [|split; [|split; [|split; [|split; [|split; [|split]]]]]]]].
  - unfold keydownHandler. fold n. replace (Nat.ltb 1 n) with true
      by (symmetry; apply Nat.ltb_lt, N).
    fold i. rewrite D. exact E1.
  - unfold keydownHandler. cbn [currentSuggestions activeSuggestionIndex p1].
    fold n. replace (Nat.ltb 1 n) with true by (symmetry; apply Nat.ltb_lt, N).
    rewrite U. exact E2.
  - reflexivity.
  - reflexivity.
  - reflexivity.
  - reflexivity.
  - exact N1.
  - reflexivity.
  - exact N2.
  - reflexivity.
Qed.

(** X21.  Tab on a suggestion puts its text into the field, hides the
    overlay and forgets the suggestions; and when the text is not blank
    and not the value handled last, the [input] event it dispatches arms
    the timer: when the timer fires a request goes out for the accepted
    text. *)
Theorem accepting_asks_again (p : Page) (s : Suggestion) :
  nth_error (currentSuggestions p) (activeSuggestionIndex p) = Some s ->
  (1 <= String.length (trim (text s)))%nat ->
  text s <> lastInputValue p ->
  exists p',
    keydownHandler p Tab = Ret p'
    /\ field_value p' = text s
    /\ lastInputValue p' = text s
    /\ currentSuggestions p' = []
    /\ overlay p' = Hidden
    /\ in_flight (step p' TimerFires) = in_flight p ++ [(issued p, text s)].
Proof.
  intros N B L.
  assert (S : currentSuggestions p <> []).
  { intros E. rewrite E in N. destruct (activeSuggestionIndex p); discriminate N. }
  assert (T : text s <> "").
  { intros E. rewrite E in B. simpl in B. lia. }
  unfold keydownHandler, acceptSuggestion.
  destruct (currentSuggestions p) as [|x l] eqn:C; [congruence|].
  cbn [List.length Nat.ltb Nat.leb]. rewrite N.
  destruct (String.eqb_spec (text s) ""); [congruence|].
  unfold inputHandler. cbn [field_value lastInputValue].
  destruct (String.eqb_spec (text s) (lastInputValue p)); [congruence|].
  replace (Nat.leb 1 (String.length (trim (text s)))) with true
    by (symmetry; apply Nat.leb_le, B).
  cbn [negb andb]. eexists. split; [reflexivity|]. cbn. auto 10.
Qed.

Lemma typing_keeps p v :
  let q := step p (Types v) in
  in_flight q = in_flight p /\ issued q = issued p
  /\ (debounceTimer q = debounceTimer p \/ debounceTimer q = Some v).
Proof.
  cbn [step].
  match goal with |- context [inputHandler ?q] =>
    destruct (inputHandler_cases q) as (_ & A & B & _ & _ & C)
  end.
  auto.
Qed.

Lemma typing_new p v :
  (1 <= String.length (trim v))%nat -> v <> lastInputValue p ->
  step p (Types v)
  = {| field_value := v; lastInputValue := v;
       currentSuggestions := currentSuggestions p;
       activeSuggestionIndex := activeSuggestionIndex p;
       overlay := Thinking; debounceTimer := Some v;
       in_flight := in_flight p; issued := issued p |}.
Proof.
  intros B L. cbn [step]. unfold inputHandler. cbn [field_value lastInputValue].
  destruct (String.eqb_spec v (lastInputValue p)); [congruence|].
  replace (Nat.leb 1 (String.length (trim v))) with true
    by (symmetry; apply Nat.leb_le, B).
  reflexivity.
Qed.

Lemma typing_run vs : forall p,
  let q := run (map Types vs) p in
  in_flight q = in_flight p /\ issued q = issued p
  /\ (debounceTimer q = debounceTimer p
      \/ exists v, In v vs /\ debounceTimer q = Some v).
Proof.
  induction vs as [|v vs IH]; intros p; [cbn; auto|].
  cbn [map run fold_left].
  destruct (IH (step p (Types v))) as (A & B & C).
  destruct (typing_keeps p v) as (A' & B' & C').
  unfold run in *. rewrite A, B, A', B'. split; [reflexivity|]. split; [reflexivity|].
  destruct C as [C|(u & U & C)].
  - rewrite C. destruct C' as [C'|C']; [left; exact C'|].
    right. exists v. split; [left; reflexivity | exact C'].
  - right. exists u. split; [right; exact U | exact C].
Qed.

(** X22.  Typing sends nothing by itself: however many edits are made
    before the timer fires, the requests in flight are the ones there
    were.  When the timer fires at most one request goes out, for a
    value that was typed; after an edit that leaves the field with a new
    value that is not blank, it is the request for that value. *)
Theorem typing_is_debounced (vs : list string) (p : Page) :
  let q := run (map Types vs) p in
  let q' := step q TimerFires in
  in_flight q = in_flight p
  /\ issued q = issued p
  /\ debounceTimer q' = None
  /\ (in_flight q' = in_flight p
      \/ exists v, (In v vs \/ debounceTimer p = Some v)
                   /\ in_flight q' = in_flight p ++ [(issued p, v)])
  /\ (forall vs0 v,
        vs = vs0 ++ [v] ->
        (1 <= String.length (trim v))%nat ->
        v <> lastInputValue (run (map Types vs0) p) ->
        field_value q = v /\ in_flight q' = in_flight p ++ [(issued p, v)]).
Proof.
  intros q q'. destruct (typing_run vs p) as (A & B & C). fold q in A, B, C.
  assert (Last : forall vs0 v,
             vs = vs0 ++ [v] ->
             (1 <= String.length (trim v))%nat ->
             v <> lastInputValue (run (map Types vs0) p) ->
             field_value q = v /\ in_flight q' = in_flight p ++ [(issued p, v)]).
  { intros vs0 v E Bl L.
    assert (Q : q = step (run (map Types vs0) p) (Types v)).
    { unfold q, run. rewrite E, map_app, fold_left_app. reflexivity. }
    destruct (typing_run vs0 p) as (A0 & B0 & _).
    unfold q'. rewrite Q, (typing_new _ v Bl L). cbn. rewrite A0, B0. auto. }
  unfold q' in *. clearbody q. clear q'.
  split; [exact A|]. split; [exact B|].
  split; [cbn [step]; destruct (debounceTimer q) eqn:T; [reflexivity | exact T]|].
  split; [|exact Last].
  cbn [step].
  destruct (debounceTimer q) as [v|] eqn:T; [|left; exact A].
  right. exists v. cbn [in_flight]. rewrite A, B. split; [|reflexivity].
  destruct C as [C|(u & U & C)].
  - right. symmetry. exact C.
  - left. injection C as <-. exact U.
Qed.

Lemma typing_is_debounced_witness :
  in_flight (run (map Types ["p"; "py"; "pyt"; "pyth"]) initial) = []
  /\ in_flight (step (run (map Types ["p"; "py"; "pyt"; "pyth"]) initial) TimerFires)
     = [(0%nat, "pyth")].
Proof.
  destruct (typing_is_debounced ["p"; "py"; "pyt"; "pyth"] initial)
    as (A & _ & _ & _ & L).
  split; [exact A|].
  apply (L ["p"; "py"; "pyt"] "pyth" eq_refl); [simpl; lia | discriminate].
Defined.

(** X23.  Neither emptying the field nor Escape takes back a request
    that is waiting for the timer: the overlay is hidden, and when the
    timer fires the request goes out all the same, for the text that
    was typed. *)
Theorem pending_request_survives (p : Page) (v : string) :
  (1 <= String.length (trim v))%nat -> v <> lastInputValue p ->
  let emptied := play [Does (Types v); Does (Types "")] p in
  let escaped := play [Does (Types v); Presses Escape] p in
  field_value emptied = "" /\ overlay emptied = Hidden
  /\ in_flight emptied = in_flight p
  /\ in_flight (act emptied (Does TimerFires)) = in_flight p ++ [(issued p, v)]
  /\ overlay escaped = Hidden
  /\ in_flight escaped = in_flight p
  /\ in_flight (act escaped (Does TimerFires)) = in_flight p ++ [(issued p, v)].
Proof.
  intros B L emptied escaped. unfold emptied, escaped.
  cbn [play fold_left act]. rewrite (typing_new p v B L).
  assert (V : v <> "") by (intros E; rewrite E in B; simpl in B; lia).
  cbn [step keydownHandler]. unfold inputHandler. cbn [field_value lastInputValue].
  destruct (String.eqb_spec "" v); [congruence|].
  cbn. auto 10.
Qed.

Lemma pending_request_survives_witness :
  (1 <= String.length (trim "my card number"))%nat
  /\ "my card number" <> lastInputValue initial
  /\ field_value (play [Does (Types "my card number"); Does (Types "")] initial) = ""
  /\ in_flight (act (play [Does (Types "my card number"); Does (Types "")] initial)
                    (Does TimerFires))
     = [(0%nat, "my card number")].
Proof.
  assert (B : (1 <= String.length (trim "my card number"))%nat) by (simpl; lia).
  assert (L : "my card number" <> lastInputValue initial) by discriminate.
  split; [exact B|]. split; [exact L|].
  destruct (pending_request_survives initial "my card number" B L)
    as (A1 & _ & _ & A2 & _).
  split; [exact A1 | exact A2].
Defined.

(** X24.  Escape does not cancel a request that is in flight: when its
    reply arrives and the field still holds the value it was made for,
    the overlay opens again with the first suggestion. *)
Theorem late_reply_reopens_the_overlay (p : Page) (id : nat) (v : string)
        (r : Response) (s : Suggestion) (rest : list Suggestion) :
  value_of id (in_flight p) = Some v ->
  field_value p = v ->
  success r = true ->
  suggestions (result r) = s :: rest ->
  display (play [Presses Escape] p) = (Hidden, [], activeSuggestionIndex p)
  /\ display (play [Presses Escape; Does (Settles id (Ret (Some r)))] p)
     = (Showing s (reason (result r)) (isFormFill (result r)), s :: rest, 0%nat).
Proof.
  intros V F S L. cbn [play fold_left act keydownHandler].
  split; [reflexivity|].
  unfold dismiss. cbn [step in_flight]. rewrite V.
  unfold completion. cbn [field_value]. rewrite F, String.eqb_refl, S, L.
  reflexivity.
Qed.

Lemma late_reply_reopens_the_overlay_witness :
  value_of 0 (in_flight Sample.asked_py) = Some "py"
  /\ display (play [Presses Escape;
                    Does (Settles 0 (Ret (Some Sample.three_suggestions)))]
                   Sample.asked_py)
     = (Showing {| text := "python asyncio tutorial";
                   derivation := "Session: thread" |} (JStr "ok") false,
        suggestions (result Sample.three_suggestions), 0%nat).
Proof.
  split; [reflexivity|].
  apply (late_reply_reopens_the_overlay Sample.asked_py 0 "py"
           Sample.three_suggestions); reflexivity.
Defined.

Lemma arrows_cycle_witness :
  (1 < List.length (currentSuggestions Sample.showing_three))%nat
  /\ (activeSuggestionIndex Sample.showing_three
      < List.length (currentSuggestions Sample.showing_three))%nat
  /\ exists p1 p2,
       keydownHandler Sample.showing_three ArrowDown = Ret p1
       /\ keydownHandler p1 ArrowUp = Ret p2
       /\ activeSuggestionIndex p1 = 1%nat
       /\ activeSuggestionIndex p2 = 0%nat.
Proof.
  assert (N : (1 < List.length (currentSuggestions Sample.showing_three))%nat)
    by (vm_compute; lia).
  assert (I : (activeSuggestionIndex Sample.showing_three
               < List.length (currentSuggestions Sample.showing_three))%nat)
    by (vm_compute; lia).
  split; [exact N|]. split; [exact I|].
  destruct (arrows_cycle Sample.showing_three N I)
    as (p1 & p2 & s1 & s2 & D & U & I1 & I2 & _).
  exists p1, p2. split; [exact D|]. split; [exact U|]. split; [exact I1 | exact I2].
Defined.

Lemma accepting_asks_again_witness :
  nth_error (currentSuggestions Sample.showing_three)
            (activeSuggestionIndex Sample.showing_three)
  = Some {| text := "python asyncio tutorial"; derivation := "Session: thread" |}
  /\ exists p',
       keydownHandler Sample.showing_three Tab = Ret p'
       /\ field_value p' = "python asyncio tutorial"
       /\ in_flight (step p' TimerFires) = [(1%nat, "python asyncio tutorial")].
Proof.
  assert (N : nth_error (currentSuggestions Sample.showing_three)
                        (activeSuggestionIndex Sample.showing_three)
              = Some {| text := "python asyncio tutorial";
                        derivation := "Session: thread" |}) by reflexivity.
  split; [exact N|].
  destruct (accepting_asks_again Sample.showing_three _ N) as (p' & E & F & _ & _ & _ & T).
  - simpl; lia.
  - discriminate.
  - exists p'. split; [exact E|]. split; [exact F | exact T].
Defined.

Lemma keys_never_fail_witness :
  exists p',
    keydownHandler
      (play [Does (Types "py"); Does TimerFires;
             Does (Settles 0 (Ret (Some Sample.three_suggestions)));
             Presses ArrowUp; Presses ArrowUp] initial) Tab = Ret p'.
Proof.
  destruct (keys_never_fail
              [Does (Types "py"); Does TimerFires;
               Does (Settles 0 (Ret (Some Sample.three_suggestions)));
               Presses ArrowUp; Presses ArrowUp] Tab) as (_ & p' & E & _).
  exists p'. exact E.
Defined.

End KeyboardFacts.
